(** * Line-identity synthesis of [scripts/modify_transit_lines.py]

    A shallow embedding of the renaming pass of the GTFS import
    ([get_operator_name], [get_direction_id], [form_new_linename],
    [change_line_names]) together with the Python string primitives
    these functions rely on.

    Conventions.
    - A Python [str] is a [string]; a character is an [ascii] read as
      the Unicode code point of the same number (0..255).
    - A Python [int] is a [Z].
    - A value that is an [int] on some paths and a [str] on others
      (the line number) is a [pyval].
    - Mutable arguments ([lnames], [running_n], [descriptions]) are
      threaded through a [registry] record. *)

From Stdlib Require Import ZArith NArith Ascii String List Decimal DecimalString DecimalPos DecimalZ.
From Stdlib Require Import Floats.
From stdpp Require Import gmap strings list.

Local Open Scope Z_scope.

(** ** Characters *)

Module PyChar.

Definition ord (c : ascii) : N := N_of_ascii c.

Definition in_range (lo hi : N) (c : ascii) : bool :=
  ((lo <=? ord c) && (ord c <=? hi))%N.

(** [0-9] of a regular expression. *)
Definition is_ascii_digit (c : ascii) : bool := in_range 48 57 c.

(** [a-zA-Z] of a regular expression. *)
Definition is_letter (c : ascii) : bool :=
  in_range 65 90 c || in_range 97 122 c.

(** [a-zA-Z0-9] of a regular expression. *)
Definition is_alnum (c : ascii) : bool := is_letter c || is_ascii_digit c.

(** [str.isdigit] on one character: the decimal digits and the
    superscript digits U+00B2, U+00B3, U+00B9. *)
Definition isdigit (c : ascii) : bool :=
  is_ascii_digit c || (ord c =? 178)%N || (ord c =? 179)%N || (ord c =? 185)%N.

(** The class [\s] of a [str] pattern. *)
Definition isspace (c : ascii) : bool :=
  in_range 9 13 c || in_range 28 32 c || (ord c =? 133)%N || (ord c =? 160)%N.

End PyChar.

(** ** Strings *)

Module PyStr.
Import PyChar.

Definition snoc (s : string) (c : ascii) : string := s +:+ String c "".

Fixpoint any (p : ascii -> bool) (s : string) : bool :=
  match s with
  | "" => false
  | String c r => p c || any p r
  end.

Fixpoint all (p : ascii -> bool) (s : string) : bool :=
  match s with
  | "" => true
  | String c r => p c && all p r
  end.

Fixpoint filter (p : ascii -> bool) (s : string) : string :=
  match s with
  | "" => ""
  | String c r => if p c then String c (filter p r) else filter p r
  end.

Fixpoint take_while (p : ascii -> bool) (s : string) : string :=
  match s with
  | "" => ""
  | String c r => if p c then String c (take_while p r) else ""
  end.

Fixpoint drop_while (p : ascii -> bool) (s : string) : string :=
  match s with
  | "" => ""
  | String c r => if p c then drop_while p r else s
  end.

(** [s[n:]] *)
Fixpoint drop (n : nat) (s : string) : string :=
  match n, s with
  | O, _ => s
  | S _, "" => ""
  | S k, String _ r => drop k r
  end.

(** [s[:n]] *)
Fixpoint take (n : nat) (s : string) : string :=
  match n, s with
  | O, _ => ""
  | S _, "" => ""
  | S k, String c r => String c (take k r)
  end.

Definition rev (s : string) : string := String.rev s.

Fixpoint repeat (c : ascii) (n : nat) : string :=
  match n with
  | O => ""
  | S k => String c (repeat c k)
  end.

(** [sub in s] *)
Fixpoint contains (sub s : string) : bool :=
  String.prefix sub s ||
  match s with
  | "" => false
  | String _ r => contains sub r
  end.

(** [sep.join(l)] *)
Definition join (sep : string) (l : list string) : string := String.concat sep l.

(** [s.split(sep)] for a non-empty [sep]: occurrences are taken from
    left to right and do not overlap.  [skip] counts the characters
    of a separator that was just recognised and remain to be
    passed over. *)
Fixpoint split_go (sep s cur : string) (skip : nat) : list string :=
  match s with
  | "" => [cur]
  | String c r =>
      match skip with
      | S k => split_go sep r cur k
      | O =>
          if String.prefix sep s
          then cur :: split_go sep r "" (String.length sep - 1)
          else split_go sep r (snoc cur c) O
      end
  end.

Definition split (sep s : string) : list string := split_go sep s "" O.

(** [s.strip(c)] for a one-character argument. *)
Definition strip (c : ascii) (s : string) : string :=
  let p := Ascii.eqb c in
  rev (drop_while p (rev (drop_while p s))).

(** [re.split(r'\s*-\s*', s)].  The leftmost match for a dash starts
    at the beginning of the white space run in front of it and
    extends over the white space behind it.  [seg] is the segment
    read so far, [pend] the white space run that ends it and that
    belongs to the delimiter if a dash follows; [skip] is set right
    after a dash, while the white space behind it is consumed. *)
Fixpoint re_split_dash_go (s seg pend : string) (skip : bool) : list string :=
  match s with
  | "" => [seg +:+ pend]
  | String c r =>
      if Ascii.eqb c "-" then seg :: re_split_dash_go r "" "" true
      else if isspace c then
        if skip then re_split_dash_go r seg pend true
        else re_split_dash_go r seg (snoc pend c) false
      else re_split_dash_go r (snoc (seg +:+ pend) c) "" false
  end.

Definition re_split_dash (s : string) : list string :=
  re_split_dash_go s "" "" false.

(** [re.split('\s+', s)]. [inws] is set while a white space run is
    being consumed. *)
Fixpoint re_split_ws_go (s cur : string) (inws : bool) : list string :=
  match s with
  | "" => [cur]
  | String c r =>
      if isspace c then
        if inws then re_split_ws_go r cur true
        else cur :: re_split_ws_go r "" true
      else re_split_ws_go r (snoc cur c) false
  end.

Definition re_split_ws (s : string) : list string := re_split_ws_go s "" false.

(** [str(n)] for an [int]. *)
Definition of_int (n : Z) : string := NilZero.string_of_int (Z.to_int n).

(** [s.zfill(width)]: zeros are inserted after a leading sign. *)
Definition zfill (width : nat) (s : string) : string :=
  let pad := repeat "0" (width - String.length s) in
  match s with
  | String c r =>
      if Ascii.eqb c "+" || Ascii.eqb c "-"
      then String c (pad +:+ r)
      else pad +:+ s
  | "" => pad
  end.

(** [s[:-n]] for a positive [n]. *)
Definition drop_last (n : nat) (s : string) : string :=
  take (String.length s - n) s.

Definition digit_value (c : ascii) : Z := Z.of_N (ord c) - 48.

(** The digits of an [int] literal given to [int()]: decimal digits,
    with single underscores allowed between two digits. *)
Fixpoint int_digits (s : string) (acc : Z) (after_digit : bool) : option Z :=
  match s with
  | "" => if after_digit then Some acc else None
  | String c r =>
      if is_ascii_digit c then int_digits r (10 * acc + digit_value c) true
      else if Ascii.eqb c "_" then
        if after_digit then int_digits r acc false else None
      else None
  end.

(** White space that [int()] strips around its argument. *)
Definition int_space (c : ascii) : bool :=
  in_range 9 13 c || (ord c =? 32)%N || (ord c =? 133)%N || (ord c =? 160)%N.

(** [int(s)] in base ten; [None] stands for [ValueError]. *)
Definition to_int (s : string) : option Z :=
  let t := rev (drop_while int_space (rev (drop_while int_space s))) in
  match t with
  | String c r =>
      if Ascii.eqb c "+" then int_digits r 0 false
      else if Ascii.eqb c "-" then Z.opp <$> int_digits r 0 false
      else int_digits t 0 false
  | "" => None
  end.

End PyStr.

(** ** Values and exceptions *)

(** The line number is an [int] when it was drawn from a running
    counter or incremented, and a [str] otherwise. *)
Inductive pyval : Type :=
| PInt (n : Z)
| PStr (s : string).

(** [str(v)] *)
Definition py_str (v : pyval) : string :=
  match v with
  | PInt n => PyStr.of_int n
  | PStr s => s
  end.

(** [v == s] for a [str] [s]: an [int] never equals a [str]. *)
Definition py_eq_str (v : pyval) (s : string) : bool :=
  match v with
  | PInt _ => false
  | PStr t => String.eqb t s
  end.

Inductive exn : Type :=
| IndexError
| ValueError (msg : string)
| TypeError.

(** Outcome of a call: a value, an exception, or [Unfinished] when
    the fuel given to a [while] loop is used up. *)
Inductive outcome (A : Type) : Type :=
| Return (a : A)
| Raise (e : exn)
| Unfinished.

Arguments Return {A} a.
Arguments Raise {A} e.
Arguments Unfinished {A}.

(** ** The name registry *)

(** One element of [descriptions]:
    [(cleaned_route, (line_number, line_letter), dir_id)]. *)
Definition history_entry : Type := string * (pyval * string) * Z.

(** [used_linenumber[0]] of a history entry. *)
Definition entry_number (e : history_entry) : pyval := fst (snd (fst e)).

Record registry : Type := Registry {
  lnames : list string;
  running_n : gmap string Z;
  descriptions : list history_entry
}.

(** The state [change_line_names] starts from. *)
Definition empty_registry : registry := Registry [] ∅ [].

(** ** Helpers nested in [form_new_linename] *)

Definition includes_numbers (s : string) : bool := PyStr.any PyChar.isdigit s.

Definition strip_prefix (p s : string) : string :=
  if String.prefix p s then PyStr.drop (String.length p) s else s.

Definition clean_line_code (s : string) : string :=
  let cleaned := PyStr.filter PyChar.is_alnum s in
  let cleaned := PyStr.filter (fun c => negb (Ascii.eqb c "/")) cleaned in
  strip_prefix "ELY" cleaned.

(** The match of [([a-zA-Z]+)$]: the letters that end the string, or
    the letters in front of a final line feed. *)
Definition trailing_letters (s : string) : string :=
  let t := PyStr.rev (PyStr.take_while PyChar.is_letter (PyStr.rev s)) in
  match t with
  | String _ _ => t
  | "" =>
      match PyStr.rev s with
      | String c r =>
          if Ascii.eqb c "010"
          then PyStr.rev (PyStr.take_while PyChar.is_letter r)
          else ""
      | "" => ""
      end
  end.

(** Returns [(cleaned, prefix, suffix)]. *)
Definition remove_last_letters (s : string) : string * string * string :=
  let suffix := trailing_letters s in
  let cleaned :=
    match suffix with
    | String _ _ => PyStr.drop_last (String.length suffix) s
    | "" => s
    end in
  let prefix := PyStr.take_while PyChar.is_letter cleaned in
  let cleaned := PyStr.drop (String.length prefix) cleaned in
  (cleaned, prefix, suffix).

(** ** Transit lines *)

(** A transit line of the network: [line.id], [line.mode.id],
    [line['#route_name']], [line['#agency_name']] and
    [line.description]. *)
Record transit_line : Type := TransitLine {
  line_id : string;
  mode_id : string;
  route_name : string;
  agency_name : string;
  description : string
}.

(** ** [form_new_linename] *)

Definition nonempty (s : string) : bool :=
  match s with
  | "" => false
  | String _ _ => true
  end.

(** The head of the function up to the [elif] chain: the route number
    and the remaining [parts], or [None] when [parts[1]] raises
    [IndexError].  Inside the first branch the indices [0] and [1] of
    [starting_point] are in range by the test on its length. *)
Definition parse_route_name (route_name : string) : option (string * list string) :=
  let parts := PyStr.re_split_dash route_name in
  match parts with
  | p0 :: p1 :: _ =>
      let starting_point := PyStr.re_split_ws p1 in
      if (1 <? length starting_point)%nat && includes_numbers p0 then
        let route_number := p0 in
        let parts := tail parts in
        let parts :=
          if (2 <? length starting_point)%nat then
            if includes_numbers (nth 0 starting_point "")
            then PyStr.join " " (tail starting_point) :: tail parts
            else parts
          else if includes_numbers (nth 0 starting_point "")
          then nth 1 starting_point "" :: tail parts
          else nth 0 starting_point "" :: tail parts in
        Some (route_number, parts)
      else if includes_numbers p0 then Some (p0, tail parts)
      else if String.eqb p0 "" then Some ("", tail parts)
      else Some ("", parts)
  | _ => None
  end.

Definition n_to_fill (line_letter : string) : nat :=
  if (String.length line_letter =? 2)%nat then 3%nat else 4%nat.

(** [f"{line_letter}{str(line_number).zfill(n_to_fill)}{dir_id}"] *)
Definition make_linename (line_letter : string) (line_number : pyval) (dir_id : Z) : string :=
  line_letter +:+ PyStr.zfill (n_to_fill line_letter) (py_str line_number) +:+ PyStr.of_int dir_id.

(** What one round of the [for] loop over [descriptions] does. *)
Inductive scan_step : Type :=
| Continue
| Break (line_number : pyval) (line_code_prefix line_code_suffix : string)
| Fail (printed : list string).

(** The tests of the four branches of the loop body, in the order in
    which the source tries them. *)

(** "Same stops in desc, but reverse direction". *)
Definition same_route (cleaned_route : string) (dir_id : Z) (e : history_entry) : bool :=
  let '(used_route, used_linenumber, used_dir_id) := e in
  String.eqb used_route cleaned_route && negb (used_dir_id =? dir_id).

(** "Reverse stops in desc, and reverse direction". *)
Definition reverse_route (reversed_route : string) (dir_id : Z) (e : history_entry) : bool :=
  let '(used_route, used_linenumber, used_dir_id) := e in
  String.eqb used_route reversed_route && negb (used_dir_id =? dir_id).

(** "Same endpoints and number, different stops". *)
Definition continued_route (cleaned_route route_number line_letter : string) (dir_id : Z)
    (e : history_entry) : bool :=
  let '(used_route, used_linenumber, used_dir_id) := e in
  String.eqb (PyStr.strip "." (List.last (PyStr.split " - " used_route) ""))
             (PyStr.strip "." (List.hd "" (PyStr.split " - " cleaned_route)))
  && negb (used_dir_id =? dir_id)
  && py_eq_str (fst used_linenumber) (clean_line_code route_number)
  && String.eqb line_letter (snd used_linenumber).

(** "Same number but different stops and endpoints". *)
Definition same_number (route_number line_letter : string) (e : history_entry) : bool :=
  let '(used_route, used_linenumber, used_dir_id) := e in
  py_eq_str (fst used_linenumber) (clean_line_code route_number)
  && String.eqb line_letter (snd used_linenumber).

(** The body of the [try] statement of the fourth branch. *)
Definition bump_number (route_number : string) : scan_step :=
  let '(line_number, line_code_prefix, line_code_suffix) :=
    remove_last_letters (clean_line_code route_number) in
  if negb (nonempty line_code_suffix)
     && (String.length line_number + String.length line_code_prefix <? 4)%nat
  then Break (PStr line_number) line_code_prefix "B"
  else
    match PyStr.to_int line_number with
    | Some n => Break (PInt (n + 1)) line_code_prefix line_code_suffix
    | None => Fail [route_number; line_number; line_code_suffix]
    end.

Definition match_entry (cleaned_route reversed_route route_number line_letter : string)
    (dir_id : Z) (e : history_entry) : scan_step :=
  if same_route cleaned_route dir_id e then Break (entry_number e) "" ""
  else if reverse_route reversed_route dir_id e then Break (entry_number e) "" ""
  else if continued_route cleaned_route route_number line_letter dir_id e
  then Break (entry_number e) "" ""
  else if same_number route_number line_letter e then bump_number route_number
  else Continue.

(** The [for] loop: the first entry that does not [Continue] decides. *)
Fixpoint scan_history (cleaned_route reversed_route route_number line_letter : string)
    (dir_id : Z) (descriptions : list history_entry) : scan_step :=
  match descriptions with
  | [] => Continue
  | e :: rest =>
      match match_entry cleaned_route reversed_route route_number line_letter dir_id e with
      | Continue =>
          scan_history cleaned_route reversed_route route_number line_letter dir_id rest
      | step => step
      end
  end.

(** "Recombine prefix and suffix with line_number". *)
Definition recombine (line_number : pyval) (line_code_prefix line_code_suffix : string) : string :=
  if nonempty line_code_suffix && nonempty line_code_prefix then
    PyStr.take 1 line_code_prefix +:+ py_str line_number +:+ PyStr.take 1 line_code_suffix
  else if nonempty line_code_prefix then
    PyStr.take 1 line_code_prefix +:+ py_str line_number
  else if nonempty line_code_suffix then
    py_str line_number +:+ PyStr.take 1 line_code_suffix
  else py_str line_number.

(** The [while linename in lnames] loop.  [line_letter] is a key of
    [running_n] whenever the loop is entered. *)
Fixpoint redraw (fuel : nat) (lnames : list string) (line_letter : string) (dir_id : Z)
    (linename : string) (line_number : pyval) (running_n : gmap string Z)
    : option (string * pyval * gmap string Z) :=
  if bool_decide (linename ∈ lnames) then
    match fuel with
    | O => None
    | S fuel' =>
        let n := running_n !!! line_letter in
        redraw fuel' lnames line_letter dir_id
               (make_linename line_letter (PInt n) dir_id) (PInt n)
               (<[line_letter := n + 1]> running_n)
    end
  else Some (linename, line_number, running_n).

Definition route_message (cleaned_route route_number : string) : string :=
  "Route: " +:+ cleaned_route +:+ ", route_number: " +:+ route_number.

(** The result is the returned pair [(linename, cleaned_route)] or the
    exception, the registry as the call leaves it, and the lines
    written to standard output. *)
Definition form_new_linename (line : transit_line) (line_letter : string) (dir_id : Z)
    (st : registry) : outcome (string * string) * registry * list string :=
  let running_n0 :=
    match running_n st !! line_letter with
    | None => <[line_letter := 99]> (running_n st)
    | Some _ => running_n st
    end in
  let st0 := Registry (lnames st) running_n0 (descriptions st) in
  match parse_route_name (route_name line) with
  | None => (Raise IndexError, st0, [])
  | Some (route_number, parts) =>
      let cleaned_route := PyStr.join " - " parts in
      let reversed_route := PyStr.join " - " (rev parts) in
      let out := [route_message cleaned_route route_number] in
      let resolved :=
        match scan_history cleaned_route reversed_route route_number line_letter dir_id
                           (descriptions st) with
        | Break line_number line_code_prefix line_code_suffix =>
            inl (line_number, line_code_prefix, line_code_suffix, running_n0)
        | Fail printed => inr printed
        | Continue =>
            if nonempty route_number then
              let '(line_number, line_code_prefix, line_code_suffix) :=
                remove_last_letters (clean_line_code route_number) in
              inl (PStr line_number, line_code_prefix, line_code_suffix, running_n0)
            else
              let n := running_n0 !!! line_letter in
              inl (PInt n, "", "", <[line_letter := n + 1]> running_n0)
        end in
      match resolved with
      | inr printed =>
          (Raise (ValueError "Line number is not a number"), st0, out ++ printed)
      | inl (line_number, line_code_prefix, line_code_suffix, running_n1) =>
          let line_number := PStr (recombine line_number line_code_prefix line_code_suffix) in
          match redraw (S (length (lnames st))) (lnames st) line_letter dir_id
                       (make_linename line_letter line_number dir_id) line_number running_n1 with
          | None => (Unfinished, Registry (lnames st) running_n1 (descriptions st), out)
          | Some (linename, line_number, running_n2) =>
              (Return (linename, cleaned_route),
               Registry (lnames st ++ [linename]) running_n2
                        (descriptions st ++ [(cleaned_route, (line_number, line_letter), dir_id)]),
               out)
          end
      end
  end.

(** ** The coordinate table *)

(** A row of [df_line_coords]: the line, its first and last node and
    their coordinates ([float64] columns). *)
Record coord_row : Type := CoordRow {
  row_line : string;
  ca_first_t : Z;
  ca_last_t : Z;
  xi : float;
  yi : float;
  xj : float;
  yj : float
}.

(** [df.loc[df["line"] == line_id]] *)
Definition df_loc (df : list coord_row) (line_id : string) : list coord_row :=
  List.filter (fun r => String.eqb (row_line r) line_id) df.

(** ** [get_direction_id] *)

Definition hel_x : float := 25496699%float.
Definition hel_y : float := 6673208%float.

(** [sqrt((hel_x - x)**2 + (hel_y - y)**2)] in binary64. *)
Definition hel_distance (x y : float) : float :=
  PrimFloat.sqrt ((hel_x - x) * (hel_x - x) + (hel_y - y) * (hel_y - y))%float.

(** The direction of a row that is the only one of its line. *)
Definition direction_of_row (r : coord_row) : Z :=
  let direction_id := 1 in
  let first_node := ca_first_t r in
  let last_node := ca_last_t r in
  if first_node =? last_node then 3
  else
    let start_diff := hel_distance (xi r) (yi r) in
    let end_diff := hel_distance (xj r) (yj r) in
    if PrimFloat.ltb end_diff start_diff then 2 else direction_id.

(** [int(...)] of a selection that is not a single row raises
    [TypeError]. *)
Definition get_direction_id (df : list coord_row) (line_id : string) : outcome Z :=
  match df_loc df line_id with
  | [r] => Return (direction_of_row r)
  | _ => Raise TypeError
  end.

(** ** [get_operator_name] *)

Section Zones.

(** The areas of the zone file and [shapely.intersects] of a point
    with an area. *)
Variable geometry : Type.
Variable intersects : float * float -> geometry -> bool.

(** A feature of the zone file: its [properties] and, at the same
    index of [geometries.geoms], its area. *)
Definition feature : Type := gmap string string * geometry.

(** [muni_short_codes[value["properties"][muni_name_col]]]; [None] is
    the [KeyError]. *)
Definition short_code (muni_short_codes : gmap string string) (muni_name_col : string)
    (value : gmap string string) : option string :=
  match value !! muni_name_col with
  | Some name => muni_short_codes !! name
  | None => None
  end.

(** [c in muni_short_codes.values()] *)
Definition is_short_code (muni_short_codes : gmap string string) (c : string) : bool :=
  bool_decide (c ∈ (map_to_list muni_short_codes).*2).

(** The [for] loop over [features]; [hit1] and [hit2] tell whether the
    first and the last node lie in an area.  Leaving the loop by
    [break] or at its end returns ["V"]. *)
Fixpoint zone_loop (hit1 hit2 : geometry -> bool) (muni_name_col : string)
    (muni_short_codes : gmap string string) (features : list feature)
    (muniname : list string) : string :=
  match features with
  | [] => "V"
  | (value, geom) :: rest =>
      let appended :=
        if hit1 geom || hit2 geom then
          match short_code muni_short_codes muni_name_col value with
          | Some c => Some (muniname ++ [c])
          | None => None
          end
        else Some muniname in
      match appended with
      | None => "V"
      | Some muniname =>
          if (length muniname =? 2)%nat then
            if String.eqb (nth 0 muniname "") (nth 1 muniname "")
               && is_short_code muni_short_codes (nth 0 muniname "")
            then nth 0 muniname ""
            else "V"
          else zone_loop hit1 hit2 muni_name_col muni_short_codes rest muniname
      end
  end.

(** With no row for the line both point arrays are empty and no area
    is hit; with several rows the truth value of the array of hits is
    ambiguous and the first round of the loop raises [ValueError]. *)
Definition get_operator_name (df : list coord_row) (line : transit_line)
    (features : list feature) (muni_name_col : string)
    (muni_short_codes : gmap string string) : outcome string :=
  if PyStr.contains "OnniBus" (agency_name line) then Return "O"
  else
    match df_loc df (line_id line) with
    | [] =>
        Return (zone_loop (fun _ => false) (fun _ => false)
                          muni_name_col muni_short_codes features [])
    | [r] =>
        Return (zone_loop (intersects (xi r, yi r)) (intersects (xj r, yj r))
                          muni_name_col muni_short_codes features [])
    | _ =>
        match features with
        | [] => Return "V"
        | _ :: _ => Raise (ValueError "The truth value of an array with more than one element is ambiguous")
        end
    end.

(** ** [change_line_names] *)

Record dev_config : Type := DevConfig {
  vehicle_ids : gmap string Z;
  muni_col_name : string;
  muni_short_codes : gmap string string
}.

(** The scenario of the modelling platform: the lines it stores and
    the networks published to it so far. *)
Record scenario : Type := Scenario {
  stored_lines : list transit_line;
  published : list (list transit_line)
}.

(** [scenario.get_network()] hands out a copy of the stored network. *)
Definition get_network (sc : scenario) : list transit_line := stored_lines sc.

(** [scenario.publish_network(network)] *)
Definition publish_network (network : list transit_line) (sc : scenario) : scenario :=
  Scenario network (published sc ++ [network]).

(** The description written back for a line. *)
Definition short_description (desc : string) : string :=
  let re_short_route_name := PyStr.re_split_dash desc in
  let short_route_name := PyStr.split "-" desc in
  if negb (String.eqb (List.hd "" short_route_name) " ")
  then PyStr.take 115 (PyStr.join "-" re_short_route_name)
  else PyStr.take 115 (PyStr.join "-" (tail re_short_route_name)).

(** One round of the loop over [tlines]: the line as the round leaves
    it in the working copy of the network, and the registry. *)
Definition rename_line (cfg : dev_config) (df : list coord_row) (features : list feature)
    (line : transit_line) (st : registry) : outcome (transit_line * registry) :=
  if bool_decide (is_Some (vehicle_ids cfg !! mode_id line)) then
    match get_operator_name df line features (muni_col_name cfg) (muni_short_codes cfg) with
    | Return line_letter =>
        match get_direction_id df (line_id line) with
        | Return dir_id =>
            match form_new_linename line line_letter dir_id st with
            | (Return (linename, desc), st', _) =>
                Return (TransitLine linename (mode_id line) (route_name line)
                                    (agency_name line) (short_description desc), st')
            | (Raise e, _, _) => Raise e
            | (Unfinished, _, _) => Unfinished
            end
        | Raise e => Raise e
        | Unfinished => Unfinished
        end
    | Raise e => Raise e
    | Unfinished => Unfinished
    end
  else Return (line, st).

(** The loop over [tlines], on the working copy of the network. *)
Fixpoint rename_lines (cfg : dev_config) (df : list coord_row) (features : list feature)
    (tlines : list transit_line) (st : registry) : outcome (list transit_line * registry) :=
  match tlines with
  | [] => Return ([], st)
  | line :: rest =>
      match rename_line cfg df features line st with
      | Return (line', st') =>
          match rename_lines cfg df features rest st' with
          | Return (rest', st'') => Return (line' :: rest', st'')
          | Raise e => Raise e
          | Unfinished => Unfinished
          end
      | Raise e => Raise e
      | Unfinished => Unfinished
      end
  end.

(** An exception leaves the function before [publish_network] is
    reached. *)
Definition change_line_names (cfg : dev_config) (df_line_coords : list coord_row)
    (features : list feature) (sc : scenario) : outcome unit * scenario :=
  let network := get_network sc in
  match rename_lines cfg df_line_coords features network empty_registry with
  | Return (network', _) => (Return tt, publish_network network' sc)
  | Raise e => (Raise e, sc)
  | Unfinished => (Unfinished, sc)
  end.

End Zones.

Arguments get_operator_name {geometry} intersects df line features muni_name_col muni_short_codes.
Arguments zone_loop {geometry} hit1 hit2 muni_name_col muni_short_codes features muniname.
Arguments rename_line {geometry} intersects cfg df features line st.
Arguments rename_lines {geometry} intersects cfg df features tlines st.
Arguments change_line_names {geometry} intersects cfg df_line_coords features sc.

(** ** Vocabulary of the statements *)

(** The value of a digit string, and of a zero padded numeral with an
    optional minus sign. *)
Definition decode_uint (s : string) : option Z :=
  Z.of_uint <$> NilEmpty.uint_of_string s.

Definition decode_padded (s : string) : option Z :=
  match s with
  | String c r => if Ascii.eqb c "-" then Z.opp <$> decode_uint r else decode_uint s
  | "" => None
  end.

(** A call of [form_new_linename]: the line, its letter and its
    direction. *)
Definition call : Type := transit_line * string * Z.

(** A sequence of calls that share [lnames], [running_n] and
    [descriptions], as in the loop of [change_line_names]; the
    identifiers are returned in the order of the calls.  The first
    exception ends the sequence. *)
Fixpoint run_calls (calls : list call) (st : registry) : outcome (list string) * registry :=
  match calls with
  | [] => (Return [], st)
  | (line, line_letter, dir_id) :: rest =>
      match form_new_linename line line_letter dir_id st with
      | (Return (linename, _), st', _) =>
          match run_calls rest st' with
          | (Return names, st'') => (Return (linename :: names), st'')
          | other => other
          end
      | (Raise e, st', _) => (Raise e, st')
      | (Unfinished, st', _) => (Unfinished, st')
      end
  end.

(** What [change_line_names] does to a line: a line of a mode that is
    renamed gets a description of at most 115 characters; the other
    lines are not touched. *)
Definition written_back (cfg : dev_config) (line line' : transit_line) : Prop :=
  mode_id line' = mode_id line
  /\ if bool_decide (is_Some (vehicle_ids cfg !! mode_id line))
     then (String.length (description line') <= 115)%nat
     else line' = line.

(** The value of the running counter of a letter; a letter without a
    counter gets one that starts at 99. *)
Definition counter (st : registry) (line_letter : string) : Z :=
  default 99 (running_n st !! line_letter).

(** The numbers of the history entries added between two states. *)
Definition assigned_numbers (st st' : registry) : list pyval :=
  drop (length (descriptions st)) (map entry_number (descriptions st')).



(** A number whose text is made of letters and digits: a string of
    such characters, or an integer that is not negative. *)
Definition alnum_number (v : pyval) : bool :=
  match v with
  | PInt n => 0 <=? n
  | PStr s => PyStr.all PyChar.is_alnum s
  end.

(** What holds of the registry during a pass that starts from the
    empty one: no counter is negative and the numbers of the history
    are made of letters and digits. *)
Definition wf_registry (st : registry) : Prop :=
  (forall line_letter n, running_n st !! line_letter = Some n -> 0 <= n)
  /\ Forall (fun e => alnum_number (entry_number e) = true) (descriptions st).

(** The shape [<letter><digits><direction>] with exactly
    [n_to_fill line_letter] decimal digits. *)
Definition digits_shape (line_letter : string) (dir_id : Z) (linename : string) : bool :=
  let rest := PyStr.drop (String.length line_letter) linename in
  let digits := PyStr.take (n_to_fill line_letter) rest in
  String.prefix line_letter linename
  && (String.length digits =? n_to_fill line_letter)%nat
  && PyStr.all PyChar.is_ascii_digit digits
  && String.eqb (PyStr.drop (n_to_fill line_letter) rest) (PyStr.of_int dir_id).

(** The steps of the history scan that break give a number, a prefix
    and a suffix as [recombine_alnum] wants them. *)
Definition step_alnum (step : scan_step) : Prop :=
  match step with
  | Break v prefix suffix =>
      alnum_number v = true
      /\ PyStr.all PyChar.is_letter prefix = true
      /\ PyStr.all PyChar.is_letter suffix = true
  | _ => True
  end.


(** The lines that [change_line_names] renames. *)
Definition renamed (cfg : dev_config) (line : transit_line) : bool :=
  bool_decide (is_Some (vehicle_ids cfg !! mode_id line)).

(** ** Distances, rounded and exact *)

(** [sqrt((hel_x - x)**2 + (hel_y - y)**2)] as IEEE 754 reads it: the
    two differences, the two squares, their sum and the square root
    are each rounded to the nearest binary64 value. *)
Definition rounded_distance (x y : float) : spec_float :=
  let dx := SF64sub (Prim2SF hel_x) (Prim2SF x) in
  let dy := SF64sub (Prim2SF hel_y) (Prim2SF y) in
  SF64sqrt (SF64add (SF64mul dx dx) (SF64mul dy dy)).

(** A dyadic number [(m, e)] stands for [m * 2^e]. *)
Definition dyadic : Type := (Z * Z)%type.

(** The number a binary64 value stands for; an infinity and a missing
    value (NaN) stand for none. *)
Definition exact_value (x : float) : option dyadic :=
  match Prim2SF x with
  | S754_zero _ => Some (0, 0)
  | S754_finite s m e => Some (if s then Z.neg m else Z.pos m, e)
  | _ => None
  end.

(** The mantissa of [a] at the exponent [e <= a.2]. *)
Definition dy_align (a : dyadic) (e : Z) : Z := a.1 * 2 ^ (a.2 - e).

Definition dy_add (a b : dyadic) : dyadic :=
  let e := Z.min a.2 b.2 in (dy_align a e + dy_align b e, e).

Definition dy_sub (a b : dyadic) : dyadic :=
  let e := Z.min a.2 b.2 in (dy_align a e - dy_align b e, e).

Definition dy_mul (a b : dyadic) : dyadic := (a.1 * b.1, a.2 + b.2).

Definition dy_ltb (a b : dyadic) : bool :=
  let e := Z.min a.2 b.2 in dy_align a e <? dy_align b e.

(** The square of the Euclidean distance from the reference point
    (25496699, 6673208) to the point [(x, y)], without any rounding. *)
Definition exact_sq_distance (x y : float) : option dyadic :=
  match exact_value x, exact_value y with
  | Some a, Some b =>
      let dx := dy_sub (25496699, 0) a in
      let dy := dy_sub (6673208, 0) b in
      Some (dy_add (dy_mul dx dx) (dy_mul dy dy))
  | _, _ => None
  end.

(** ** Further vocabulary *)

(** The first character of a string is not a letter. *)
Definition no_letter_first (s : string) : bool :=
  match s with
  | "" => true
  | String c _ => negb (PyChar.is_letter c)
  end.

(** The string holds no dash. *)
Definition no_dash (s : string) : bool := negb (PyStr.any (Ascii.eqb "-") s).

(** The string starts, respectively ends, with white space. *)
Definition starts_with_space (s : string) : bool :=
  match s with
  | "" => false
  | String c _ => PyChar.isspace c
  end.

Fixpoint ends_with_space (s : string) : bool :=
  match s with
  | "" => false
  | String c "" => PyChar.isspace c
  | String _ r => ends_with_space r
  end.

(** Segments as a split at the dashes leaves them: none holds a dash,
    only the first may start with white space and only the last may
    end with it. *)
Fixpoint canonical_segments (first : bool) (parts : list string) : Prop :=
  match parts with
  | [] => True
  | p :: rest =>
      no_dash p = true
      /\ (first = true \/ starts_with_space p = false)
      /\ match rest with
         | [] => True
         | _ :: _ => ends_with_space p = false /\ canonical_segments false rest
         end
  end.

(** Between two states of [running_n] only the counter of one letter
    has moved, and it has not moved back. *)
Definition counter_advanced (line_letter : string) (running_n running_n' : gmap string Z) : Prop :=
  (forall k, k <> line_letter -> running_n' !! k = running_n !! k)
  /\ default 99 (running_n !! line_letter) <= default 99 (running_n' !! line_letter).

(** The letter and the direction of a history entry. *)
Definition entry_letter (e : history_entry) : string := snd (snd (fst e)).
Definition entry_dir_id (e : history_entry) : Z := snd e.

(** The first character of a string is not a dash. *)
Definition head_no_dash (s : string) : bool :=
  match s with
  | "" => true
  | String c _ => negb (Ascii.eqb c "-")
  end.

(** The row of the line that runs the other way: first and last node
    and their coordinates change places. *)
Definition reverse_row (r : coord_row) : coord_row :=
  CoordRow (row_line r) (ca_last_t r) (ca_first_t r) (xj r) (yj r) (xi r) (yi r).

(** ** [change_line_vehicle] *)

(** A row of [df_stop_dist]: the line, its agency and the average
    distance between its stops. *)
Record stop_dist_row : Type := StopDistRow {
  sd_line : string;
  sd_agency_name : string;
  sd_avg : float
}.

(** [range(0, stop, step)] for a positive [step]. *)
Definition py_range_step (stop step : nat) : list nat :=
  map (fun k => (k * step)%nat) (seq 0 ((stop + step - 1) / step)).

(** [l[i:j]] for [i <= j]. *)
Definition slice {A : Type} (i j : nat) (l : list A) : list A := take (j - i) (drop i l).

Definition line_limit_n : nat := 12.

(** [[lines[i:i+line_limit_n] for i in range(0, len(lines), line_limit_n)]] *)
Definition chunk_lines (lines : list string) : list (list string) :=
  map (fun i => slice i (i + line_limit_n) lines) (py_range_step (length lines) line_limit_n).

(** A call of the tool that changes the vehicle of the selected
    lines: the number of the vehicle and the selection. *)
Record tool_call : Type := ToolCall {
  call_vehicle : Z;
  call_selection : string
}.

Definition select_lines (vehicle : Z) (chunk : list string) : tool_call :=
  ToolCall vehicle ("line = " +:+ PyStr.join "," chunk).

(** The lines with an average stop distance above the threshold, the
    lines whose identifier starts with ["O"], and among these the
    ones of the agency "OnniBus MEGA". *)
Definition e_lines (df : list stop_dist_row) (min_stop_dist : float) : list string :=
  sd_line <$> List.filter (fun r => PrimFloat.ltb min_stop_dist (sd_avg r)) df.

Definition ob_lines (df : list stop_dist_row) : list string :=
  sd_line <$> List.filter (fun r => String.prefix "O" (sd_line r)) df.

Definition ob_mega_lines (df : list stop_dist_row) : list string :=
  sd_line <$> List.filter (fun r => String.prefix "O" (sd_line r)
                                    && String.eqb (sd_agency_name r) "OnniBus MEGA") df.

(** [min_stop_dist] is [dev_config["stop_distance"]], a finite number.
    The result is the list that is returned and the calls of the tool
    in their order; [None] is the [KeyError] of
    [dev_config["vehicle_ids"]["e"]], which is raised before the
    first call. *)
Definition change_line_vehicle (df : list stop_dist_row) (min_stop_dist : float)
    (cfg : dev_config) : option (list string * list tool_call) :=
  let combined_lines := e_lines df min_stop_dist ++ ob_lines df in
  let concat_lines := chunk_lines combined_lines in
  let concat_ob_lines := chunk_lines (ob_mega_lines df) in
  match vehicle_ids cfg !! "e" with
  | None => None
  | Some veh =>
      Some (combined_lines,
            map (select_lines veh) concat_lines ++ map (select_lines 12) concat_ob_lines)
  end.

(** ** [set_vdfs] *)

(** A road class of [param.roadclasses]. *)
Record road_class : Type := RoadClass {
  rc_volume_delay_func : Z;
  rc_lane_capacity : float;
  rc_free_flow_speed : float
}.

(** A link of the network: [link.type], [link.volume_delay_func],
    [link.data1] and [link.data2]. *)
Record link : Type := Link {
  link_type : Z;
  volume_delay_func : Z;
  data1 : float;
  data2 : float
}.

Section Vdfs.

(** The tables of the module [parameters.assignment]:
    [param.roadclasses] and the keys of [param.custom_roadtypes]. *)
Variable roadclasses : gmap Z road_class.
Variable custom_roadtypes : gset Z.

(** The body of the loop over the links.  The search for "the most
    appropriate road class" in the branch of the custom road types
    assigns to local names only and leaves the link as it is. *)
Definition set_vdf (l : link) : link :=
  let linktype := link_type l mod 100 in
  match roadclasses !! linktype with
  | Some roadclass =>
      Link (link_type l) (rc_volume_delay_func roadclass)
           (rc_lane_capacity roadclass) (rc_free_flow_speed roadclass)
  | None =>
      if bool_decide (linktype ∈ custom_roadtypes)
      then Link (link_type l) (linktype - 90) (data1 l) (data2 l)
      else Link (link_type l) 0 (data1 l) (data2 l)
  end.

(** The links of the network that is published. *)
Definition set_vdfs (links : list link) : list link := map set_vdf links.

End Vdfs.

(** ** The end of [get_line_data] *)

(** A row of [df_line_ends], which holds the lines of mode ["d"], and
    a row of [df_node_coords]. *)
Record line_end : Type := LineEnd {
  le_line : string;
  le_first_t : Z;
  le_last_t : Z
}.

Record node_coord : Type := NodeCoord {
  nc_node : Z;
  nc_x : float;
  nc_y : float
}.

(** The coordinates a left merge finds for a node: the ones of every
    row of the node, or missing values if there is none. *)
Definition merge_coords (nodes : list node_coord) (node : Z) : list (float * float) :=
  match List.filter (fun n => nc_node n =? node) nodes with
  | [] => [(PrimFloat.nan, PrimFloat.nan)]
  | found => map (fun n => (nc_x n, nc_y n)) found
  end.

(** The rows of [df_line_coords] for a row of [df_line_ends]: the
    coordinates of its first node as [xi], [yi] and those of its last
    node as [xj], [yj]. *)
Definition line_rows (nodes : list node_coord) (e : line_end) : list coord_row :=
  flat_map (fun start =>
    map (fun stop => CoordRow (le_line e) (le_first_t e) (le_last_t e)
                              start.1 start.2 stop.1 stop.2)
        (merge_coords nodes (le_last_t e)))
    (merge_coords nodes (le_first_t e)).

(** [df_line_coords]: [df_line_ends] merged with [df_node_coords] on
    the first node and the result merged with it on the last node. *)
Definition line_coords (ends : list line_end) (nodes : list node_coord) : list coord_row :=
  flat_map (line_rows nodes) ends.

(** * Properties *)

#[local] Arguments Ascii.eqb : simpl never.
#[local] Arguments PyChar.isspace : simpl never.
#[local] Arguments PyChar.isdigit : simpl never.
#[local] Arguments PyChar.is_letter : simpl never.
#[local] Arguments PyChar.is_alnum : simpl never.
#[local] Arguments PyChar.is_ascii_digit : simpl never.

(** ** Strings *)

Section StringFacts.

Implicit Types s t u : string.

Lemma str_app_nil_l s : "" +:+ s = s.
Proof. reflexivity. Qed.

Lemma str_app_cons c s t : String c s +:+ t = String c (s +:+ t).
Proof. reflexivity. Qed.

Lemma str_app_nil_r s : s +:+ "" = s.
Proof. induction s as [|c s IH]; [done | by rewrite str_app_cons, IH]. Qed.

Lemma str_app_assoc s t u : (s +:+ t) +:+ u = s +:+ t +:+ u.
Proof. induction s as [|c s IH]; [done | by rewrite !str_app_cons, IH]. Qed.

Lemma str_length_app s t : String.length (s +:+ t) = (String.length s + String.length t)%nat.
Proof. induction s as [|c s IH]; [done | rewrite str_app_cons; simpl; by rewrite IH]. Qed.

Lemma str_snoc_app s t c : PyStr.snoc s c +:+ t = s +:+ String c t.
Proof. unfold PyStr.snoc. by rewrite str_app_assoc. Qed.

(** Appending the same string on the right is injective. *)
Lemma str_app_inj_r s t u : s +:+ u = t +:+ u -> s = t.
Proof.
  revert t. induction s as [|c s IH]; intros [|d t] H.
  - done.
  - apply (f_equal String.length) in H. rewrite !str_length_app in H. simpl in H. lia.
  - apply (f_equal String.length) in H. rewrite !str_length_app in H. simpl in H. lia.
  - rewrite !str_app_cons in H. injection H as -> H. f_equal. by apply IH.
Qed.

Lemma str_length_repeat c n : String.length (PyStr.repeat c n) = n.
Proof. induction n as [|n IH]; simpl; [done | by rewrite IH]. Qed.

Lemma str_all_app p s t : PyStr.all p (s +:+ t) = PyStr.all p s && PyStr.all p t.
Proof.
  induction s as [|c s IH]; [done |].
  rewrite str_app_cons. simpl. by rewrite IH, andb_assoc.
Qed.

Lemma str_all_repeat p c n : p c = true -> PyStr.all p (PyStr.repeat c n) = true.
Proof. intros H. induction n as [|n IH]; simpl; [done | by rewrite H, IH]. Qed.

Lemma str_all_impl (p q : ascii -> bool) s :
  (forall c, p c = true -> q c = true) -> PyStr.all p s = true -> PyStr.all q s = true.
Proof.
  intros Hpq. induction s as [|c s IH]; simpl; [done |].
  intros [Hc Hs]%andb_true_iff. by rewrite (Hpq _ Hc), IH.
Qed.

Lemma str_all_filter p s : PyStr.all p (PyStr.filter p s) = true.
Proof.
  induction s as [|c s IH]; simpl; [done |].
  destruct (p c) eqn:Hc; simpl; [by rewrite Hc |]; done.
Qed.

Lemma str_all_filter_keep p q s :
  PyStr.all p s = true -> PyStr.all p (PyStr.filter q s) = true.
Proof.
  induction s as [|c s IH]; simpl; [done |].
  intros [Hc Hs]%andb_true_iff. destruct (q c); simpl; [rewrite Hc |]; auto.
Qed.

Lemma str_all_take p n s : PyStr.all p s = true -> PyStr.all p (PyStr.take n s) = true.
Proof.
  revert s. induction n as [|n IH]; intros [|c s]; simpl; try done.
  intros [Hc Hs]%andb_true_iff. by rewrite Hc, IH.
Qed.

Lemma str_all_drop p n s : PyStr.all p s = true -> PyStr.all p (PyStr.drop n s) = true.
Proof.
  revert s. induction n as [|n IH]; intros [|c s]; simpl; try done.
  intros [Hc Hs]%andb_true_iff. by apply IH.
Qed.

Lemma str_all_take_while p q s : PyStr.all p s = true -> PyStr.all p (PyStr.take_while q s) = true.
Proof.
  induction s as [|c s IH]; simpl; [done |].
  intros [Hc Hs]%andb_true_iff. destruct (q c); simpl; [rewrite Hc |]; auto.
Qed.

Lemma str_all_take_while_self p s : PyStr.all p (PyStr.take_while p s) = true.
Proof.
  induction s as [|c s IH]; simpl; [done |].
  destruct (p c) eqn:Hc; simpl; [by rewrite Hc |]; done.
Qed.

Lemma str_all_rev_app p s t :
  PyStr.all p (String.rev_app s t) = PyStr.all p s && PyStr.all p t.
Proof.
  revert t. induction s as [|c s IH]; intros t; simpl; [done |].
  rewrite IH. simpl. destruct (p c), (PyStr.all p s); simpl; try done.
Qed.

Lemma str_all_rev p s : PyStr.all p (PyStr.rev s) = PyStr.all p s.
Proof. unfold PyStr.rev, String.rev. rewrite str_all_rev_app. simpl. by rewrite andb_true_r. Qed.

End StringFacts.

(** ** Decimal numerals and padding *)

Section DecimalFacts.

Lemma decode_uint_zero s : decode_uint (String "0" s) = decode_uint s.
Proof.
  unfold decode_uint. simpl.
  destruct (NilEmpty.uint_of_string s) as [d|]; done.
Qed.

Lemma decode_uint_zeros k s : decode_uint (PyStr.repeat "0" k +:+ s) = decode_uint s.
Proof.
  induction k as [|k IH]; [done |].
  simpl. rewrite str_app_cons, decode_uint_zero. exact IH.
Qed.

Lemma decode_uint_digits d : decode_uint (NilEmpty.string_of_uint d) = Some (Z.of_uint d).
Proof. unfold decode_uint. by rewrite NilEmpty.usu. Qed.

(** The numeral of a non-empty digit sequence starts with a digit, and
    is made of digits. *)
Lemma digits_head d :
  d <> Nil ->
  exists c r, NilEmpty.string_of_uint d = String c r /\ PyChar.is_ascii_digit c = true.
Proof. destruct d; [done | ..]; intros _; eexists _, _; split; reflexivity. Qed.

Lemma digits_all d : PyStr.all PyChar.is_ascii_digit (NilEmpty.string_of_uint d) = true.
Proof. induction d; simpl; try done; exact IHd. Qed.

(** [str(n)] is the numeral of [|n|], behind a minus sign when [n] is
    negative. *)
Lemma of_int_cases n :
  (0 <= n /\ exists d, d <> Nil /\ PyStr.of_int n = NilEmpty.string_of_uint d /\ Z.of_uint d = n)
  \/ (n < 0 /\ exists d, d <> Nil /\ PyStr.of_int n = String "-" (NilEmpty.string_of_uint d)
                         /\ Z.of_uint d = - n).
Proof.
  unfold PyStr.of_int. destruct n as [|p|p]; simpl.
  - left. split; [lia |]. exists (D0 Nil). done.
  - left. split; [lia |]. exists (Pos.to_uint p). split; [apply DecimalPos.Unsigned.to_uint_nonnil |].
    split.
    + unfold NilZero.string_of_uint.
      pose proof (DecimalPos.Unsigned.to_uint_nonnil p). by destruct (Pos.to_uint p).
    + unfold Z.of_uint. by rewrite DecimalPos.Unsigned.of_to.
  - right. split; [lia |]. exists (Pos.to_uint p). split; [apply DecimalPos.Unsigned.to_uint_nonnil |].
    split.
    + unfold NilZero.string_of_uint.
      pose proof (DecimalPos.Unsigned.to_uint_nonnil p). by destruct (Pos.to_uint p).
    + unfold Z.of_uint. by rewrite DecimalPos.Unsigned.of_to.
Qed.

Lemma of_int_nonneg_digits n :
  0 <= n -> PyStr.all PyChar.is_ascii_digit (PyStr.of_int n) = true.
Proof.
  intros Hn. destruct (of_int_cases n) as [[_ (d & _ & -> & _)]|[? _]]; [| lia].
  apply digits_all.
Qed.

Lemma of_int_nonempty n : PyStr.of_int n <> "".
Proof.
  destruct (of_int_cases n) as [[_ (d & Hd & -> & _)]|[_ (d & _ & -> & _)]]; [| done].
  destruct (digits_head d Hd) as (c & r & -> & _). done.
Qed.

(** A string that starts with a letter or a digit is padded on the
    left. *)
Lemma zfill_unsigned w c r :
  PyChar.is_alnum c = true ->
  PyStr.zfill w (String c r)
  = PyStr.repeat "0" (w - String.length (String c r)) +:+ String c r.
Proof.
  intros Hc. unfold PyStr.zfill.
  destruct (Ascii.eqb_spec c "+") as [->|_]; [done |].
  destruct (Ascii.eqb_spec c "-") as [->|_]; [done |]. done.
Qed.

Lemma length_zfill w s : String.length (PyStr.zfill w s) = Nat.max w (String.length s).
Proof.
  unfold PyStr.zfill. destruct s as [|c r].
  - rewrite str_length_repeat. simpl. lia.
  - destruct (Ascii.eqb c "+" || Ascii.eqb c "-").
    + simpl. rewrite str_length_app, str_length_repeat. lia.
    + rewrite str_length_app, str_length_repeat. simpl. lia.
Qed.

Lemma decode_padded_unsigned k c r :
  PyChar.is_ascii_digit c = true ->
  decode_padded (PyStr.repeat "0" k +:+ String c r) = decode_uint (String c r).
Proof.
  intros Hc. destruct k as [|k].
  - simpl PyStr.repeat. rewrite str_app_nil_l. unfold decode_padded.
    destruct (Ascii.eqb_spec c "-") as [->|_]; done.
  - rewrite <- (decode_uint_zeros (S k)). simpl PyStr.repeat. rewrite str_app_cons.
    unfold decode_padded. destruct (Ascii.eqb_spec "0" "-"); done.
Qed.

(** Padding keeps the value of a numeral. *)
Lemma decode_zfill_of_int w n : decode_padded (PyStr.zfill w (PyStr.of_int n)) = Some n.
Proof.
  destruct (of_int_cases n) as [[_ (d & Hd & -> & Hv)]|[_ (d & Hd & -> & Hv)]].
  - destruct (digits_head d Hd) as (c & r & Hs & Hc). rewrite Hs.
    rewrite zfill_unsigned by (unfold PyChar.is_alnum; rewrite Hc; apply orb_true_r).
    rewrite decode_padded_unsigned by done.
    rewrite <- Hs, decode_uint_digits. by rewrite Hv.
  - unfold PyStr.zfill. simpl. rewrite decode_uint_zeros, decode_uint_digits.
    simpl. f_equal. lia.
Qed.

Lemma zfill_of_int_inj w n m :
  PyStr.zfill w (PyStr.of_int n) = PyStr.zfill w (PyStr.of_int m) -> n = m.
Proof.
  intros H. apply (f_equal decode_padded) in H.
  rewrite !decode_zfill_of_int in H. congruence.
Qed.

Lemma of_int_inj n m : PyStr.of_int n = PyStr.of_int m -> n = m.
Proof. intros H. apply (zfill_of_int_inj 0). by rewrite H. Qed.

(** Two identifiers drawn from the counter for the same letter and
    direction are equal only if the numbers drawn are. *)
Lemma make_linename_drawn_inj line_letter dir_id n m :
  make_linename line_letter (PInt n) dir_id = make_linename line_letter (PInt m) dir_id ->
  n = m.
Proof.
  unfold make_linename. intros H.
  apply String.app_inj in H. apply str_app_inj_r in H. by apply zfill_of_int_inj in H.
Qed.

End DecimalFacts.

(** ** The collision loop *)

Section Redraw.

Variables (lnames : list string) (line_letter : string) (dir_id : Z).

(** The loop only stops at an identifier that is free. *)
Lemma redraw_fresh fuel linename line_number running_n linename' line_number' running_n' :
  redraw fuel lnames line_letter dir_id linename line_number running_n
    = Some (linename', line_number', running_n') ->
  linename' ∉ lnames.
Proof.
  revert linename line_number running_n.
  induction fuel as [|fuel IH]; intros linename line_number running_n; simpl.
  - case_bool_decide; [done |]. intros [= <- <- <-]. done.
  - case_bool_decide; [apply IH |]. intros [= <- <- <-]. done.
Qed.

(** The identifier it stops at is built from the number it stops at. *)
Lemma redraw_built fuel linename line_number running_n linename' line_number' running_n' :
  linename = make_linename line_letter line_number dir_id ->
  redraw fuel lnames line_letter dir_id linename line_number running_n
    = Some (linename', line_number', running_n') ->
  linename' = make_linename line_letter line_number' dir_id.
Proof.
  revert linename line_number running_n.
  induction fuel as [|fuel IH]; intros linename line_number running_n Hb; simpl.
  - case_bool_decide; [done |]. intros [= <- <- <-]. done.
  - case_bool_decide; [by apply IH |]. intros [= <- <- <-]. done.
Qed.

(** Without a collision nothing is drawn. *)
Lemma redraw_free fuel linename line_number running_n :
  linename ∉ lnames ->
  redraw fuel lnames line_letter dir_id linename line_number running_n
    = Some (linename, line_number, running_n).
Proof. intros H. destruct fuel; simpl; by rewrite bool_decide_eq_false_2. Qed.

(** After a collision the loop stops at the first free identifier
    that the counter yields: all draws before it were taken, and the
    counter is left behind the number it stops at. *)
Lemma redraw_least fuel : forall linename line_number running_n linename' line_number' running_n',
  linename ∈ lnames ->
  redraw fuel lnames line_letter dir_id linename line_number running_n
    = Some (linename', line_number', running_n') ->
  exists n,
    running_n !!! line_letter <= n
    /\ line_number' = PInt n
    /\ linename' = make_linename line_letter (PInt n) dir_id
    /\ running_n' !!! line_letter = n + 1
    /\ forall m, running_n !!! line_letter <= m < n ->
                 make_linename line_letter (PInt m) dir_id ∈ lnames.
Proof.
  induction fuel as [|fuel IH]; intros linename v rn linename' v' rn' Hin; simpl.
  - by rewrite bool_decide_eq_true_2.
  - rewrite bool_decide_eq_true_2 by done.
    set (c := rn !!! line_letter).
    destruct (decide (make_linename line_letter (PInt c) dir_id ∈ lnames)) as [Hc|Hc].
    + intros Hr. destruct (IH _ _ _ _ _ _ Hc Hr) as (n & Hn & -> & -> & Hrn & Hbelow).
      rewrite lookup_total_insert_eq in Hn, Hbelow.
      exists n. split_and!; [lia | done | done | done |].
      intros m Hm. destruct (decide (m = c)) as [->|Hne]; [done |]. apply Hbelow. lia.
    + rewrite redraw_free by done. intros [= <- <- <-].
      exists c. split_and!; [lia | done | done | by rewrite lookup_total_insert_eq |].
      intros m Hm. lia.
Qed.

(** After a draw of [c] the loop needs at most as many further rounds
    as there are used names that a later draw can produce. *)
Lemma redraw_drawn_terminates fuel : forall (used : list string) c running_n,
  running_n !!! line_letter = c + 1 ->
  (forall m, c <= m -> make_linename line_letter (PInt m) dir_id ∈ lnames ->
             make_linename line_letter (PInt m) dir_id ∈ used) ->
  (length used <= fuel)%nat ->
  is_Some (redraw fuel lnames line_letter dir_id
                  (make_linename line_letter (PInt c) dir_id) (PInt c) running_n).
Proof.
  induction fuel as [|fuel IH]; intros used c running_n Hc Hused Hlen; simpl.
  - case_bool_decide as Hin; [| by eexists].
    apply Hused in Hin; [| lia]. destruct used; [by apply elem_of_nil in Hin | simpl in Hlen; lia].
  - case_bool_decide as Hin; [| by eexists].
    rewrite Hc.
    apply (IH (filter (fun x => x <> make_linename line_letter (PInt c) dir_id) used)).
    + rewrite lookup_total_insert_eq. lia.
    + intros m Hm Hm'. apply list_elem_of_filter. split.
      * intros Heq. apply make_linename_drawn_inj in Heq. lia.
      * apply Hused; [lia | done].
    + assert (length (filter (fun x => x <> make_linename line_letter (PInt c) dir_id) used)
              < length used)%nat; [| lia].
      apply (length_filter_lt _ _ (make_linename line_letter (PInt c) dir_id)).
      * apply Hused; [lia | done].
      * intros Hne. by apply Hne.
Qed.

(** The loop of [form_new_linename] always ends. *)
Lemma redraw_terminates linename line_number running_n :
  is_Some (redraw (S (length lnames)) lnames line_letter dir_id
                  linename line_number running_n).
Proof.
  simpl. case_bool_decide as Hin; [| by eexists].
  apply (redraw_drawn_terminates _ lnames).
  - rewrite lookup_total_insert_eq. lia.
  - auto.
  - lia.
Qed.

End Redraw.

(** ** One call of [form_new_linename] *)

Section OneCall.

Variables (line : transit_line) (line_letter : string) (dir_id : Z) (st : registry).

(** The [while] loop never uses up the fuel it is given. *)
Lemma form_new_linename_finishes :
  (form_new_linename line line_letter dir_id st).1.1 <> Unfinished.
Proof.
  unfold form_new_linename.
  destruct (parse_route_name (route_name line)) as [[route_number parts]|]; [| done].
  match goal with |- context [match ?r with inl _ => _ | inr _ => _ end] => destruct r as [[[[n p] s] rn]|pr] end;
    [| done].
  match goal with |- context [redraw ?f ?l ?a ?b ?c ?d ?e] =>
    destruct (redraw_terminates l a b c d e) as [[[x y] z] ->] end.
  done.
Qed.

(** A call that returns appends one identifier, which was free, and
    one history entry; the identifier is built from the number of
    that entry. *)
Lemma form_new_linename_returns linename desc st' out :
  form_new_linename line line_letter dir_id st = (Return (linename, desc), st', out) ->
  exists line_number,
    (linename ∉ lnames st)
    /\ linename = make_linename line_letter line_number dir_id
    /\ lnames st' = lnames st ++ [linename]
    /\ descriptions st' = descriptions st ++ [(desc, (line_number, line_letter), dir_id)].
Proof.
  unfold form_new_linename.
  destruct (parse_route_name (route_name line)) as [[route_number parts]|]; [| done].
  match goal with |- context [match ?r with inl _ => _ | inr _ => _ end] => destruct r as [[[[n p] s] rn]|pr] end;
    [| done].
  destruct (redraw _ _ _ _ _ _ _) as [[[x y] z]|] eqn:Hr; [| done].
  intros [= <- <- <- <-]. exists y. simpl. split_and!; try done.
  - eapply redraw_fresh; eauto.
  - eapply redraw_built; [| eauto]. done.
Qed.

(** A call that raises leaves [lnames] and [descriptions] as they
    were. *)
Lemma form_new_linename_raises e st' out :
  form_new_linename line line_letter dir_id st = (Raise e, st', out) ->
  lnames st' = lnames st /\ descriptions st' = descriptions st.
Proof.
  unfold form_new_linename.
  destruct (parse_route_name (route_name line)) as [[route_number parts]|];
    [| by intros [= <- <- <-]].
  match goal with |- context [match ?r with inl _ => _ | inr _ => _ end] => destruct r as [[[[n p] s] rn]|pr] end;
    [| by intros [= <- <- <-]].
  destruct (redraw _ _ _ _ _ _ _) as [[[x y] z]|]; done.
Qed.

End OneCall.

(** ** Sequences of calls *)

Lemma run_calls_unique calls : forall st,
  NoDup (lnames st) ->
  (run_calls calls st).1 <> Unfinished
  /\ NoDup (lnames (run_calls calls st).2)
  /\ forall names, (run_calls calls st).1 = Return names ->
                   lnames (run_calls calls st).2 = lnames st ++ names.
Proof.
  induction calls as [|[[line line_letter] dir_id] rest IH]; intros st Hst; simpl.
  - split_and!; [done | done |]. intros names [= <-]. by rewrite List.app_nil_r.
  - pose proof (form_new_linename_finishes line line_letter dir_id st) as Hfin.
    destruct (form_new_linename line line_letter dir_id st) as [[[[linename desc]|e|] st'] out] eqn:Hcall;
      simpl in Hfin; [| | done].
    + destruct (form_new_linename_returns _ _ _ _ _ _ _ _ Hcall) as (num & Hfresh & _ & Hl & _).
      assert (NoDup (lnames st')) as Hst'.
      { rewrite Hl. apply NoDup_app. split_and!; [done | | apply NoDup_singleton].
        intros x Hx ->%list_elem_of_singleton. done. }
      destruct (IH st' Hst') as (H1 & H2 & H3).
      destruct (run_calls rest st') as [[names|e|] st''] eqn:Hrest; simpl in *; [| done | done].
      split_and!; [done | done |]. intros ? [= <-].
      rewrite (H3 names eq_refl), Hl, <- List.app_assoc. done.
    + destruct (form_new_linename_raises _ _ _ _ _ _ _ Hcall) as [Hl _].
      simpl. rewrite Hl. split_and!; done.
Qed.

(** ** The route-name parser *)

(** While no dash is met, the scanner of [re_split_dash] keeps
    everything it reads in one segment. *)
Lemma re_split_dash_go_no_dash s : forall seg pend,
  PyStr.any (Ascii.eqb "-") s = false ->
  PyStr.re_split_dash_go s seg pend false = [seg +:+ pend +:+ s].
Proof.
  induction s as [|c s IH]; intros seg pend Hs; simpl in *.
  - by rewrite str_app_nil_r.
  - apply orb_false_iff in Hs as [Hc Hs]. rewrite Ascii.eqb_sym, Hc.
    destruct (PyChar.isspace c).
    + rewrite IH by done. by rewrite str_snoc_app.
    + rewrite IH by done. rewrite str_app_nil_l, str_snoc_app, str_app_assoc. done.
Qed.

Lemma re_split_dash_no_dash s :
  PyStr.any (Ascii.eqb "-") s = false -> PyStr.re_split_dash s = [s].
Proof. intros H. unfold PyStr.re_split_dash. by rewrite re_split_dash_go_no_dash. Qed.

Lemma re_split_dash_go_nonempty s : forall seg pend skip,
  (1 <= length (PyStr.re_split_dash_go s seg pend skip))%nat.
Proof.
  induction s as [|c s IH]; intros seg pend skip; simpl; [lia |].
  destruct (Ascii.eqb c "-"); [simpl; lia |].
  destruct (PyChar.isspace c); [destruct skip |]; apply IH.
Qed.

(** Every dash ends a segment, so a name with a dash has at least two
    segments. *)
Lemma re_split_dash_go_dash s : forall seg pend skip,
  PyStr.any (Ascii.eqb "-") s = true ->
  (2 <= length (PyStr.re_split_dash_go s seg pend skip))%nat.
Proof.
  induction s as [|c s IH]; intros seg pend skip Hs; simpl in *; [done |].
  rewrite Ascii.eqb_sym in Hs.
  destruct (Ascii.eqb c "-") eqn:Hc.
  - simpl. pose proof (re_split_dash_go_nonempty s "" "" true). lia.
  - simpl in Hs. destruct (PyChar.isspace c); [destruct skip |]; by apply IH.
Qed.

(** C10: a raw route name without a dash is split into a single
    segment, namely itself, and the call of [form_new_linename] ends
    with the [IndexError] of [parts[1]]: before any number token is
    extracted, and without an identifier or a history entry being
    added.  Conversely a name with a dash has a second segment. *)
Theorem form_new_linename_needs_dash (line : transit_line) (line_letter : string)
    (dir_id : Z) (st : registry) :
  (PyStr.any (Ascii.eqb "-") (route_name line) = false ->
     PyStr.re_split_dash (route_name line) = [route_name line]
     /\ parse_route_name (route_name line) = None
     /\ (form_new_linename line line_letter dir_id st).1.1 = Raise IndexError
     /\ lnames (form_new_linename line line_letter dir_id st).1.2 = lnames st
     /\ descriptions (form_new_linename line line_letter dir_id st).1.2 = descriptions st)
  /\ (PyStr.any (Ascii.eqb "-") (route_name line) = true ->
        (form_new_linename line line_letter dir_id st).1.1 <> Raise IndexError).
Proof.
  split.
  - intros Hno. pose proof (re_split_dash_no_dash _ Hno) as Hsplit.
    assert (parse_route_name (route_name line) = None) as Hparse.
    { unfold parse_route_name. by rewrite Hsplit. }
    unfold form_new_linename. rewrite Hparse. done.
  - intros Hdash. pose proof (re_split_dash_go_dash _ "" "" false Hdash) as Hlen.
    unfold form_new_linename, parse_route_name, PyStr.re_split_dash.
    destruct (PyStr.re_split_dash_go (route_name line) "" "" false) as [|p0 [|p1 rest]];
      simpl in Hlen; [lia | lia |].
    repeat case_match; simpl; congruence.
Qed.

Lemma form_new_linename_needs_dash_witness :
  (form_new_linename (TransitLine "1001" "d" "Stationtown Lakeside" "Local Co" "")
                     "L" 2 empty_registry).1.1 = Raise IndexError.
Proof.
  apply (form_new_linename_needs_dash
           (TransitLine "1001" "d" "Stationtown Lakeside" "Local Co" "") "L" 2 empty_registry).
  reflexivity.
Defined.

(** C7 (amended): when the first segment holds a number token and the
    second segment splits on white space into more than one word, the
    first segment becomes the route number and the head of the
    remaining segments is taken from the words of the second
    segment.  With exactly two words the head is the second word if
    the first word contains a digit and the first word alone
    otherwise: the other word is dropped.  With more than two words
    the first word is dropped as a whole if it contains a digit and
    the others are joined by single blanks; otherwise the head has
    all the words of the second segment.  The later segments are
    kept. *)
Theorem parse_route_name_multiword (route_name p0 p1 : string) (rest : list string) :
  PyStr.re_split_dash route_name = p0 :: p1 :: rest ->
  includes_numbers p0 = true ->
  (1 < length (PyStr.re_split_ws p1))%nat ->
  exists head,
    parse_route_name route_name = Some (p0, head :: rest)
    /\ match PyStr.re_split_ws p1 with
       | [w0; w1] => head = if includes_numbers w0 then w1 else w0
       | w0 :: ws =>
           if includes_numbers w0 then head = PyStr.join " " ws
           else PyStr.re_split_ws head = w0 :: ws
       | [] => False
       end.
Proof.
  intros Hsplit Hnum Hlen. unfold parse_route_name. rewrite Hsplit, Hnum.
  destruct (PyStr.re_split_ws p1) as [|w0 [|w1 [|w2 ws]]] eqn:Hws; simpl in Hlen; try lia.
  - simpl. destruct (includes_numbers w0); eexists; split; reflexivity.
  - simpl. destruct (includes_numbers w0); eexists; (split; [reflexivity |]); done.
Qed.

Lemma parse_route_name_multiword_witness :
  exists head,
    parse_route_name "12 - 500 Station Road - Lakeside" = Some ("12", [head; "Lakeside"])
    /\ head = "Station Road".
Proof.
  destruct (parse_route_name_multiword "12 - 500 Station Road - Lakeside"
              "12" "500 Station Road" ["Lakeside"]) as (head & Hp & Hh);
    [reflexivity | reflexivity | vm_compute; lia |].
  exists head. split; [exact Hp | exact Hh].
Defined.

(** C7 as stated fails: the second word of a two-word origin without a
    digit is not kept in the cleaned description. *)
Lemma two_word_origin_is_cut :
  parse_route_name "12 - New York - Boston" = Some ("12", ["New"; "Boston"])
  /\ (form_new_linename (TransitLine "1001" "d" "12 - New York - Boston" "Local Co" "")
                        "L" 2 empty_registry).1.1 = Return ("L00122", "New - Boston")
  /\ PyStr.contains "York" "New - Boston" = false.
Proof. repeat split; reflexivity. Qed.

(** ** The scan of the history *)

Section Scan.

Variables (cleaned_route reversed_route route_number line_letter : string) (dir_id : Z).

Lemma scan_history_app pre post :
  scan_history cleaned_route reversed_route route_number line_letter dir_id (pre ++ post)
  = match scan_history cleaned_route reversed_route route_number line_letter dir_id pre with
    | Continue =>
        scan_history cleaned_route reversed_route route_number line_letter dir_id post
    | step => step
    end.
Proof.
  induction pre as [|e pre IH]; simpl; [done |].
  destruct (match_entry _ _ _ _ _ e); [exact IH | done | done].
Qed.

(** The entry behind a part of the history that decides nothing is the
    one that decides. *)
Lemma scan_history_first pre e post :
  scan_history cleaned_route reversed_route route_number line_letter dir_id pre = Continue ->
  match_entry cleaned_route reversed_route route_number line_letter dir_id e <> Continue ->
  scan_history cleaned_route reversed_route route_number line_letter dir_id (pre ++ e :: post)
  = match_entry cleaned_route reversed_route route_number line_letter dir_id e.
Proof.
  intros Hpre He. rewrite scan_history_app, Hpre. simpl.
  destruct (match_entry _ _ _ _ _ e); done.
Qed.

End Scan.

(** C9: when the first history entry that decides is one with the same
    number and letter but another route, the number has to be
    incremented (it has a letter suffix, or it is four characters
    wide with its prefix) and its numeric core is not an integer
    literal, then [form_new_linename] raises [ValueError] after
    printing the route number, the core and the suffix; no
    identifier and no history entry is added. *)
Theorem form_new_linename_malformed_number (line : transit_line) (line_letter : string)
    (dir_id : Z) (st : registry) (route_number : string) (parts : list string)
    (pre post : list history_entry) (e : history_entry) (core prefix suffix : string) :
  parse_route_name (route_name line) = Some (route_number, parts) ->
  descriptions st = pre ++ e :: post ->
  scan_history (PyStr.join " - " parts) (PyStr.join " - " (rev parts))
               route_number line_letter dir_id pre = Continue ->
  same_route (PyStr.join " - " parts) dir_id e = false ->
  reverse_route (PyStr.join " - " (rev parts)) dir_id e = false ->
  continued_route (PyStr.join " - " parts) route_number line_letter dir_id e = false ->
  same_number route_number line_letter e = true ->
  remove_last_letters (clean_line_code route_number) = (core, prefix, suffix) ->
  nonempty suffix = true \/ (4 <= String.length core + String.length prefix)%nat ->
  PyStr.to_int core = None ->
  (form_new_linename line line_letter dir_id st).1.1
    = Raise (ValueError "Line number is not a number")
  /\ (form_new_linename line line_letter dir_id st).2
     = [route_message (PyStr.join " - " parts) route_number; route_number; core; suffix]
  /\ lnames (form_new_linename line line_letter dir_id st).1.2 = lnames st
  /\ descriptions (form_new_linename line line_letter dir_id st).1.2 = descriptions st.
Proof.
  intros Hparse Hdesc Hpre Ha Hb Hc Hd Hpeel Hinc Hint.
  assert (match_entry (PyStr.join " - " parts) (PyStr.join " - " (rev parts))
                      route_number line_letter dir_id e
          = Fail [route_number; core; suffix]) as He.
  { unfold match_entry. rewrite Ha, Hb, Hc, Hd. unfold bump_number. rewrite Hpeel, Hint.
    destruct Hinc as [Hs|Hw].
    - by rewrite Hs.
    - replace (String.length core + String.length prefix <? 4)%nat with false
        by (symmetry; apply Nat.ltb_ge; lia).
      by rewrite andb_false_r. }
  unfold form_new_linename. rewrite Hparse, Hdesc.
  rewrite scan_history_first; [| exact Hpre | by rewrite He].
  rewrite He. simpl. done.
Qed.

Lemma form_new_linename_malformed_number_witness :
  (form_new_linename (TransitLine "1002" "d" "1A2B - Depot - Harbour" "Local Co" "") "L" 2
     (Registry ["L1A2B2"] {["L" := 99]} [("Stationtown - Lakeside", (PStr "1A2B", "L"), 2)])).1.1
  = Raise (ValueError "Line number is not a number").
Proof.
  refine (proj1 (form_new_linename_malformed_number
           (TransitLine "1002" "d" "1A2B - Depot - Harbour" "Local Co" "") "L" 2
           (Registry ["L1A2B2"] {["L" := 99]} [("Stationtown - Lakeside", (PStr "1A2B", "L"), 2)])
           "1A2B" ["Depot"; "Harbour"] [] [] ("Stationtown - Lakeside", (PStr "1A2B", "L"), 2)
           "1A2" "" "B" _ _ _ _ _ _ _ _ _ _)).
  - reflexivity.
  - reflexivity.
  - reflexivity.
  - reflexivity.
  - reflexivity.
  - reflexivity.
  - reflexivity.
  - reflexivity.
  - left. reflexivity.
  - reflexivity.
Defined.

(** ** The direction classifier *)

(** The reference point is (25496699, 6673208). *)
Lemma hel_exact :
  exact_value hel_x = Some (25496699 * 2 ^ 28, -28)
  /\ exact_value hel_y = Some (6673208 * 2 ^ 30, -30).
Proof. split; reflexivity. Qed.

(** The distance the code computes is the rounded one. *)
Lemma hel_distance_rounded (x y : float) :
  Prim2SF (hel_distance x y) = rounded_distance x y.
Proof.
  unfold hel_distance, rounded_distance.
  by rewrite sqrt_spec, add_spec, !mul_spec, !sub_spec.
Qed.

(** C6 (amended): for a line with exactly one row in the coordinate
    table, the direction is 3 whenever the first and the last node
    are the same, whatever the coordinates; otherwise it is 2
    exactly when the distance from the reference point to the start
    is strictly greater than the one to the end, both as binary64
    arithmetic gives them (difference, square, sum and square root,
    each rounded to the nearest value), and 1 in all remaining
    cases, ties and missing coordinates included.  For a line with
    no row or with several rows the classifier raises [TypeError]. *)
Theorem get_direction_id_rule (df : list coord_row) (line_id : string) :
  match df_loc df line_id with
  | [r] =>
      (ca_first_t r = ca_last_t r -> get_direction_id df line_id = Return 3)
      /\ (ca_first_t r <> ca_last_t r ->
          (get_direction_id df line_id = Return 2 <->
             SFltb (rounded_distance (xj r) (yj r)) (rounded_distance (xi r) (yi r)) = true)
          /\ (get_direction_id df line_id = Return 1 <->
                SFltb (rounded_distance (xj r) (yj r)) (rounded_distance (xi r) (yi r))
                = false))
  | _ => get_direction_id df line_id = Raise TypeError
  end.
Proof.
  unfold get_direction_id.
  destruct (df_loc df line_id) as [|r [|r' rows]]; [done | | done].
  unfold direction_of_row. rewrite ltb_spec, !hel_distance_rounded. split.
  - intros ->. by rewrite Z.eqb_refl.
  - intros Hne. apply Z.eqb_neq in Hne. rewrite Hne.
    destruct (SFltb _ _); split; split; done.
Qed.

(** A loop whose end lies nearer to the reference point than its
    start, a line towards the reference point, a tie, and a line
    that the table does not hold. *)
Example get_direction_id_cases :
  get_direction_id [CoordRow "1001" 7 7 25506699 6673208 25496699 6673208] "1001" = Return 3
  /\ get_direction_id [CoordRow "1002" 7 8 25506699 6673208 25496699 6673208] "1002" = Return 2
  /\ get_direction_id [CoordRow "1003" 7 8 25496699 6683208 25506699 6673208] "1003" = Return 1
  /\ get_direction_id [CoordRow "1003" 7 8 25496699 6683208 25506699 6673208] "1004"
     = Raise TypeError.
Proof. split_and!; reflexivity. Qed.

(** C6 as stated fails.  The start of the line is nearer to the
    reference point than its end: the squares of the two Euclidean
    distances are 80448251098251125 / 2^29 and
    80448251098251130 / 2^29.  In binary64 the distance to the start
    comes out as the greater one, and the direction is 2, not 1.
    And a line without a row in the table gets no direction at all. *)
Lemma rounded_distance_disagrees :
  let r := CoordRow "1001" 7 8 25508312.005218505859375 6669336.998260498046875
                    25508312.0052490234375 6669336.99835205078125 in
  exact_sq_distance (xi r) (yi r) = Some (80448251098251125 * 2 ^ 31, -60)
  /\ exact_sq_distance (xj r) (yj r) = Some (80448251098251130 * 2 ^ 31, -60)
  /\ dy_ltb (80448251098251125 * 2 ^ 31, -60) (80448251098251130 * 2 ^ 31, -60) = true
  /\ SFltb (rounded_distance (xj r) (yj r)) (rounded_distance (xi r) (yi r)) = true
  /\ get_direction_id [r] "1001" = Return 2
  /\ get_direction_id [] "1001" = Raise TypeError.
Proof. split_and!; vm_compute; reflexivity. Qed.

(** ** The area classifier *)

Section ZoneFacts.

Context {geometry : Type} (intersects : float * float -> geometry -> bool).

Implicit Types (features pre post : list (feature geometry)) (muniname : list string).

(** As long as fewer than two codes can have been collected when a
    zone that is hit and has no short code is reached, the loop is
    left there and the result is the fallback letter. *)
Lemma zone_loop_unknown_area hit1 hit2 col codes pre value geom post : forall muniname,
  (length muniname + length (List.filter (fun f => hit1 f.2 || hit2 f.2) pre) < 2)%nat ->
  hit1 geom || hit2 geom = true ->
  short_code codes col value = None ->
  zone_loop hit1 hit2 col codes (pre ++ (value, geom) :: post) muniname = "V".
Proof.
  induction pre as [|[v g] pre IH]; intros muniname Hlt Hhit Hmiss; simpl in *.
  - by rewrite Hhit, Hmiss.
  - destruct (hit1 g || hit2 g) eqn:Hg; simpl in Hlt.
    + destruct (short_code codes col v) as [c|]; [| done].
      replace (length (muniname ++ [c]) =? 2)%nat with false
        by (symmetry; apply Nat.eqb_neq; rewrite length_app; simpl; lia).
      apply IH; [rewrite length_app; simpl; lia | done | done].
    + replace (length muniname =? 2)%nat with false
        by (symmetry; apply Nat.eqb_neq; lia).
      by apply IH.
Qed.

(** C2 (amended): for a line of another agency than the long-distance
    one, with a single row in the coordinate table: if the
    enumeration of the zones reaches, before two zones containing an
    endpoint were met, a zone that contains an endpoint and whose
    area name is missing from the table of short codes, the
    classification stops there and returns the fallback letter "V";
    no exception is raised. *)
Theorem get_operator_name_unknown_area (df : list coord_row) (line : transit_line)
    (r : coord_row) (pre post : list (feature geometry)) (value : gmap string string)
    (geom : geometry) (muni_name_col : string) (muni_short_codes : gmap string string) :
  PyStr.contains "OnniBus" (agency_name line) = false ->
  df_loc df (line_id line) = [r] ->
  (length (List.filter (fun f => intersects (xi r, yi r) f.2 || intersects (xj r, yj r) f.2) pre)
   < 2)%nat ->
  intersects (xi r, yi r) geom || intersects (xj r, yj r) geom = true ->
  short_code muni_short_codes muni_name_col value = None ->
  get_operator_name intersects df line (pre ++ (value, geom) :: post)
                    muni_name_col muni_short_codes = Return "V".
Proof.
  intros Hagency Hrow Hpre Hhit Hmiss. unfold get_operator_name.
  rewrite Hagency, Hrow. f_equal.
  apply zone_loop_unknown_area; [simpl; lia | done | done].
Qed.

End ZoneFacts.

(** Areas that are given by whether they contain the first and the
    last node. *)
Lemma get_operator_name_unknown_area_witness :
  get_operator_name (fun p (g : bool) => g)
    [CoordRow "1001" 7 8 25506699 6673208 25496699 6673208]
    (TransitLine "1001" "d" "12 - Stationtown - Lakeside" "Local Co" "")
    [({["name" := "Lakeside District"]}, false); ({["name" := "Atlantis"]}, true);
     ({["name" := "Lakeside District"]}, true)]
    "name" {["Lakeside District" := "L"]}
  = Return "V".
Proof.
  apply (get_operator_name_unknown_area (fun p (g : bool) => g)
           [CoordRow "1001" 7 8 25506699 6673208 25496699 6673208]
           (TransitLine "1001" "d" "12 - Stationtown - Lakeside" "Local Co" "")
           (CoordRow "1001" 7 8 25506699 6673208 25496699 6673208)
           [({["name" := "Lakeside District"]}, false)]
           [({["name" := "Lakeside District"]}, true)]
           {["name" := "Atlantis"]} true "name" {["Lakeside District" := "L"]}).
  - reflexivity.
  - reflexivity.
  - simpl. lia.
  - reflexivity.
  - reflexivity.
Defined.

(** C2 as stated fails: both endpoints lie in a zone whose area name
    has no short code, and the classification returns ["V"] instead
    of raising. *)
Lemma unknown_area_falls_back :
  get_operator_name (fun p (g : bool) => g)
    [CoordRow "1001" 7 8 25506699 6673208 25496699 6673208]
    (TransitLine "1001" "d" "12 - Stationtown - Lakeside" "Local Co" "")
    [({["name" := "Atlantis"]}, true)]
    "name" {["Lakeside District" := "L"]}
  = Return "V".
Proof. reflexivity. Qed.

(** ** The orchestrator *)

Lemma str_length_take n s : (String.length (PyStr.take n s) <= n)%nat.
Proof.
  revert s. induction n as [|n IH]; intros [|c s]; simpl; try lia.
  specialize (IH s). lia.
Qed.

Lemma short_description_length desc : (String.length (short_description desc) <= 115)%nat.
Proof. unfold short_description. case_match; apply str_length_take. Qed.

Section Orchestrator.

Context {geometry : Type} (intersects : float * float -> geometry -> bool).
Variables (cfg : dev_config) (df : list coord_row) (features : list (feature geometry)).

Lemma rename_line_finishes line st :
  rename_line intersects cfg df features line st <> Unfinished.
Proof.
  unfold rename_line. case_bool_decide; [| done].
  destruct (get_operator_name _ _ _ _ _ _) as [line_letter|e|] eqn:Hop; [| done |].
  - destruct (get_direction_id df (line_id line)) as [dir_id|e|] eqn:Hdir; [| done |].
    + pose proof (form_new_linename_finishes line line_letter dir_id st) as Hfin.
      destruct (form_new_linename line line_letter dir_id st) as [[[[linename desc]|e|] st'] out];
        done.
    + unfold get_direction_id in Hdir. repeat case_match; done.
  - unfold get_operator_name in Hop. repeat case_match; done.
Qed.

Lemma rename_line_written_back line st line' st' :
  rename_line intersects cfg df features line st = Return (line', st') ->
  written_back cfg line line'.
Proof.
  unfold rename_line, written_back. case_bool_decide; [| by intros [= <- <-]].
  destruct (get_operator_name _ _ _ _ _ _) as [line_letter|e|]; [| done | done].
  destruct (get_direction_id df (line_id line)) as [dir_id|e|]; [| done | done].
  destruct (form_new_linename line line_letter dir_id st) as [[[[linename desc]|e|] st''] out];
    [| done | done].
  intros [= <- <-]. simpl. split; [done | apply short_description_length].
Qed.

Lemma rename_lines_finishes tlines : forall st,
  rename_lines intersects cfg df features tlines st <> Unfinished.
Proof.
  induction tlines as [|line rest IH]; intros st; simpl; [done |].
  pose proof (rename_line_finishes line st) as Hfin.
  destruct (rename_line intersects cfg df features line st) as [[line' st']|e|]; [| done | done].
  specialize (IH st'). destruct (rename_lines _ _ _ _ rest st') as [[rest' st'']|e|]; done.
Qed.

Lemma rename_lines_written_back tlines : forall st network' st',
  rename_lines intersects cfg df features tlines st = Return (network', st') ->
  Forall2 (written_back cfg) tlines network'.
Proof.
  induction tlines as [|line rest IH]; intros st network' st'; simpl.
  - intros [= <- <-]. constructor.
  - destruct (rename_line intersects cfg df features line st) as [[line' st1]|e|] eqn:Hline;
      [| done | done].
    destruct (rename_lines _ _ _ _ rest st1) as [[rest' st2]|e|] eqn:Hrest; [| done | done].
    intros [= <- <-]. constructor; [by eapply rename_line_written_back | by eapply IH].
Qed.

End Orchestrator.

(** ** Uniqueness of the identifiers *)



(** ** The running counters *)

Section Fallback.

Variables (line_letter : string).

Lemma counter_start st :
  match running_n st !! line_letter with
  | None => <[line_letter := 99]> (running_n st)
  | Some _ => running_n st
  end !!! line_letter = counter st line_letter.
Proof.
  unfold counter. destruct (running_n st !! line_letter) as [n|] eqn:Hn; simpl.
  - by apply lookup_total_correct.
  - by rewrite lookup_total_insert_eq.
Qed.



End Fallback.




(** ** Pairs of directions *)

(** The identifier only depends on the text of the number. *)
Lemma make_linename_py_str line_letter line_number dir_id :
  make_linename line_letter (PStr (py_str line_number)) dir_id
  = make_linename line_letter line_number dir_id.
Proof. done. Qed.

Lemma make_linename_dir_inj line_letter line_number d1 d2 :
  make_linename line_letter line_number d1 = make_linename line_letter line_number d2 ->
  d1 = d2.
Proof.
  unfold make_linename. intros H.
  apply String.app_inj, String.app_inj in H. by apply of_int_inj.
Qed.

(** C5 (amended): let two lines be processed in one run, the first
    before the second; other lines may come between them and the area
    letters may differ.  Let the cleaned description of the first be
    equal to the cleaned description of the second or to its reverse,
    and the direction codes be different.  If the history entry of
    the first line is the first one that decides for the second line
    (no entry before it does) and the identifier made of the second
    line's letter, the first line's number and the second direction
    is not used yet, the second line reuses the number of the first:
    each identifier is the line's own letter, the same number padded
    for that letter, and the line's own direction code. *)
Theorem reverse_direction_reuses_number (line1 line2 : transit_line)
    (letter1 letter2 : string) (d1 d2 : Z) (st st1 st2 : registry) (name1 desc1 : string)
    (out1 : list string) (more : list history_entry) (route_number2 : string)
    (parts2 : list string) :
  form_new_linename line1 letter1 d1 st = (Return (name1, desc1), st1, out1) ->
  descriptions st2 = descriptions st1 ++ more ->
  parse_route_name (route_name line2) = Some (route_number2, parts2) ->
  desc1 = PyStr.join " - " parts2 \/ desc1 = PyStr.join " - " (rev parts2) ->
  d1 <> d2 ->
  scan_history (PyStr.join " - " parts2) (PyStr.join " - " (rev parts2))
               route_number2 letter2 d2 (descriptions st) = Continue ->
  (forall line_number, assigned_numbers st st1 = [line_number] ->
                       make_linename letter2 line_number d2 ∉ lnames st2) ->
  exists line_number,
    name1 = letter1
            +:+ PyStr.zfill (n_to_fill letter1) (py_str line_number) +:+ PyStr.of_int d1
    /\ (form_new_linename line2 letter2 d2 st2).1.1
       = Return (letter2 +:+ PyStr.zfill (n_to_fill letter2) (py_str line_number)
                         +:+ PyStr.of_int d2,
                 PyStr.join " - " parts2)
    /\ assigned_numbers st st1 = [line_number]
    /\ assigned_numbers st2 (form_new_linename line2 letter2 d2 st2).1.2
       = [PStr (py_str line_number)].
Proof.
  intros Hcall1 Hmore Hparse Hdesc Hdir Hscan Hfree.
  destruct (form_new_linename_returns _ _ _ _ _ _ _ _ Hcall1) as (num & Hnew & Hname & Hl & Hd).
  exists num. split; [exact Hname |].
  assert (match_entry (PyStr.join " - " parts2) (PyStr.join " - " (rev parts2))
                      route_number2 letter2 d2 (desc1, (num, letter1), d1)
          = Break num "" "") as He.
  { unfold match_entry, same_route, reverse_route.
    apply Z.eqb_neq in Hdir. rewrite Hdir. simpl negb.
    destruct Hdesc as [-> | ->].
    - by rewrite String.eqb_refl.
    - rewrite String.eqb_refl. simpl. by destruct (String.eqb _ _). }
  assert (assigned_numbers st st1 = [num]) as Hn1.
  { unfold assigned_numbers. rewrite Hd, map_app, <- (length_map entry_number).
    by rewrite drop_app_length. }
  pose proof (Hfree num Hn1) as Hfree2.
  unfold form_new_linename. rewrite Hparse, Hmore, Hd, <- app_assoc. simpl app.
  rewrite scan_history_first; [| exact Hscan | by rewrite He].
  rewrite He. unfold recombine. simpl nonempty. simpl andb. cbv iota.
  rewrite make_linename_py_str, redraw_free by done.
  simpl. split_and!; [done | done |].
  unfold assigned_numbers. simpl.
  rewrite Hmore, Hd, <- app_assoc. simpl app.
  rewrite (map_app _ (descriptions st ++ _)), <- (length_map entry_number).
  by rewrite drop_app_length.
Qed.

(** Three lines of one run: the third reverses the first, and the
    line between them has another route and another number. *)
Lemma reverse_direction_reuses_number_witness :
  (run_calls [(TransitLine "1001" "d" "12 - Stationtown - Lakeside" "Local Co" "", "L", 2);
              (TransitLine "1002" "d" "13 - Depot - Harbour" "Local Co" "", "L", 1);
              (TransitLine "1003" "d" "12 - Lakeside - Stationtown" "Local Co" "", "L", 1)]
             empty_registry).1
  = Return ["L00122"; "L00131"; "L00121"]
  /\ exists line_number,
       "L00122" = "L" +:+ PyStr.zfill (n_to_fill "L") (py_str line_number) +:+ PyStr.of_int 2
       /\ (form_new_linename
             (TransitLine "1003" "d" "12 - Lakeside - Stationtown" "Local Co" "") "L" 1
             (Registry ["L00122"; "L00131"] {["L" := 99]}
                       [("Stationtown - Lakeside", (PStr "12", "L"), 2);
                        ("Depot - Harbour", (PStr "13", "L"), 1)])).1.1
          = Return ("L" +:+ PyStr.zfill (n_to_fill "L") (py_str line_number) +:+ PyStr.of_int 1,
                    "Lakeside - Stationtown").
Proof.
  split; [reflexivity |].
  destruct (reverse_direction_reuses_number
              (TransitLine "1001" "d" "12 - Stationtown - Lakeside" "Local Co" "")
              (TransitLine "1003" "d" "12 - Lakeside - Stationtown" "Local Co" "")
              "L" "L" 2 1 empty_registry
              (Registry ["L00122"] {["L" := 99]} [("Stationtown - Lakeside", (PStr "12", "L"), 2)])
              (Registry ["L00122"; "L00131"] {["L" := 99]}
                        [("Stationtown - Lakeside", (PStr "12", "L"), 2);
                         ("Depot - Harbour", (PStr "13", "L"), 1)])
              "L00122" "Stationtown - Lakeside"
              ["Route: Stationtown - Lakeside, route_number: 12"]
              [("Depot - Harbour", (PStr "13", "L"), 1)]
              "12" ["Lakeside"; "Stationtown"])
    as (line_number & H1 & H2 & _).
  - reflexivity.
  - reflexivity.
  - reflexivity.
  - right. reflexivity.
  - discriminate.
  - reflexivity.
  - intros line_number [= <-]. refine (bool_decide_unpack _ _); vm_compute; exact I.
  - exists line_number. split; [exact H1 | exact H2].
Defined.

(** C5 as stated fails.  The identifiers of its example are [L00122]
    and [L00121], since the number is padded to four digits behind a
    single letter; a line that reverses the description of an
    earlier one keeps its own letter; when the identifier with the
    reused number is taken already (here by a line with the number
    012), the second line of the pair draws from the counter; and
    when an earlier line (here one with the number 7) has the same
    description, it is that line's number that is reused. *)
Lemma reverse_pair_example_is_six_wide :
  (run_calls [(TransitLine "1001" "d" "12 - Stationtown - Lakeside" "Local Co" "", "L", 2);
              (TransitLine "1002" "d" "12 - Lakeside - Stationtown" "Local Co" "", "L", 1)]
             empty_registry).1
  = Return ["L00122"; "L00121"]
  /\ ["L00122"; "L00121"] <> ["L0122"; "L0121"]
  /\ (run_calls [(TransitLine "1001" "d" "12 - Stationtown - Lakeside" "Local Co" "", "L", 2);
                 (TransitLine "1002" "d" "12 - Lakeside - Stationtown" "Local Co" "", "V", 1)]
                empty_registry).1
     = Return ["L00122"; "V00121"]
  /\ (run_calls [(TransitLine "1000" "d" "012 - Depot - Harbour" "Local Co" "", "L", 1);
                 (TransitLine "1001" "d" "12 - Stationtown - Lakeside" "Local Co" "", "L", 2);
                 (TransitLine "1002" "d" "12 - Lakeside - Stationtown" "Local Co" "", "L", 1)]
                empty_registry).1
     = Return ["L00121"; "L00122"; "L00991"]
  /\ (run_calls [(TransitLine "1000" "d" "7 - Stationtown - Lakeside" "Local Co" "", "L", 2);
                 (TransitLine "1001" "d" "12 - Stationtown - Lakeside" "Local Co" "", "L", 2);
                 (TransitLine "1002" "d" "12 - Lakeside - Stationtown" "Local Co" "", "L", 1)]
                empty_registry).1
     = Return ["L00072"; "L00122"; "L00071"].
Proof. split_and!; [reflexivity | discriminate | reflexivity | reflexivity | reflexivity]. Qed.


(** ** The shape of the identifiers *)

Lemma str_all_drop_while p q s :
  PyStr.all p s = true -> PyStr.all p (PyStr.drop_while q s) = true.
Proof.
  induction s as [|c s IH]; simpl; [done |].
  intros H. destruct (q c); [| done].
  apply andb_true_iff in H as [_ H]. by apply IH.
Qed.

Lemma letter_alnum c : PyChar.is_letter c = true -> PyChar.is_alnum c = true.
Proof. unfold PyChar.is_alnum. by intros ->. Qed.

Lemma digit_alnum c : PyChar.is_ascii_digit c = true -> PyChar.is_alnum c = true.
Proof. unfold PyChar.is_alnum. intros ->. apply orb_true_r. Qed.

Lemma clean_line_code_alnum s : PyStr.all PyChar.is_alnum (clean_line_code s) = true.
Proof.
  unfold clean_line_code, strip_prefix.
  case_match; [apply str_all_drop |]; apply str_all_filter_keep, str_all_filter.
Qed.

Lemma trailing_letters_letters s : PyStr.all PyChar.is_letter (trailing_letters s) = true.
Proof.
  unfold trailing_letters.
  destruct (PyStr.rev (PyStr.take_while PyChar.is_letter (PyStr.rev s))) as [|c t] eqn:Ht.
  - destruct (PyStr.rev s) as [|c r]; [done |].
    case_match; [| done]. rewrite str_all_rev. apply str_all_take_while_self.
  - rewrite <- Ht, str_all_rev. apply str_all_take_while_self.
Qed.

(** Peeling a code made of letters and digits leaves a core of such
    characters, a prefix of letters and a suffix of letters. *)
Lemma remove_last_letters_alnum s core prefix suffix :
  PyStr.all PyChar.is_alnum s = true ->
  remove_last_letters s = (core, prefix, suffix) ->
  PyStr.all PyChar.is_alnum core = true
  /\ PyStr.all PyChar.is_letter prefix = true
  /\ PyStr.all PyChar.is_letter suffix = true.
Proof.
  unfold remove_last_letters. intros Hs [= <- <- <-]. split_and!.
  - apply str_all_drop. destruct (trailing_letters s); [done |].
    unfold PyStr.drop_last. by apply str_all_take.
  - apply str_all_take_while_self.
  - apply trailing_letters_letters.
Qed.

Lemma digit_value_nonneg c : PyChar.is_ascii_digit c = true -> 0 <= PyStr.digit_value c.
Proof.
  unfold PyChar.is_ascii_digit, PyChar.in_range, PyStr.digit_value.
  intros [H _]%andb_true_iff. apply N.leb_le in H. lia.
Qed.

Lemma int_digits_nonneg s : forall acc b n,
  0 <= acc -> PyStr.int_digits s acc b = Some n -> 0 <= n.
Proof.
  induction s as [|c s IH]; intros acc b n Hacc; simpl.
  - destruct b; [by intros [= <-] | done].
  - destruct (PyChar.is_ascii_digit c) eqn:Hc.
    + apply IH. pose proof (digit_value_nonneg c Hc). lia.
    + destruct (Ascii.eqb c "_"); [| done]. destruct b; [by apply IH | done].
Qed.

(** [int()] of a string of letters and digits is not negative. *)
Lemma to_int_alnum_nonneg s n :
  PyStr.all PyChar.is_alnum s = true -> PyStr.to_int s = Some n -> 0 <= n.
Proof.
  intros Hs. unfold PyStr.to_int.
  assert (PyStr.all PyChar.is_alnum
            (PyStr.rev (PyStr.drop_while PyStr.int_space
                          (PyStr.rev (PyStr.drop_while PyStr.int_space s)))) = true) as Ht.
  { rewrite str_all_rev. apply str_all_drop_while. rewrite str_all_rev.
    by apply str_all_drop_while. }
  destruct (PyStr.rev _) as [|c r]; [done |].
  simpl in Ht. apply andb_true_iff in Ht as [Hc _].
  destruct (Ascii.eqb_spec c "+") as [->|_]; [done |].
  destruct (Ascii.eqb_spec c "-") as [->|_]; [done |].
  by apply int_digits_nonneg.
Qed.

Lemma rev_app_rev_app s : forall t u,
  String.rev_app (String.rev_app s t) u = String.rev_app t (s +:+ u).
Proof.
  induction s as [|c s IH]; intros t u; simpl; [done |].
  by rewrite IH.
Qed.

Lemma str_rev_involutive s : PyStr.rev (PyStr.rev s) = s.
Proof.
  unfold PyStr.rev, String.rev. rewrite rev_app_rev_app. simpl. apply str_app_nil_r.
Qed.

Lemma alnum_not_int_space c : PyChar.is_alnum c = true -> PyStr.int_space c = false.
Proof. destruct c as [[] [] [] [] [] [] [] []]; vm_compute; congruence. Qed.

Lemma drop_while_int_space_alnum s :
  PyStr.all PyChar.is_alnum s = true -> PyStr.drop_while PyStr.int_space s = s.
Proof.
  destruct s as [|c s]; simpl; [done |].
  intros [Hc _]%andb_true_iff. by rewrite (alnum_not_int_space c Hc).
Qed.

(** On a string of letters and digits [int()] reads the digits as they
    stand: there is no white space to strip and no sign. *)
Lemma to_int_alnum s :
  PyStr.all PyChar.is_alnum s = true -> PyStr.to_int s = PyStr.int_digits s 0 false.
Proof.
  intros Hs. unfold PyStr.to_int.
  rewrite (drop_while_int_space_alnum s Hs).
  rewrite drop_while_int_space_alnum by (by rewrite str_all_rev).
  rewrite str_rev_involutive.
  destruct s as [|c r]; [done |].
  simpl in Hs. apply andb_true_iff in Hs as [Hc _].
  destruct (Ascii.eqb_spec c "+") as [->|_]; [done |].
  destruct (Ascii.eqb_spec c "-") as [->|_]; [done |]. done.
Qed.

Lemma int_digits_after_digit s : forall acc,
  PyStr.all PyChar.is_ascii_digit s = true -> is_Some (PyStr.int_digits s acc true).
Proof.
  induction s as [|c s IH]; intros acc; simpl; [by eexists |].
  intros [Hc Hs]%andb_true_iff. rewrite Hc. by apply IH.
Qed.

Lemma int_digits_alnum_digits s : forall acc b,
  PyStr.all PyChar.is_alnum s = true ->
  is_Some (PyStr.int_digits s acc b) ->
  PyStr.all PyChar.is_ascii_digit s = true.
Proof.
  induction s as [|c s IH]; intros acc b; simpl; [done |].
  intros [Hc Hs]%andb_true_iff.
  destruct (PyChar.is_ascii_digit c) eqn:Hd; simpl.
  - by apply IH.
  - destruct (Ascii.eqb_spec c "_") as [->|_]; [done |]. by intros [? [=]].
Qed.

(** The numeric core of a peeled code cannot be read as an integer
    exactly when it is empty or has a letter in it. *)
Lemma to_int_alnum_none s :
  PyStr.all PyChar.is_alnum s = true ->
  PyStr.to_int s = None <-> s = "" \/ PyStr.all PyChar.is_ascii_digit s = false.
Proof.
  intros Hs. rewrite (to_int_alnum s Hs). split.
  - intros Hnone. destruct s as [|c r]; [by left | right].
    destruct (PyStr.all PyChar.is_ascii_digit (String c r)) eqn:Hd; [| done].
    simpl in Hd. apply andb_true_iff in Hd as [Hc Hr].
    simpl in Hnone. rewrite Hc in Hnone.
    destruct (int_digits_after_digit r (10 * 0 + PyStr.digit_value c) Hr) as [n Hn].
    congruence.
  - intros [-> | Hd]; [done |].
    destruct (PyStr.int_digits s 0 false) as [n|] eqn:Hn; [| done].
    rewrite (int_digits_alnum_digits s 0 false Hs) in Hd; [done | by eexists].
Qed.

Lemma py_str_alnum v : alnum_number v = true -> PyStr.all PyChar.is_alnum (py_str v) = true.
Proof.
  destruct v as [n|s]; simpl; [| done]. intros Hn%Z.leb_le.
  eapply str_all_impl; [apply digit_alnum | by apply of_int_nonneg_digits].
Qed.

Lemma recombine_alnum v prefix suffix :
  alnum_number v = true ->
  PyStr.all PyChar.is_letter prefix = true ->
  PyStr.all PyChar.is_letter suffix = true ->
  PyStr.all PyChar.is_alnum (recombine v prefix suffix) = true.
Proof.
  intros Hv Hp Hs.
  assert (PyStr.all PyChar.is_alnum (PyStr.take 1 prefix) = true) as Hp'.
  { apply str_all_take. eapply str_all_impl; [apply letter_alnum | done]. }
  assert (PyStr.all PyChar.is_alnum (PyStr.take 1 suffix) = true) as Hs'.
  { apply str_all_take. eapply str_all_impl; [apply letter_alnum | done]. }
  pose proof (py_str_alnum v Hv) as Hv'.
  unfold recombine. repeat case_match; rewrite ?str_all_app, ?Hp', ?Hs', ?Hv'; done.
Qed.

Lemma zfill_alnum w s :
  PyStr.all PyChar.is_alnum s = true -> PyStr.all PyChar.is_alnum (PyStr.zfill w s) = true.
Proof.
  intros Hs. destruct s as [|c r].
  - unfold PyStr.zfill. by apply str_all_repeat.
  - pose proof Hs as Hs'. simpl in Hs'. apply andb_true_iff in Hs' as [Hc _].
    rewrite zfill_unsigned by done. rewrite str_all_app, Hs, andb_true_r.
    by apply str_all_repeat.
Qed.

Section Shape.

Variables (line_letter : string) (dir_id : Z).

Lemma bump_number_alnum route_number : step_alnum (bump_number route_number).
Proof.
  unfold bump_number.
  destruct (remove_last_letters (clean_line_code route_number)) as [[core prefix] suffix] eqn:Hp.
  destruct (remove_last_letters_alnum _ _ _ _ (clean_line_code_alnum route_number) Hp)
    as (Hc & Hpre & Hsuf).
  case_match; [done |].
  destruct (PyStr.to_int core) as [n|] eqn:Hn; [| done].
  simpl. split_and!; [| done | done].
  apply Z.leb_le. pose proof (to_int_alnum_nonneg core n Hc Hn). lia.
Qed.

Lemma scan_history_alnum cleaned_route reversed_route route_number history :
  Forall (fun e => alnum_number (entry_number e) = true) history ->
  step_alnum (scan_history cleaned_route reversed_route route_number line_letter dir_id history).
Proof.
  induction 1 as [|e history He _ IH]; simpl; [done |].
  assert (step_alnum (match_entry cleaned_route reversed_route route_number
                                  line_letter dir_id e)) as Hstep.
  { unfold match_entry. repeat case_match; try done; apply bump_number_alnum. }
  destruct (match_entry _ _ _ _ _ e); done.
Qed.

Lemma lookup_total_nonneg (running_n : gmap string Z) l :
  (forall k n, running_n !! k = Some n -> 0 <= n) -> 0 <= running_n !!! l.
Proof.
  intros H. rewrite lookup_total_alt. destruct (running_n !! l) as [n|] eqn:Hn; simpl.
  - by eapply H.
  - done.
Qed.

Lemma insert_nonneg (running_n : gmap string Z) l v :
  (forall k n, running_n !! k = Some n -> 0 <= n) -> 0 <= v ->
  forall k n, <[l := v]> running_n !! k = Some n -> 0 <= n.
Proof.
  intros H Hv k n. rewrite lookup_insert. case_decide; [by intros [= <-] | apply H].
Qed.

Lemma redraw_alnum lnames fuel : forall linename line_number running_n linename' line_number' running_n',
  alnum_number line_number = true ->
  (forall k n, running_n !! k = Some n -> 0 <= n) ->
  redraw fuel lnames line_letter dir_id linename line_number running_n
    = Some (linename', line_number', running_n') ->
  alnum_number line_number' = true
  /\ forall k n, running_n' !! k = Some n -> 0 <= n.
Proof.
  induction fuel as [|fuel IH]; intros linename v rn linename' v' rn' Hv Hrn; simpl.
  - case_bool_decide; [done |]. by intros [= <- <- <-].
  - case_bool_decide; [| by intros [= <- <- <-]].
    pose proof (lookup_total_nonneg rn line_letter Hrn).
    apply IH; [by apply Z.leb_le | apply insert_nonneg; [done | lia]].
Qed.

End Shape.

(** C4 (amended): in a registry as a pass builds it, every identifier
    that [form_new_linename] returns is the area letter, a number
    field and the decimal direction code.  The number field is the
    number zero padded to four characters, three if the letter has
    two characters; it is at least that long and made of digits and
    letters: a prefix or suffix letter of the route number is kept
    in it, and a longer number is not cut.  The registry stays as a
    pass builds it. *)
Theorem form_new_linename_shape (line : transit_line) (line_letter : string) (dir_id : Z)
    (st st' : registry) (linename desc : string) (out : list string) :
  wf_registry st ->
  form_new_linename line line_letter dir_id st = (Return (linename, desc), st', out) ->
  (exists line_number,
     assigned_numbers st st' = [line_number]
     /\ linename = line_letter +:+ PyStr.zfill (n_to_fill line_letter) (py_str line_number)
                               +:+ PyStr.of_int dir_id
     /\ (n_to_fill line_letter
         <= String.length (PyStr.zfill (n_to_fill line_letter) (py_str line_number)))%nat
     /\ PyStr.all PyChar.is_alnum (PyStr.zfill (n_to_fill line_letter) (py_str line_number))
        = true)
  /\ wf_registry st'.
Proof.
  intros [Hrn Hhist]. unfold form_new_linename.
  destruct (parse_route_name (route_name line)) as [[route_number parts]|]; [| done].
  set (running_n0 := match running_n st !! line_letter with
                     | Some _ => running_n st
                     | None => <[line_letter:=99]> (running_n st)
                     end).
  assert (forall k n, running_n0 !! k = Some n -> 0 <= n) as Hrn0.
  { unfold running_n0. destruct (running_n st !! line_letter); [done |].
    by apply insert_nonneg. }
  pose proof (scan_history_alnum line_letter dir_id (PyStr.join " - " parts)
                (PyStr.join " - " (rev parts)) route_number _ Hhist) as Hscan.
  match goal with |- context [match ?r with inl _ => _ | inr _ => _ end] =>
    assert (match r with
            | inl (v, p, s, rn) =>
                alnum_number v = true /\ PyStr.all PyChar.is_letter p = true
                /\ PyStr.all PyChar.is_letter s = true
                /\ forall k n, rn !! k = Some n -> 0 <= n
            | inr _ => True
            end) as Hres;
    [| destruct r as [[[[v p] s] rn]|pr]; [| done] ]
  end.
  { destruct (scan_history _ _ _ _ _ _) as [|v p s|pr]; [| by destruct Hscan as (?&?&?) | done].
    destruct (nonempty route_number).
    - destruct (remove_last_letters (clean_line_code route_number)) as [[core p] s] eqn:Hp.
      destruct (remove_last_letters_alnum _ _ _ _ (clean_line_code_alnum route_number) Hp)
        as (Hc & Hpre & Hsuf).
      done.
    - pose proof (lookup_total_nonneg running_n0 line_letter Hrn0).
      split_and!; [by apply Z.leb_le | done | done |].
      apply insert_nonneg; [done | lia]. }
  destruct Hres as (Hv & Hp & Hs & Hrn1).
  destruct (redraw _ _ _ _ _ _ _) as [[[name v'] rn']|] eqn:Hr; [| done].
  intros [= <- <- <- <-].
  pose proof (redraw_built _ _ _ _ _ _ _ _ _ _ eq_refl Hr) as Hname.
  apply redraw_alnum in Hr as [Hv' Hrn'];
    [| simpl; by apply recombine_alnum | done].
  split.
  - exists v'. split_and!.
    + unfold assigned_numbers. simpl. rewrite map_app, <- (length_map entry_number).
      by rewrite drop_app_length.
    + exact Hname.
    + rewrite length_zfill. lia.
    + by apply zfill_alnum, py_str_alnum.
  - split; simpl; [done |]. apply Forall_app. split; [done |]. by constructor.
Qed.

Lemma wf_registry_empty : wf_registry empty_registry.
Proof. split; [intros l n; simpl; by rewrite lookup_empty | constructor]. Qed.

Lemma form_new_linename_shape_witness :
  exists line_number,
    "L012B2" = "L" +:+ PyStr.zfill (n_to_fill "L") (py_str line_number) +:+ PyStr.of_int 2
    /\ PyStr.all PyChar.is_alnum (PyStr.zfill (n_to_fill "L") (py_str line_number)) = true.
Proof.
  destruct (form_new_linename_shape
              (TransitLine "1001" "d" "12B - Stationtown - Lakeside" "Local Co" "") "L" 2
              empty_registry
              (Registry ["L012B2"] {["L" := 99]} [("Stationtown - Lakeside", (PStr "12B", "L"), 2)])
              "L012B2" "Stationtown - Lakeside"
              ["Route: Stationtown - Lakeside, route_number: 12B"])
    as [(line_number & _ & H1 & _ & H2) _].
  - exact wf_registry_empty.
  - reflexivity.
  - exists line_number. split; [exact H1 | exact H2].
Defined.

(** C4 as stated fails: a suffix letter of the route number stays in
    the number field, and a number of five digits is not cut to
    four. *)
Lemma number_field_keeps_letters :
  (form_new_linename (TransitLine "1001" "d" "12B - Stationtown - Lakeside" "Local Co" "")
                     "L" 2 empty_registry).1.1
  = Return ("L012B2", "Stationtown - Lakeside")
  /\ digits_shape "L" 2 "L012B2" = false
  /\ (form_new_linename (TransitLine "1002" "d" "12345 - Stationtown - Lakeside" "Local Co" "")
                        "L" 2 empty_registry).1.1
     = Return ("L123452", "Stationtown - Lakeside")
  /\ digits_shape "L" 2 "L123452" = false
  /\ digits_shape "L" 2 "L00122" = true.
Proof. split_and!; reflexivity. Qed.

(** ** The pass and the sequence of calls *)

Section PassCalls.

Context {geometry : Type} (intersects : float * float -> geometry -> bool).
Variables (cfg : dev_config) (df : list coord_row) (features : list (feature geometry)).

(** The loop of [change_line_names] calls [form_new_linename] once
    for each line of a mode that is renamed, with the letter and the
    direction found for the line, on the registry the earlier calls
    left; the new identifiers of these lines are the ones the calls
    return. *)
Lemma rename_lines_run_calls tlines : forall st network' st',
  rename_lines intersects cfg df features tlines st = Return (network', st') ->
  exists calls,
    run_calls calls st = (Return (line_id <$> List.filter (renamed cfg) network'), st')
    /\ Forall2 (fun (c : call) line =>
                  c.1.1 = line
                  /\ get_operator_name intersects df line features
                       (muni_col_name cfg) (muni_short_codes cfg) = Return c.1.2
                  /\ get_direction_id df (line_id line) = Return c.2)
               calls (List.filter (renamed cfg) tlines).
Proof.
  induction tlines as [|line rest IH]; intros st network' st'; simpl.
  - intros [= <- <-]. exists []. split; [done | constructor].
  - unfold rename_line. fold (renamed cfg line).
    destruct (renamed cfg line) eqn:Hmode.
    + destruct (get_operator_name _ _ _ _ _ _) as [line_letter|e|] eqn:Hop; [| done | done].
      destruct (get_direction_id df (line_id line)) as [dir_id|e|] eqn:Hdir; [| done | done].
      destruct (form_new_linename line line_letter dir_id st)
        as [[[[linename desc]|e|] st1] out] eqn:Hcall; [| done | done].
      destruct (rename_lines _ _ _ _ rest st1) as [[rest' st2]|e|] eqn:Hrest; [| done | done].
      intros [= <- <-]. destruct (IH _ _ _ Hrest) as (calls & Hrun & Hcalls).
      exists ((line, line_letter, dir_id) :: calls). split.
      * simpl. rewrite Hcall, Hrun.
        replace (renamed cfg (TransitLine linename (mode_id line) (route_name line)
                                          (agency_name line) (short_description desc)))
          with true by (symmetry; exact Hmode).
        done.
      * by constructor.
    + destruct (rename_lines _ _ _ _ rest st) as [[rest' st2]|e|] eqn:Hrest; [| done | done].
      intros [= <- <-]. destruct (IH _ _ _ Hrest) as (calls & Hrun & Hcalls).
      exists calls. split; [| done].
      simpl. by rewrite Hmode.
Qed.

(** X14: the identifiers that [change_line_names] publishes for the
    lines it renames are pairwise different. *)
Lemma change_line_names_unique_ids sc sc' :
  change_line_names intersects cfg df features sc = (Return tt, sc') ->
  NoDup (line_id <$> List.filter (renamed cfg) (stored_lines sc')).
Proof.
  unfold change_line_names, get_network.
  destruct (rename_lines _ _ _ _ _ _) as [[network' st]|e|] eqn:Hrun; [| done | done].
  intros [= <-]. simpl.
  destruct (rename_lines_run_calls _ _ _ _ Hrun) as (calls & Hcalls & _).
  destruct (run_calls_unique calls empty_registry (NoDup_nil_2 (A:=string))) as (_ & Hnd & Hnames).
  rewrite Hcalls in Hnd, Hnames. simpl in Hnd, Hnames.
  by rewrite (Hnames _ eq_refl) in Hnd.
Qed.

End PassCalls.

(** ** Worked examples *)

Example character_classes :
  List.filter (fun n => PyChar.isdigit (ascii_of_nat n)) (seq 0 256)
  = [48; 49; 50; 51; 52; 53; 54; 55; 56; 57; 178; 179; 185]%nat
  /\ List.filter (fun n => PyChar.isspace (ascii_of_nat n)) (seq 0 256)
     = [9; 10; 11; 12; 13; 28; 29; 30; 31; 32; 133; 160]%nat
  /\ List.filter (fun n => PyStr.int_space (ascii_of_nat n)) (seq 0 256)
     = [9; 10; 11; 12; 13; 32; 133; 160]%nat.
Proof. repeat split; vm_compute; reflexivity. Qed.

Example re_split_dash_segments :
  PyStr.re_split_dash "12 - Stationtown - Lakeside" = ["12"; "Stationtown"; "Lakeside"]
  /\ PyStr.re_split_dash "a -b - " = ["a"; "b"; ""]
  /\ PyStr.re_split_dash "a- -b" = ["a"; ""; "b"]
  /\ PyStr.re_split_dash " - Stationtown" = [""; "Stationtown"]
  /\ PyStr.re_split_dash "New York" = ["New York"].
Proof. repeat split; reflexivity. Qed.

Example re_split_ws_words :
  PyStr.re_split_ws "New  York " = ["New"; "York"; ""]
  /\ PyStr.re_split_ws " a" = [""; "a"]
  /\ PyStr.re_split_ws "Stationtown" = ["Stationtown"].
Proof. repeat split; reflexivity. Qed.

Example split_is_left_to_right :
  PyStr.split " - " "a - - b" = ["a"; "- b"]
  /\ PyStr.split "-" "a-b-" = ["a"; "b"; ""]
  /\ PyStr.strip "." "..Lakeside." = "Lakeside".
Proof. repeat split; reflexivity. Qed.

Example zfill_pads_behind_sign :
  PyStr.zfill 4 (PyStr.of_int 12) = "0012"
  /\ PyStr.zfill 4 (PyStr.of_int (-5)) = "-005"
  /\ PyStr.zfill 3 "12345" = "12345"
  /\ PyStr.zfill 4 "" = "0000".
Proof. repeat split; reflexivity. Qed.

Example to_int_literals :
  PyStr.to_int "012" = Some 12
  /\ PyStr.to_int " -7 " = Some (-7)
  /\ PyStr.to_int "1_000" = Some 1000
  /\ PyStr.to_int "1A2" = None
  /\ PyStr.to_int "" = None.
Proof. repeat split; reflexivity. Qed.

Example peel_letters :
  remove_last_letters (clean_line_code "T-12 b") = ("12", "T", "b")
  /\ remove_last_letters (clean_line_code "ELY 7") = ("7", "", "")
  /\ remove_last_letters (clean_line_code "1A2B") = ("1A2", "", "B").
Proof. repeat split; reflexivity. Qed.

(** A number that is used again for another route gets the suffix
    [B] while it is short, and is incremented otherwise. *)
Example same_number_other_route :
  (run_calls [(TransitLine "1001" "d" "12 - Stationtown - Lakeside" "Local Co" "", "L", 2);
              (TransitLine "1002" "d" "12 - Depot - Harbour" "Local Co" "", "L", 2);
              (TransitLine "1003" "d" "1234 - Stationtown - Lakeside" "Local Co" "", "L", 2);
              (TransitLine "1004" "d" "1234 - Depot - Harbour" "Local Co" "", "L", 2)]
             empty_registry).1
  = Return ["L00122"; "L012B2"; "L12342"; "L12352"].
Proof. reflexivity. Qed.

(** Two zones of the same area that hold the two ends of a line give
    the letter of the area; a single zone that holds both ends does
    not. *)
Example area_letter_needs_two_zones :
  get_operator_name (fun (p : float * float) (g : float) => PrimFloat.eqb (fst p) g)
    [CoordRow "1001" 7 8 25506699 6673208 25496699 6673208]
    (TransitLine "1001" "d" "12 - Stationtown - Lakeside" "Local Co" "")
    [({["name" := "Lakeside District"]}, 25506699%float);
     ({["name" := "Lakeside District"]}, 25496699%float)]
    "name" {["Lakeside District" := "L"]}
  = Return "L"
  /\ get_operator_name (fun (p : float * float) (g : bool) => g)
       [CoordRow "1001" 7 8 25506699 6673208 25496699 6673208]
       (TransitLine "1001" "d" "12 - Stationtown - Lakeside" "Local Co" "")
       [({["name" := "Lakeside District"]}, true)]
       "name" {["Lakeside District" := "L"]}
     = Return "V"
  /\ get_operator_name (fun (p : float * float) (g : bool) => g)
       [CoordRow "1001" 7 8 25506699 6673208 25496699 6673208]
       (TransitLine "1001" "d" "12 - Stationtown - Lakeside" "OnniBus MEGA" "")
       [({["name" := "Lakeside District"]}, true)]
       "name" {["Lakeside District" := "L"]}
     = Return "O".
Proof. repeat split; vm_compute; reflexivity. Qed.

(** A pass in which the second line has no dash: the first line was
    renamed in the working copy, yet nothing reaches the scenario. *)
Example aborted_pass_publishes_nothing :
  let sc := Scenario [TransitLine "1001" "d" "12 - Stationtown - Lakeside" "Local Co" "";
                      TransitLine "1002" "d" "Depot" "Local Co" ""] [] in
  change_line_names (fun p (g : bool) => g)
    (DevConfig {["d" := 3]} "name" {["Lakeside District" := "L"]})
    [CoordRow "1001" 7 8 25506699 6673208 25496699 6673208;
     CoordRow "1002" 8 9 25496699 6673208 25506699 6673208]
    [({["name" := "Lakeside District"]}, true)] sc
  = (Raise IndexError, sc).
Proof. reflexivity. Qed.

Example completed_pass_publishes_once :
  let sc := Scenario [TransitLine "1001" "d" "12 - Stationtown - Lakeside" "Local Co" "";
                      TransitLine "1002" "b" "Depot" "Local Co" ""] [] in
  let network' := [TransitLine "V00122" "d" "12 - Stationtown - Lakeside" "Local Co"
                               "Stationtown-Lakeside";
                   TransitLine "1002" "b" "Depot" "Local Co" ""] in
  change_line_names (fun p (g : bool) => g)
    (DevConfig {["d" := 3]} "name" {["Lakeside District" := "L"]})
    [CoordRow "1001" 7 8 25506699 6673208 25496699 6673208]
    [({["name" := "Lakeside District"]}, true)] sc
  = (Return tt, Scenario network' [network']).
Proof. reflexivity. Qed.

(** ** What the pass publishes *)

Section Publish.

Context {geometry : Type} (intersects : float * float -> geometry -> bool).
Variables (cfg : dev_config) (df : list coord_row) (features : list (feature geometry)).

(** The description that is written is cut from the cleaned
    description with its separators shortened. *)
Lemma short_description_text desc :
  short_description desc
  = PyStr.take 115
      (PyStr.join "-"
         (if String.eqb (List.hd "" (PyStr.split "-" desc)) " "
          then tail (PyStr.re_split_dash desc)
          else PyStr.re_split_dash desc)).
Proof. unfold short_description. by destruct (String.eqb _ _). Qed.

(** The lines the loop leaves behind: the lines of the other modes as
    they were, the lines of the renamed modes with the description
    made from the one their call recorded in the history. *)
Lemma rename_lines_writes tlines : forall st network' st',
  rename_lines intersects cfg df features tlines st = Return (network', st') ->
  exists entries,
    descriptions st' = descriptions st ++ entries
    /\ Forall2 (fun line line' =>
                  mode_id line' = mode_id line
                  /\ route_name line' = route_name line
                  /\ agency_name line' = agency_name line
                  /\ (renamed cfg line = false -> line' = line))
               tlines network'
    /\ description <$> List.filter (renamed cfg) network'
       = (fun e : history_entry =>
            PyStr.take 115
              (PyStr.join "-"
                 (if String.eqb (List.hd "" (PyStr.split "-" e.1.1)) " "
                  then tail (PyStr.re_split_dash e.1.1)
                  else PyStr.re_split_dash e.1.1))) <$> entries.
Proof.
  induction tlines as [|line rest IH]; intros st network' st'; simpl.
  - intros [= <- <-]. exists []. split_and!; [by rewrite List.app_nil_r | constructor | done].
  - unfold rename_line. fold (renamed cfg line).
    destruct (renamed cfg line) eqn:Hmode.
    + destruct (get_operator_name _ _ _ _ _ _) as [line_letter|e|]; [| done | done].
      destruct (get_direction_id df (line_id line)) as [dir_id|e|]; [| done | done].
      destruct (form_new_linename line line_letter dir_id st)
        as [[[[linename desc]|e|] st1] out] eqn:Hcall; [| done | done].
      destruct (rename_lines _ _ _ _ rest st1) as [[rest' st2]|e|] eqn:Hrest; [| done | done].
      intros [= <- <-]. destruct (IH _ _ _ Hrest) as (entries & Hd & Hkept & Hdesc).
      destruct (form_new_linename_returns _ _ _ _ _ _ _ _ Hcall) as (num & _ & _ & _ & Hd1).
      exists ((desc, (num, line_letter), dir_id) :: entries). split_and!.
      * by rewrite Hd, Hd1, <- app_assoc.
      * constructor; [| done]. simpl. by rewrite Hmode.
      * cbn [List.filter].
        replace (renamed cfg (TransitLine linename (mode_id line) (route_name line)
                                          (agency_name line) (short_description desc)))
          with true by (symmetry; exact Hmode).
        rewrite !fmap_cons, Hdesc. cbn [description]. by rewrite short_description_text.
    + destruct (rename_lines _ _ _ _ rest st) as [[rest' st2]|e|] eqn:Hrest; [| done | done].
      intros [= <- <-]. destruct (IH _ _ _ Hrest) as (entries & Hd & Hkept & Hdesc).
      exists entries. split_and!; [done | by constructor |].
      cbn [List.filter]. by rewrite Hmode.
Qed.

(** A pass that is aborted was aborted by one line, after the lines
    before it had been processed: by a classifier or by
    [form_new_linename]. *)
Lemma rename_lines_aborts tlines : forall st e,
  rename_lines intersects cfg df features tlines st = Raise e ->
  exists pre line post pre' st1,
    tlines = pre ++ line :: post
    /\ rename_lines intersects cfg df features pre st = Return (pre', st1)
    /\ renamed cfg line = true
    /\ (get_operator_name intersects df line features (muni_col_name cfg)
          (muni_short_codes cfg) = Raise e
        \/ get_direction_id df (line_id line) = Raise e
        \/ exists line_letter dir_id,
             (form_new_linename line line_letter dir_id st1).1.1 = Raise e).
Proof.
  induction tlines as [|line rest IH]; intros st e; simpl; [done |].
  destruct (rename_line intersects cfg df features line st) as [[line' st1]|e'|] eqn:Hline;
    [| | done].
  - destruct (rename_lines _ _ _ _ rest st1) as [[rest' st2]|e'|] eqn:Hrest; [done | | done].
    intros [= ->].
    destruct (IH _ _ Hrest) as (pre & l & post & pre' & st3 & -> & Hpre & Hl).
    exists (line :: pre), l, post, (line' :: pre'), st3. split_and!; [done | | apply Hl..].
    simpl. by rewrite Hline, Hpre.
  - intros [= ->]. exists [], line, rest, [], st. split; [done |]. split; [done |].
    revert Hline. unfold rename_line. fold (renamed cfg line).
    destruct (renamed cfg line); [| done].
    destruct (get_operator_name _ _ _ _ _ _) as [line_letter|e'|];
      [| intros [= ->]; auto | done].
    destruct (get_direction_id df (line_id line)) as [dir_id|e'|];
      [| intros [= ->]; auto | done].
    destruct (form_new_linename line line_letter dir_id st)
      as [[[[linename desc]|e'|] st1] out] eqn:Hcall; [done | | done].
    intros [= ->]. split; [done |]. right. right. exists line_letter, dir_id. by rewrite Hcall.
Qed.

(** C8: [change_line_names] either processes every line and then
    publishes the network once, or it is aborted by the exception of
    the first line that fails, and then nothing is published and the
    scenario is as it was.  The published network holds the lines of
    the other modes as they were.  The lines of the renamed modes
    have, in their order, the identifiers that the calls of
    [form_new_linename] returned (one call for each of them, with the
    letter and the direction the classifiers give, on the state the
    earlier calls left), and as descriptions the cleaned
    descriptions of these calls with the separators shortened to a
    dash and cut to 115 characters; mode, route name and agency are
    kept.  The loop always finishes. *)
Theorem change_line_names_publishes_once (sc : scenario) :
  match change_line_names intersects cfg df features sc with
  | (Return _, sc') =>
      (exists calls st,
         Forall2 (fun (c : call) line =>
                    c.1.1 = line
                    /\ get_operator_name intersects df line features
                         (muni_col_name cfg) (muni_short_codes cfg) = Return c.1.2
                    /\ get_direction_id df (line_id line) = Return c.2)
                 calls (List.filter (renamed cfg) (stored_lines sc))
         /\ run_calls calls empty_registry
            = (Return (line_id <$> List.filter (renamed cfg) (stored_lines sc')), st)
         /\ description <$> List.filter (renamed cfg) (stored_lines sc')
            = (fun e : history_entry =>
                 PyStr.take 115
                   (PyStr.join "-"
                      (if String.eqb (List.hd "" (PyStr.split "-" e.1.1)) " "
                       then tail (PyStr.re_split_dash e.1.1)
                       else PyStr.re_split_dash e.1.1))) <$> descriptions st)
      /\ Forall2 (fun line line' =>
                    mode_id line' = mode_id line
                    /\ route_name line' = route_name line
                    /\ agency_name line' = agency_name line
                    /\ (renamed cfg line = false -> line' = line))
                 (stored_lines sc) (stored_lines sc')
      /\ Forall (fun line' => renamed cfg line' = true ->
                              (String.length (description line') <= 115)%nat)
                (stored_lines sc')
      /\ published sc' = published sc ++ [stored_lines sc']
  | (Raise e, sc') =>
      sc' = sc
      /\ exists pre line post pre' st,
           stored_lines sc = pre ++ line :: post
           /\ rename_lines intersects cfg df features pre empty_registry = Return (pre', st)
           /\ renamed cfg line = true
           /\ (get_operator_name intersects df line features (muni_col_name cfg)
                 (muni_short_codes cfg) = Raise e
               \/ get_direction_id df (line_id line) = Raise e
               \/ exists line_letter dir_id,
                    (form_new_linename line line_letter dir_id st).1.1 = Raise e)
  | (Unfinished, _) => False
  end.
Proof.
  unfold change_line_names, get_network.
  pose proof (rename_lines_finishes intersects cfg df features (stored_lines sc) empty_registry)
    as Hfin.
  destruct (rename_lines intersects cfg df features (stored_lines sc) empty_registry)
    as [[network' st]|e|] eqn:Hrun; [| | done].
  - destruct (rename_lines_run_calls intersects cfg df features _ _ _ _ Hrun)
      as (calls & Hcalls & Hlines).
    destruct (rename_lines_writes _ _ _ _ Hrun) as (entries & Hd & Hkept & Hdesc).
    simpl in Hd. subst entries. simpl. split_and!; [| done | | done].
    + by exists calls, st.
    + pose proof (rename_lines_written_back intersects cfg df features _ _ _ _ Hrun) as Hwb.
      clear -Hwb. induction Hwb as [|line line' ls ls' [Hm Hw] _ IH]; constructor; [| done].
      unfold renamed. rewrite Hm. by case_bool_decide.
  - split; [done |]. by apply rename_lines_aborts.
Qed.

End Publish.

(** * Further properties *)

(** ** Peeling a line code *)

Section PeelFacts.

Implicit Types s t : string.

Lemma str_take_while_drop_while p s : PyStr.take_while p s +:+ PyStr.drop_while p s = s.
Proof.
  induction s as [|c s IH]; [done |]. simpl.
  destruct (p c); [by rewrite str_app_cons, IH | done].
Qed.

Lemma str_drop_take_while p s :
  PyStr.drop (String.length (PyStr.take_while p s)) s = PyStr.drop_while p s.
Proof.
  induction s as [|c s IH]; [done |]. simpl.
  destruct (p c); [exact IH | done].
Qed.

Lemma str_drop_while_first p s :
  match PyStr.drop_while p s with
  | "" => True
  | String c _ => p c = false
  end.
Proof.
  induction s as [|c s IH]; [done |]. simpl.
  destruct (p c) eqn:Hc; [exact IH | exact Hc].
Qed.

Lemma str_take_app s t : PyStr.take (String.length s) (s +:+ t) = s.
Proof.
  induction s as [|c s IH]; [by destruct t |].
  rewrite str_app_cons. simpl. by rewrite IH.
Qed.

Lemma rev_app_app s : forall t, String.rev_app s t = String.rev_app s "" +:+ t.
Proof.
  induction s as [|c s IH]; intros t; simpl; [done |].
  rewrite (IH (String c t)), (IH (String c "")), str_app_assoc. done.
Qed.

Lemma str_rev_app_distr s t : PyStr.rev (s +:+ t) = PyStr.rev t +:+ PyStr.rev s.
Proof.
  unfold PyStr.rev, String.rev.
  induction s as [|c s IH].
  - by rewrite str_app_nil_l, str_app_nil_r.
  - rewrite str_app_cons. simpl.
    rewrite (rev_app_app (s +:+ t)), IH, (rev_app_app s (String c "")), str_app_assoc. done.
Qed.

Lemma str_length_rev_app s : forall t,
  String.length (String.rev_app s t) = (String.length s + String.length t)%nat.
Proof.
  induction s as [|c s IH]; intros t; simpl; [done |]. rewrite IH. simpl. lia.
Qed.

Lemma str_length_rev s : String.length (PyStr.rev s) = String.length s.
Proof. unfold PyStr.rev, String.rev. rewrite str_length_rev_app. simpl. lia. Qed.

(** A string is what is left in front of its last characters with a
    property, followed by these. *)
Lemma str_trailing_split p s :
  s = PyStr.rev (PyStr.drop_while p (PyStr.rev s))
      +:+ PyStr.rev (PyStr.take_while p (PyStr.rev s)).
Proof.
  rewrite <- str_rev_app_distr, str_take_while_drop_while. by rewrite str_rev_involutive.
Qed.

Lemma str_all_first p c s : PyStr.all p (String c s) = true -> p c = true.
Proof. simpl. by intros [? _]%andb_true_iff. Qed.

(** In a code made of letters and digits the match of [([a-zA-Z]+)$]
    is the run of letters at its end. *)
Lemma trailing_letters_alnum s :
  PyStr.all PyChar.is_alnum s = true ->
  trailing_letters s = PyStr.rev (PyStr.take_while PyChar.is_letter (PyStr.rev s)).
Proof.
  intros Hs. unfold trailing_letters.
  destruct (PyStr.rev (PyStr.take_while PyChar.is_letter (PyStr.rev s))) as [|c t]; [| done].
  destruct (PyStr.rev s) as [|c r] eqn:Hr; [done |].
  destruct (Ascii.eqb_spec c "010") as [->|_]; [| done].
  assert (PyStr.all PyChar.is_alnum (PyStr.rev s) = true) as Ha by (by rewrite str_all_rev).
  rewrite Hr in Ha. by apply str_all_first in Ha.
Qed.

(** The three pieces of a peeled code, put together, are the code. *)
Lemma remove_last_letters_app s core prefix suffix :
  PyStr.all PyChar.is_alnum s = true ->
  remove_last_letters s = (core, prefix, suffix) ->
  s = prefix +:+ core +:+ suffix
  /\ no_letter_first core = true
  /\ no_letter_first (PyStr.rev core) = true
  /\ (core = "" -> prefix = "").
Proof.
  intros Hs. unfold remove_last_letters. rewrite (trailing_letters_alnum s Hs).
  pose proof (str_trailing_split PyChar.is_letter s) as Hsplit.
  remember (PyStr.rev (PyStr.drop_while PyChar.is_letter (PyStr.rev s))) as head eqn:Hh.
  remember (PyStr.rev (PyStr.take_while PyChar.is_letter (PyStr.rev s))) as tail eqn:Ht.
  assert (match tail with
          | "" => s
          | String _ _ => PyStr.drop_last (String.length tail) s
          end = head) as Hcut.
  { pose proof (f_equal String.length Hsplit) as Hlen. rewrite str_length_app in Hlen.
    assert (PyStr.drop_last (String.length tail) s = head) as Hd.
    { unfold PyStr.drop_last.
      replace (String.length s - String.length tail)%nat with (String.length head) by lia.
      rewrite Hsplit. apply str_take_app. }
    destruct tail as [|c t]; [| exact Hd].
    by rewrite Hsplit, str_app_nil_r. }
  rewrite Hcut. intros [= <- <- <-].
  rewrite str_drop_take_while.
  pose proof (str_take_while_drop_while PyChar.is_letter head) as Hhead.
  assert (no_letter_first (PyStr.rev head) = true) as Hlast.
  { rewrite Hh, str_rev_involutive.
    pose proof (str_drop_while_first PyChar.is_letter (PyStr.rev s)) as H.
    destruct (PyStr.drop_while PyChar.is_letter (PyStr.rev s)); simpl; [done |].
    by rewrite H. }
  split_and!.
  - rewrite <- str_app_assoc, Hhead. exact Hsplit.
  - pose proof (str_drop_while_first PyChar.is_letter head) as H.
    destruct (PyStr.drop_while PyChar.is_letter head); simpl; [done |]. by rewrite H.
  - rewrite <- Hhead, str_rev_app_distr in Hlast.
    destruct (PyStr.rev (PyStr.drop_while PyChar.is_letter head)) as [|c r] eqn:Hr; [done |].
    rewrite str_app_cons in Hlast. exact Hlast.
  - intros Hcore. rewrite Hcore, str_app_nil_r in Hhead.
    rewrite <- Hhead in Hlast.
    assert (PyStr.all PyChar.is_letter (PyStr.rev (PyStr.take_while PyChar.is_letter head))
            = true) as Hl by (rewrite str_all_rev; apply str_all_take_while_self).
    destruct (PyStr.take_while PyChar.is_letter head) as [|c r] eqn:Hw; [done |].
    destruct (PyStr.rev (String c r)) as [|d r'] eqn:Hr.
    + apply (f_equal String.length) in Hr. rewrite str_length_rev in Hr. done.
    + apply str_all_first in Hl. simpl in Hlast. by rewrite Hl in Hlast.
Qed.

End PeelFacts.

(** X1: the cleaned code of a route number is the prefix, the numeric
    core and the suffix that [remove_last_letters] peels from it, in
    this order.  Prefix and suffix are made of letters; the core is
    made of letters and digits, and it neither starts nor ends with a
    letter; a code without a core has no prefix either (its letters
    all count as suffix). *)
Theorem remove_last_letters_splits (route_number core prefix suffix : string) :
  remove_last_letters (clean_line_code route_number) = (core, prefix, suffix) ->
  clean_line_code route_number = prefix +:+ core +:+ suffix
  /\ PyStr.all PyChar.is_letter prefix = true
  /\ PyStr.all PyChar.is_letter suffix = true
  /\ PyStr.all PyChar.is_alnum core = true
  /\ no_letter_first core = true
  /\ no_letter_first (PyStr.rev core) = true
  /\ (core = "" -> prefix = "").
Proof.
  intros Hpeel.
  pose proof (clean_line_code_alnum route_number) as Hclean.
  destruct (remove_last_letters_alnum _ _ _ _ Hclean Hpeel) as (Hc & Hp & Hs).
  destruct (remove_last_letters_app _ _ _ _ Hclean Hpeel) as (Happ & Hf & Hl & He).
  split_and!; done.
Qed.

Lemma remove_last_letters_splits_witness :
  clean_line_code "ELY T-12/3 b" = "T" +:+ "123" +:+ "b"
  /\ PyStr.all PyChar.is_alnum "123" = true.
Proof.
  destruct (remove_last_letters_splits "ELY T-12/3 b" "123" "T" "b" eq_refl)
    as (H1 & _ & _ & H2 & _).
  split; [exact H1 | exact H2].
Defined.

(** X2: putting a peeled code together again gives the cleaned code
    back exactly when the prefix and the suffix have at most one
    letter each: of longer ones only the first letter is kept. *)
Theorem recombine_restores_code (route_number core prefix suffix : string) :
  remove_last_letters (clean_line_code route_number) = (core, prefix, suffix) ->
  recombine (PStr core) prefix suffix = clean_line_code route_number
  <-> (String.length prefix <= 1)%nat /\ (String.length suffix <= 1)%nat.
Proof.
  intros Hpeel.
  destruct (remove_last_letters_app _ _ _ _ (clean_line_code_alnum route_number) Hpeel)
    as (-> & _).
  assert (recombine (PStr core) prefix suffix
          = PyStr.take 1 prefix +:+ core +:+ PyStr.take 1 suffix) as ->.
  { unfold recombine. destruct prefix, suffix; simpl; rewrite ?str_app_nil_r; done. }
  split.
  - intros Heq. apply (f_equal String.length) in Heq.
    rewrite !str_length_app in Heq.
    pose proof (str_length_take 1 prefix). pose proof (str_length_take 1 suffix).
    destruct prefix as [|a [|b p]], suffix as [|c [|d x]]; simpl in *; lia.
  - intros [Hp Hs].
    destruct prefix as [|a [|b p]]; simpl in Hp; try lia;
      destruct suffix as [|c [|d x]]; simpl in Hs; try lia; done.
Qed.

Lemma recombine_restores_code_witness :
  recombine (PStr "12") "T" "b" = clean_line_code "T-12 b"
  /\ recombine (PStr "12") "AB" "" <> clean_line_code "AB12".
Proof.
  split.
  - apply (recombine_restores_code "T-12 b" "12" "T" "b" eq_refl). simpl. lia.
  - intros H. apply (recombine_restores_code "AB12" "12" "AB" "" eq_refl) in H.
    simpl in H. lia.
Defined.

(** ** The registry along a pass *)

Section CounterFacts.

Variable line_letter : string.

Lemma counter_advanced_refl running_n : counter_advanced line_letter running_n running_n.
Proof. split; [done | lia]. Qed.

Lemma counter_advanced_trans rn1 rn2 rn3 :
  counter_advanced line_letter rn1 rn2 -> counter_advanced line_letter rn2 rn3 ->
  counter_advanced line_letter rn1 rn3.
Proof.
  intros [H1 H1'] [H2 H2']. split; [| lia].
  intros k Hk. by rewrite H2, H1.
Qed.

Lemma counter_advanced_start (running_n : gmap string Z) :
  counter_advanced line_letter running_n
    match running_n !! line_letter with
    | None => <[line_letter := 99]> running_n
    | Some _ => running_n
    end.
Proof.
  destruct (running_n !! line_letter) as [n|] eqn:Hn; [apply counter_advanced_refl |].
  split.
  - intros k Hk. by rewrite lookup_insert_ne.
  - rewrite Hn, lookup_insert_eq. simpl. lia.
Qed.

Lemma counter_advanced_draw (running_n : gmap string Z) :
  is_Some (running_n !! line_letter) ->
  counter_advanced line_letter running_n
    (<[line_letter := running_n !!! line_letter + 1]> running_n).
Proof.
  intros [n Hn]. split.
  - intros k Hk. by rewrite lookup_insert_ne.
  - rewrite lookup_insert_eq, (lookup_total_correct _ _ _ Hn), Hn. simpl. lia.
Qed.

Lemma redraw_counter_advanced lnames dir_id fuel :
  forall linename line_number running_n linename' line_number' running_n',
  is_Some (running_n !! line_letter) ->
  redraw fuel lnames line_letter dir_id linename line_number running_n
    = Some (linename', line_number', running_n') ->
  counter_advanced line_letter running_n running_n'
  /\ is_Some (running_n' !! line_letter).
Proof.
  induction fuel as [|fuel IH]; intros linename v rn linename' v' rn' Hsome; simpl.
  - case_bool_decide; [done |]. intros [= <- <- <-].
    split; [apply counter_advanced_refl | done].
  - case_bool_decide.
    + intros Hr. apply IH in Hr as [Hadv Hs]; [| by rewrite lookup_insert_eq].
      split; [| done].
      eapply counter_advanced_trans; [by apply counter_advanced_draw | done].
    + intros [= <- <- <-]. split; [apply counter_advanced_refl | done].
Qed.

(** Whatever its outcome, a call moves no counter but the one of its
    letter, and that one only forward. *)
Lemma form_new_linename_counter line dir_id st :
  counter_advanced line_letter (running_n st)
    (running_n (form_new_linename line line_letter dir_id st).1.2).
Proof.
  pose proof (counter_advanced_start (running_n st)) as Hstart.
  assert (is_Some (match running_n st !! line_letter with
                   | None => <[line_letter := 99]> (running_n st)
                   | Some _ => running_n st
                   end !! line_letter)) as Hkey.
  { destruct (running_n st !! line_letter) eqn:Hn; [by rewrite Hn |].
    by rewrite lookup_insert_eq. }
  unfold form_new_linename.
  destruct (parse_route_name (route_name line)) as [[route_number parts]|]; [| done].
  match goal with |- context [match ?r with inl _ => _ | inr _ => _ end] =>
    assert (match r with
            | inl (_, _, _, rn) =>
                counter_advanced line_letter (running_n st) rn
                /\ is_Some (rn !! line_letter)
            | inr _ => True
            end) as Hres;
    [| destruct r as [[[[v p] s] rn]|pr]; [| done] ]
  end.
  { destruct (scan_history _ _ _ _ _ _); [| done | done].
    destruct (nonempty route_number).
    - by destruct (remove_last_letters _) as [[? ?] ?].
    - split; [| by rewrite lookup_insert_eq].
      eapply counter_advanced_trans; [done | by apply counter_advanced_draw]. }
  destruct Hres as [Hadv Hs].
  destruct (redraw _ _ _ _ _ _ _) as [[[name v'] rn']|] eqn:Hr; [| done].
  apply redraw_counter_advanced in Hr as [Hadv' _]; [| done].
  simpl. by eapply counter_advanced_trans.
Qed.

End CounterFacts.

(** X6: along any sequence of calls no counter ever moves back, and
    the counter of a letter for which no call is made stays as it
    is; this also holds when the sequence is ended by an exception. *)
Theorem run_calls_counters (calls : list call) (st : registry) (k : string) :
  counter st k <= counter (run_calls calls st).2 k
  /\ (Forall (fun c : call => c.1.2 <> k) calls ->
      running_n (run_calls calls st).2 !! k = running_n st !! k).
Proof.
  revert st. induction calls as [|[[line l] dir_id] rest IH]; intros st.
  - simpl. split; [lia | done].
  - pose proof (form_new_linename_counter l line dir_id st) as [Hframe Hmono].
    assert (counter st k <= counter (form_new_linename line l dir_id st).1.2 k) as Hstep.
    { unfold counter. destruct (decide (k = l)) as [->|Hne]; [done |].
      rewrite Hframe by done. lia. }
    simpl.
    destruct (form_new_linename line l dir_id st) as [[[[linename desc]|e|] st'] out] eqn:Hcall;
      simpl in *.
    + destruct (IH st') as [Hmono' Hframe'].
      destruct (run_calls rest st') as [[names|e|] st'']; simpl in *;
        (split; [lia |]);
        intros [Hl Hrest]%Forall_cons; simpl in Hl;
        (rewrite Hframe' by done); apply Hframe; congruence.
    + split; [done |]. intros [Hl _]%Forall_cons. simpl in Hl. apply Hframe. congruence.
    + split; [done |]. intros [Hl _]%Forall_cons. simpl in Hl. apply Hframe. congruence.
Qed.

(** X5: the list of used names and the history only grow, and they
    grow together: whatever a sequence of calls does, the identifiers
    and the history entries it leaves behind are the earlier ones
    followed by one identifier and one entry for each call that
    returned, and each of these identifiers is built from the
    letter, the number and the direction of its entry. *)
Theorem run_calls_appends (calls : list call) (st : registry) :
  exists names entries,
    lnames (run_calls calls st).2 = lnames st ++ names
    /\ descriptions (run_calls calls st).2 = descriptions st ++ entries
    /\ Forall2 (fun name e =>
                  name = make_linename (entry_letter e) (entry_number e) (entry_dir_id e))
               names entries
    /\ (length names <= length calls)%nat
    /\ forall returned, (run_calls calls st).1 = Return returned ->
                        returned = names /\ length names = length calls.
Proof.
  revert st. induction calls as [|[[line l] dir_id] rest IH]; intros st.
  - exists [], []. simpl. rewrite !List.app_nil_r.
    split_and!; [done | done | constructor | done |]. by intros ? [= <-].
  - simpl.
    destruct (form_new_linename line l dir_id st) as [[[[linename desc]|e|] st'] out] eqn:Hcall.
    + destruct (form_new_linename_returns _ _ _ _ _ _ _ _ Hcall) as (v & _ & Hname & Hl & Hd).
      destruct (IH st') as (names & entries & H1 & H2 & H3 & H4 & H5).
      exists (linename :: names), ((desc, (v, l), dir_id) :: entries).
      destruct (run_calls rest st') as [[returned|e|] st''] eqn:Hrun; simpl in *;
        rewrite H1, H2, Hl, Hd, <- !List.app_assoc;
        (split_and!; [done | done | by constructor | lia |]); try done.
      intros ? [= <-]. destruct (H5 returned eq_refl) as [-> ->]. done.
    + destruct (form_new_linename_raises _ _ _ _ _ _ _ Hcall) as [Hl Hd].
      exists [], []. simpl. rewrite Hl, Hd, !List.app_nil_r.
      split_and!; [done | done | constructor | lia | done].
    + pose proof (form_new_linename_finishes line l dir_id st) as Hfin.
      by rewrite Hcall in Hfin.
Qed.

(** ** Collisions and malformed numbers *)

(** X7: when the number assigned to a line is an integer, it was drawn
    from the counter of the letter after a collision: it is not below
    the value the counter had when the call started, the identifier
    is built from it, the counter is left right behind it, and the
    identifiers of all draws that were passed over were taken.  So a
    collision is resolved by the first draw that is free. *)
Theorem collision_takes_first_free_draw (line : transit_line) (line_letter : string)
    (dir_id : Z) (st st' : registry) (linename desc : string) (out : list string) (n : Z) :
  form_new_linename line line_letter dir_id st = (Return (linename, desc), st', out) ->
  assigned_numbers st st' = [PInt n] ->
  counter st line_letter <= n
  /\ linename = make_linename line_letter (PInt n) dir_id
  /\ counter st' line_letter = n + 1
  /\ forall m, counter st line_letter < m < n ->
               make_linename line_letter (PInt m) dir_id ∈ lnames st.
Proof.
  unfold form_new_linename.
  destruct (parse_route_name (route_name line)) as [[route_number parts]|]; [| done].
  pose proof (counter_start line_letter st) as Hstart.
  set (running_n0 := match running_n st !! line_letter with
                     | Some _ => running_n st
                     | None => <[line_letter:=99]> (running_n st)
                     end) in *.
  assert (is_Some (running_n0 !! line_letter)) as Hkey.
  { unfold running_n0. destruct (running_n st !! line_letter) eqn:Hn; [by rewrite Hn |].
    by rewrite lookup_insert_eq. }
  match goal with |- context [match ?r with inl _ => _ | inr _ => _ end] =>
    assert (match r with
            | inl (_, _, _, rn) =>
                counter st line_letter <= rn !!! line_letter <= counter st line_letter + 1
                /\ is_Some (rn !! line_letter)
            | inr _ => True
            end) as Hres;
    [| destruct r as [[[[v p] s] rn]|pr]; [| done] ]
  end.
  { destruct (scan_history _ _ _ _ _ _); [| split; [lia | done] | done].
    destruct (nonempty route_number).
    - destruct (remove_last_letters _) as [[? ?] ?]. split; [lia | done].
    - rewrite lookup_total_insert_eq, lookup_insert_eq. split; [lia | done]. }
  destruct Hres as [Hrn Hsome].
  destruct (redraw _ _ _ _ _ _ _) as [[[name v'] rn']|] eqn:Hr; [| done].
  intros [= <- <- <- <-] Hassigned.
  unfold assigned_numbers in Hassigned. simpl in Hassigned.
  rewrite map_app, <- (length_map entry_number), drop_app_length in Hassigned.
  injection Hassigned as Hv. unfold entry_number in Hv. simpl in Hv. subst v'.
  destruct (decide (make_linename line_letter
                      (PStr (recombine v p s)) dir_id ∈ lnames st)) as [Hin|Hout].
  - pose proof Hr as Hr'.
    apply redraw_least in Hr as (n0 & Hn0 & [= <-] & Hname & Hnext & Hbelow); [| done].
    apply redraw_counter_advanced in Hr' as [_ [x Hx]]; [| done].
    split_and!; [lia | done | |].
    + unfold counter. simpl. rewrite Hx. simpl.
      by rewrite <- (lookup_total_correct _ _ _ Hx).
    + intros m Hm. apply Hbelow. lia.
  - rewrite redraw_free in Hr by done. by injection Hr.
Qed.

Lemma collision_takes_first_free_draw_witness :
  counter (Registry ["L00991"; "L01001"] {["L" := 99]} []) "L" <= 101
  /\ "L01011" = make_linename "L" (PInt 101) 1.
Proof.
  destruct (collision_takes_first_free_draw
              (TransitLine "1003" "d" "Depot - Harbour" "Local Co" "") "L" 1
              (Registry ["L00991"; "L01001"] {["L" := 99]} [])
              (Registry ["L00991"; "L01001"; "L01011"] {["L" := 102]}
                        [("Depot - Harbour", (PInt 101, "L"), 1)])
              "L01011" "Depot - Harbour" ["Route: Depot - Harbour, route_number: "] 101)
    as (H1 & H2 & _).
  - vm_compute. reflexivity.
  - reflexivity.
  - split; [exact H1 | exact H2].
Defined.

(** X8: the attempt to move a route number past a line with the same
    number fails exactly when the number has to be incremented (its
    code has a letter suffix, or core and prefix are at least four
    characters wide) and the numeric core is empty or holds something
    else than decimal digits; what is printed then is the route
    number, the core and the suffix.  A code of digits only never
    fails. *)
Theorem bump_number_fails_iff (route_number core prefix suffix : string)
    (printed : list string) :
  remove_last_letters (clean_line_code route_number) = (core, prefix, suffix) ->
  bump_number route_number = Fail printed
  <-> printed = [route_number; core; suffix]
      /\ (nonempty suffix = true \/ (4 <= String.length core + String.length prefix)%nat)
      /\ (core = "" \/ PyStr.all PyChar.is_ascii_digit core = false).
Proof.
  intros Hpeel.
  destruct (remove_last_letters_alnum _ _ _ _ (clean_line_code_alnum route_number) Hpeel)
    as (Hcore & _ & _).
  pose proof (to_int_alnum_none core Hcore) as Hint.
  unfold bump_number. rewrite Hpeel.
  destruct (nonempty suffix) eqn:Hs; simpl.
  - destruct (PyStr.to_int core) as [k|] eqn:Hk.
    + split; [done |]. intros (_ & _ & Hbad). apply Hint in Hbad. done.
    + split.
      * intros [= <-]. split_and!; [done | by left | by apply Hint].
      * by intros (-> & _).
  - destruct (String.length core + String.length prefix <? 4)%nat eqn:Hw.
    + split; [done |]. apply Nat.ltb_lt in Hw. intros (_ & [? | ?] & _); [done | lia].
    + destruct (PyStr.to_int core) as [k|] eqn:Hk.
      * split; [done |]. intros (_ & _ & Hbad). apply Hint in Hbad. done.
      * apply Nat.ltb_ge in Hw. split.
        -- intros [= <-]. split_and!; [done | by right | by apply Hint].
        -- by intros (-> & _).
Qed.

Lemma bump_number_fails_iff_witness :
  bump_number "1A2B" = Fail ["1A2B"; "1A2"; "B"]
  /\ bump_number "1234" <> Fail ["1234"; "1234"; ""].
Proof.
  split.
  - apply (bump_number_fails_iff "1A2B" "1A2" "" "B" ["1A2B"; "1A2"; "B"] eq_refl).
    split_and!; [reflexivity | by left | by right].
  - intros H.
    apply (bump_number_fails_iff "1234" "1234" "" "" ["1234"; "1234"; ""] eq_refl) in H.
    destruct H as (_ & _ & [H | H]); discriminate.
Defined.

(** ** The length of an identifier *)

Lemma of_int_one_digit d : 0 <= d <= 9 -> String.length (PyStr.of_int d) = 1%nat.
Proof.
  intros Hd.
  assert (d = 0 \/ d = 1 \/ d = 2 \/ d = 3 \/ d = 4 \/ d = 5 \/ d = 6 \/ d = 7 \/ d = 8 \/ d = 9)
    as Hcases by lia.
  repeat (destruct Hcases as [-> | Hcases]; [reflexivity |]). by subst.
Qed.

(** X13: with a direction code of one digit, an identifier is as long
    as its letter, its number field and one more character, the
    number field being the longer of the pad width and the text of
    the number.  For a letter of one or two characters an identifier
    therefore has at least six characters, and exactly six when the
    text of the number fits into the pad width. *)
Theorem form_new_linename_length (line : transit_line) (line_letter : string) (dir_id : Z)
    (st st' : registry) (linename desc : string) (out : list string) :
  0 <= dir_id <= 9 ->
  form_new_linename line line_letter dir_id st = (Return (linename, desc), st', out) ->
  exists line_number,
    assigned_numbers st st' = [line_number]
    /\ String.length linename
       = (String.length line_letter
          + Nat.max (n_to_fill line_letter) (String.length (py_str line_number)) + 1)%nat
    /\ ((1 <= String.length line_letter <= 2)%nat ->
        (6 <= String.length linename)%nat
        /\ (String.length linename = 6%nat
            <-> (String.length (py_str line_number) <= n_to_fill line_letter)%nat)).
Proof.
  intros Hd Hcall.
  destruct (form_new_linename_returns _ _ _ _ _ _ _ _ Hcall) as (v & _ & Hname & _ & Hdesc).
  exists v.
  assert (String.length linename
          = (String.length line_letter
             + Nat.max (n_to_fill line_letter) (String.length (py_str v)) + 1)%nat) as Hlen.
  { rewrite Hname. unfold make_linename.
    rewrite !str_length_app, length_zfill, (of_int_one_digit dir_id Hd). lia. }
  split_and!.
  - unfold assigned_numbers. rewrite Hdesc, map_app, <- (length_map entry_number).
    by rewrite drop_app_length.
  - exact Hlen.
  - intros Hletter. rewrite Hlen. unfold n_to_fill.
    destruct (String.length line_letter =? 2)%nat eqn:H2.
    + apply Nat.eqb_eq in H2. lia.
    + apply Nat.eqb_neq in H2. lia.
Qed.

Lemma form_new_linename_length_witness :
  exists line_number,
    String.length "V123452"
    = (String.length "V" + Nat.max (n_to_fill "V") (String.length (py_str line_number)) + 1)%nat.
Proof.
  destruct (form_new_linename_length
              (TransitLine "1001" "d" "12345 - Stationtown - Lakeside" "Local Co" "") "V" 2
              empty_registry
              (Registry ["V123452"] {["V" := 99]}
                        [("Stationtown - Lakeside", (PStr "12345", "V"), 2)])
              "V123452" "Stationtown - Lakeside"
              ["Route: Stationtown - Lakeside, route_number: 12345"])
    as (line_number & _ & H & _).
  - lia.
  - reflexivity.
  - exists line_number. exact H.
Defined.

(** ** Joining and splitting the cleaned description *)

#[local] Arguments String.prefix : simpl never.

Section SegmentFacts.

Implicit Types (s t p q : string) (parts : list string).

Lemma any_app f s t : PyStr.any f (s +:+ t) = PyStr.any f s || PyStr.any f t.
Proof.
  induction s as [|c s IH]; [done |].
  rewrite str_app_cons. simpl. by rewrite IH, orb_assoc.
Qed.

Lemma no_dash_app s t : no_dash (s +:+ t) = no_dash s && no_dash t.
Proof. unfold no_dash. by rewrite any_app, negb_orb. Qed.

Lemma no_dash_cons c s : no_dash (String c s) = negb (Ascii.eqb c "-") && no_dash s.
Proof. unfold no_dash. simpl. by rewrite negb_orb, Ascii.eqb_sym. Qed.

Lemma no_dash_snoc s c : no_dash (PyStr.snoc s c) = no_dash s && negb (Ascii.eqb c "-").
Proof. unfold PyStr.snoc. rewrite no_dash_app, no_dash_cons. simpl. by rewrite andb_true_r. Qed.

Lemma no_dash_any s : no_dash s = true -> PyStr.any (Ascii.eqb "-") s = false.
Proof. unfold no_dash. by intros ?%negb_true_iff. Qed.

(** The segments of [re.split(r'\s*-\s*', s)] hold no dash. *)
Lemma re_split_dash_go_segments s : forall seg pend skip,
  no_dash seg = true -> no_dash pend = true ->
  Forall (fun p => no_dash p = true) (PyStr.re_split_dash_go s seg pend skip).
Proof.
  induction s as [|c s IH]; intros seg pend skip Hseg Hpend; simpl.
  - constructor; [| constructor]. by rewrite no_dash_app, Hseg, Hpend.
  - destruct (Ascii.eqb c "-") eqn:Hc.
    + constructor; [done |]. by apply IH.
    + destruct (PyChar.isspace c); [destruct skip |]; apply IH; try done.
      * by rewrite no_dash_snoc, Hpend, Hc.
      * by rewrite no_dash_snoc, no_dash_app, Hseg, Hpend, Hc.
Qed.

(** So do the words of a segment and what is joined from them. *)
Lemma re_split_ws_go_words s : forall cur inws,
  no_dash s = true -> no_dash cur = true ->
  Forall (fun p => no_dash p = true) (PyStr.re_split_ws_go s cur inws).
Proof.
  induction s as [|c s IH]; intros cur inws Hs Hcur; simpl.
  - by constructor.
  - rewrite no_dash_cons in Hs. apply andb_true_iff in Hs as [Hc Hs].
    destruct (PyChar.isspace c); [destruct inws |].
    + by apply IH.
    + constructor; [done |]. by apply IH.
    + apply IH; [done |]. by rewrite no_dash_snoc, Hcur, Hc.
Qed.

Lemma join_blank_no_dash parts :
  Forall (fun p => no_dash p = true) parts -> no_dash (PyStr.join " " parts) = true.
Proof.
  induction 1 as [|p parts Hp Hparts IH]; [done |].
  unfold PyStr.join in *. simpl. destruct parts as [|q parts]; [done |].
  change (no_dash (p +:+ " " +:+ String.concat " " (q :: parts)) = true).
  by rewrite !no_dash_app, Hp, IH.
Qed.

Lemma nth_no_dash n parts :
  Forall (fun p => no_dash p = true) parts -> no_dash (nth n parts "") = true.
Proof.
  intros H. revert n. induction H as [|p parts Hp _ IH]; intros [|n]; simpl; auto.
Qed.

Lemma tail_no_dash parts :
  Forall (fun p => no_dash p = true) parts -> Forall (fun p => no_dash p = true) (tail parts).
Proof. destruct 1; [constructor | done]. Qed.

(** What the parser returns: some segments, none with a dash, and a
    route number that is empty or holds a digit. *)
Lemma parse_route_name_segments route_name route_number parts :
  parse_route_name route_name = Some (route_number, parts) ->
  parts <> []
  /\ Forall (fun p => no_dash p = true) parts
  /\ (route_number = "" \/ includes_numbers route_number = true).
Proof.
  unfold parse_route_name, PyStr.re_split_dash.
  pose proof (re_split_dash_go_segments route_name "" "" false eq_refl eq_refl) as Hseg.
  destruct (PyStr.re_split_dash_go route_name "" "" false) as [|p0 [|p1 rest]]; [done | done |].
  apply Forall_cons in Hseg as [H0 Hseg]. pose proof Hseg as Hseg'.
  apply Forall_cons in Hseg' as [H1 Hrest].
  pose proof (re_split_ws_go_words p1 "" false H1 eq_refl) as Hwords.
  fold (PyStr.re_split_ws p1) in Hwords.
  destruct (includes_numbers p0) eqn:Hnum.
  - destruct (1 <? length (PyStr.re_split_ws p1))%nat; simpl.
    + intros [= <- <-]. split_and!; [| | by right].
      * repeat case_match; done.
      * repeat case_match; try done; constructor; try done;
          try (by apply nth_no_dash); by apply join_blank_no_dash, tail_no_dash.
    + intros [= <- <-]. split_and!; [done | done | by right].
  - rewrite andb_false_r. destruct (String.eqb p0 ""); intros [= <- <-].
    + split_and!; [done | done | by left].
    + split_and!; [done | by constructor | by left].
Qed.

(** Reading a segment without a dash with [str.split(" - ")]. *)
Lemma prefix_cons a s b t :
  String.prefix (String a s) (String b t) = if ascii_dec a b then String.prefix s t else false.
Proof. reflexivity. Qed.

Lemma prefix_sep_false c t : head_no_dash t = true -> String.prefix " - " (String c t) = false.
Proof.
  intros Ht. rewrite prefix_cons. destruct (ascii_dec " " c); [| done].
  destruct t as [|d t]; [done |]. rewrite prefix_cons. simpl in Ht.
  destruct (ascii_dec "-" d) as [<-|]; done.
Qed.

Lemma prefix_sep_true r :
  String.prefix " - " (String " " (String "-" (String " " r))) = true.
Proof.
  rewrite !prefix_cons.
  destruct (ascii_dec " " " ") as [_|H]; [| congruence].
  destruct (ascii_dec "-" "-") as [_|H]; [| congruence]. by destruct r.
Qed.

Lemma split_go_part p : forall s cur,
  no_dash p = true -> head_no_dash s = true ->
  PyStr.split_go " - " (p +:+ s) cur 0 = PyStr.split_go " - " s (cur +:+ p) 0.
Proof.
  induction p as [|c p IH]; intros s cur Hp Hs.
  - by rewrite str_app_nil_l, str_app_nil_r.
  - rewrite no_dash_cons in Hp. apply andb_true_iff in Hp as [Hc Hp].
    rewrite str_app_cons.
    assert (head_no_dash (p +:+ s) = true) as Hhead.
    { destruct p as [|d p]; [by rewrite str_app_nil_l |].
      rewrite str_app_cons. simpl. rewrite no_dash_cons in Hp.
      by apply andb_true_iff in Hp as [-> _]. }
    cbn [PyStr.split_go]. rewrite (prefix_sep_false c _ Hhead).
    rewrite IH by done. unfold PyStr.snoc. by rewrite str_app_assoc.
Qed.

Lemma split_go_join p parts : forall cur,
  Forall (fun q => no_dash q = true) (p :: parts) ->
  PyStr.split_go " - " (PyStr.join " - " (p :: parts)) cur 0 = (cur +:+ p) :: parts.
Proof.
  revert p. induction parts as [|q parts IH]; intros p cur [Hp Hparts]%Forall_cons.
  - unfold PyStr.join. simpl String.concat.
    rewrite <- (str_app_nil_r p) at 1. by rewrite split_go_part.
  - unfold PyStr.join. simpl String.concat.
    change (PyStr.split_go " - " (p +:+ " - " +:+ PyStr.join " - " (q :: parts)) cur 0
            = (cur +:+ p) :: q :: parts).
    rewrite split_go_part by done.
    change (" - " +:+ PyStr.join " - " (q :: parts))
      with (String " " (String "-" (String " " (PyStr.join " - " (q :: parts))))).
    cbn [PyStr.split_go].
    rewrite prefix_sep_true.
    simpl String.length. cbn [PyStr.split_go Nat.sub]. f_equal.
    rewrite IH by done. by rewrite str_app_nil_l.
Qed.

End SegmentFacts.

(** X3: the segments that the parser of [form_new_linename] keeps are
    never none, and none of them holds a dash; so when they are
    joined with [" - "] into the cleaned description, splitting the
    description at [" - "], as the scan of the history does, gives
    exactly these segments back.  The route number is empty or holds
    a digit. *)
Theorem parse_route_name_round_trip (route_name route_number : string) (parts : list string) :
  parse_route_name route_name = Some (route_number, parts) ->
  parts <> []
  /\ Forall (fun p => no_dash p = true) parts
  /\ PyStr.split " - " (PyStr.join " - " parts) = parts
  /\ List.last (PyStr.split " - " (PyStr.join " - " parts)) "" = List.last parts ""
  /\ (route_number = "" \/ includes_numbers route_number = true).
Proof.
  intros Hparse.
  destruct (parse_route_name_segments _ _ _ Hparse) as (Hne & Hdash & Hnum).
  assert (PyStr.split " - " (PyStr.join " - " parts) = parts) as Hsplit.
  { destruct parts as [|p parts]; [done |].
    unfold PyStr.split. rewrite split_go_join by done. by rewrite str_app_nil_l. }
  split_and!; try done. by rewrite Hsplit.
Qed.

Lemma parse_route_name_round_trip_witness :
  PyStr.split " - " (PyStr.join " - " ["New"; "Boston"; "Portland Harbour"])
  = ["New"; "Boston"; "Portland Harbour"].
Proof.
  apply (parse_route_name_round_trip "12 - New York - Boston - Portland Harbour" "12"
           ["New"; "Boston"; "Portland Harbour"]).
  reflexivity.
Defined.

(** ** The description that is written back *)

Section DescriptionFacts.

Implicit Types (s p q seg pend : string) (parts : list string).

(** Reading a segment that holds no dash and does not end with white
    space. *)
Lemma re_split_dash_go_part q : forall seg pend s,
  no_dash q = true -> q <> "" -> ends_with_space q = false ->
  PyStr.re_split_dash_go (q +:+ s) seg pend false
  = PyStr.re_split_dash_go s (seg +:+ pend +:+ q) "" false.
Proof.
  induction q as [|c q IH]; intros seg pend s Hq Hne Hend; [done |].
  rewrite no_dash_cons in Hq. apply andb_true_iff in Hq as [Hc Hq].
  apply negb_true_iff in Hc. rewrite str_app_cons. cbn [PyStr.re_split_dash_go]. rewrite Hc.
  destruct q as [|d q].
  - simpl in Hend. rewrite Hend, str_app_nil_l.
    unfold PyStr.snoc. by rewrite str_app_assoc.
  - change (ends_with_space (String c (String d q))) with (ends_with_space (String d q)) in Hend.
    destruct (PyChar.isspace c).
    + rewrite IH by done. by rewrite str_snoc_app.
    + rewrite IH by done. rewrite str_app_nil_l, str_snoc_app, str_app_assoc. done.
Qed.

(** Right behind a dash a segment that starts with another character
    than white space is read as at the start of the string. *)
Lemma re_split_dash_go_skip s :
  starts_with_space s = false -> head_no_dash s = true ->
  PyStr.re_split_dash_go s "" "" true = PyStr.re_split_dash_go s "" "" false.
Proof.
  destruct s as [|c s]; [done |]. simpl. intros -> ->%negb_true_iff. done.
Qed.

(** Reading the separator [" - "]. *)
Lemma re_split_dash_go_separator s seg skip :
  PyStr.re_split_dash_go (" - " +:+ s) seg "" skip = seg :: PyStr.re_split_dash_go s "" "" true.
Proof. by destruct skip. Qed.

Lemma no_dash_head s : no_dash s = true -> head_no_dash s = true.
Proof.
  destruct s as [|c s]; [done |]. rewrite no_dash_cons. by intros [? _]%andb_true_iff.
Qed.

Lemma re_split_dash_go_last p skip :
  no_dash p = true -> (skip = true -> starts_with_space p = false) ->
  PyStr.re_split_dash_go p "" "" skip = [p].
Proof.
  intros Hp Hskip. destruct skip.
  - rewrite re_split_dash_go_skip by auto using no_dash_head.
    rewrite re_split_dash_go_no_dash by by apply no_dash_any. done.
  - rewrite re_split_dash_go_no_dash by by apply no_dash_any. done.
Qed.

Lemma re_split_dash_go_join parts : forall first,
  parts <> [] -> canonical_segments first parts ->
  PyStr.re_split_dash_go (PyStr.join " - " parts) "" "" (negb first) = parts.
Proof.
  induction parts as [|p rest IH]; intros first Hne Hcanon; [done |].
  destruct Hcanon as (Hp & Hfirst & Hrest).
  assert (negb first = true -> starts_with_space p = false) as Hstart.
  { destruct Hfirst as [-> | ?]; [done | auto]. }
  destruct rest as [|q rest].
  - unfold PyStr.join. simpl String.concat. by apply re_split_dash_go_last.
  - destruct Hrest as [Hend Hcanon].
    unfold PyStr.join. simpl String.concat.
    change (PyStr.re_split_dash_go (p +:+ " - " +:+ PyStr.join " - " (q :: rest))
                                   "" "" (negb first) = p :: q :: rest).
    destruct p as [|c p].
    + rewrite str_app_nil_l, re_split_dash_go_separator. f_equal.
      by apply (IH false).
    + assert (PyStr.re_split_dash_go (String c p +:+ " - " +:+ PyStr.join " - " (q :: rest))
                                     "" "" (negb first)
              = PyStr.re_split_dash_go (String c p +:+ " - " +:+ PyStr.join " - " (q :: rest))
                                       "" "" false) as ->.
      { destruct (negb first); [| done].
        rewrite str_app_cons. apply re_split_dash_go_skip.
        - by apply Hstart.
        - apply no_dash_head in Hp. exact Hp. }
      rewrite re_split_dash_go_part by done.
      rewrite re_split_dash_go_separator, !str_app_nil_l. f_equal.
      by apply (IH false).
Qed.

(** The first element of [desc.split("-")] for a description with a
    first segment that is not empty and more segments behind. *)
Lemma split_dash_go_part p : forall s cur,
  no_dash p = true ->
  PyStr.split_go "-" (p +:+ s) cur 0 = PyStr.split_go "-" s (cur +:+ p) 0.
Proof.
  induction p as [|c p IH]; intros s cur Hp.
  - by rewrite str_app_nil_l, str_app_nil_r.
  - rewrite no_dash_cons in Hp. apply andb_true_iff in Hp as [Hc Hp].
    rewrite str_app_cons. cbn [PyStr.split_go]. rewrite prefix_cons.
    destruct (ascii_dec "-" c) as [<-|_]; [done |].
    rewrite IH by done. unfold PyStr.snoc. by rewrite str_app_assoc.
Qed.

Lemma split_dash_head p parts :
  no_dash p = true ->
  List.hd "" (PyStr.split "-" (PyStr.join " - " (p :: parts)))
  = match parts with
    | [] => p
    | _ :: _ => p +:+ " "
    end.
Proof.
  intros Hp. unfold PyStr.split, PyStr.join. simpl String.concat.
  destruct parts as [|q parts].
  - rewrite <- (str_app_nil_r p) at 1. rewrite split_dash_go_part by done. done.
  - change (List.hd "" (PyStr.split_go "-"
              (p +:+ String " " (String "-" (String " " (PyStr.join " - " (q :: parts))))) "" 0)
            = p +:+ " ").
    rewrite split_dash_go_part by done. cbn [PyStr.split_go].
    rewrite prefix_cons. destruct (ascii_dec "-" " ") as [?|_]; [done |].
    cbn [PyStr.split_go]. rewrite prefix_cons.
    destruct (ascii_dec "-" "-") as [_|?]; [| done].
    replace (String.prefix "" _) with true by (by destruct (PyStr.join " - " (q :: parts))).
    simpl. unfold PyStr.snoc. by rewrite str_app_nil_l.
Qed.

End DescriptionFacts.

(** X4: splitting a cleaned description at the dashes with the white
    space around them gives back the segments it was joined from,
    provided the segments are as such a split leaves them (no dash
    inside, white space at most in front of the first and behind the
    last one).  If moreover the first segment starts with another
    character than white space, the description that
    [change_line_names] writes back is these segments joined by
    ["-"], cut after 115 characters. *)
Theorem description_round_trip (parts : list string) :
  parts <> [] ->
  canonical_segments true parts ->
  PyStr.re_split_dash (PyStr.join " - " parts) = parts
  /\ (starts_with_space (List.hd "" parts) = false -> List.hd "" parts <> "" ->
      short_description (PyStr.join " - " parts) = PyStr.take 115 (PyStr.join "-" parts)).
Proof.
  intros Hne Hcanon.
  assert (PyStr.re_split_dash (PyStr.join " - " parts) = parts) as Hsplit.
  { unfold PyStr.re_split_dash. by apply (re_split_dash_go_join parts true). }
  split; [exact Hsplit |].
  intros Hstart Hhead. unfold short_description. rewrite Hsplit.
  destruct parts as [|p rest]; [done |]. simpl in Hstart, Hhead.
  destruct Hcanon as (Hp & _).
  rewrite split_dash_head by done.
  assert (String.eqb match rest with
                     | [] => p
                     | _ :: _ => p +:+ " "
                     end " " = false) as ->; [| done].
  apply String.eqb_neq. destruct p as [|c p]; [done |].
  destruct rest as [|q rest].
  - intros [= -> ->]. done.
  - rewrite str_app_cons. intros [= -> H]. by destruct p.
Qed.

Lemma description_round_trip_witness :
  PyStr.re_split_dash (PyStr.join " - " ["Stationtown"; "Old Mill"; "Lakeside "])
  = ["Stationtown"; "Old Mill"; "Lakeside "]
  /\ short_description (PyStr.join " - " ["Stationtown"; "Old Mill"; "Lakeside "])
     = "Stationtown-Old Mill-Lakeside ".
Proof.
  destruct (description_round_trip ["Stationtown"; "Old Mill"; "Lakeside "]) as [H1 H2].
  - discriminate.
  - simpl. repeat split; auto.
  - split; [exact H1 |]. apply H2; [reflexivity | discriminate].
Defined.

(** ** More on the area classifier *)

Section ZoneMoreFacts.

Context {geometry : Type} (intersects : float * float -> geometry -> bool).

Implicit Types (features pre mid post : list (feature geometry)) (muniname : list string).

Lemma zone_loop_few_hits hit1 hit2 col codes features : forall muniname,
  (length muniname + length (List.filter (fun f => hit1 f.2 || hit2 f.2) features) < 2)%nat ->
  zone_loop hit1 hit2 col codes features muniname = "V".
Proof.
  induction features as [|[v g] features IH]; intros muniname Hlt; simpl in *; [done |].
  destruct (hit1 g || hit2 g) eqn:Hg; simpl in Hlt.
  - destruct (short_code codes col v) as [c|]; [| done].
    replace (length (muniname ++ [c]) =? 2)%nat with false
      by (symmetry; apply Nat.eqb_neq; rewrite length_app; simpl; lia).
    apply IH. rewrite length_app. simpl. lia.
  - replace (length muniname =? 2)%nat with false by (symmetry; apply Nat.eqb_neq; lia).
    by apply IH.
Qed.

Lemma zone_loop_skip hit1 hit2 col codes pre features : forall muniname,
  Forall (fun f => hit1 f.2 || hit2 f.2 = false) pre ->
  length muniname <> 2%nat ->
  zone_loop hit1 hit2 col codes (pre ++ features) muniname
  = zone_loop hit1 hit2 col codes features muniname.
Proof.
  induction pre as [|[v g] pre IH]; intros muniname Hpre Hlen; [done |].
  apply Forall_cons in Hpre as [Hg Hpre]. simpl in *. rewrite Hg.
  replace (length muniname =? 2)%nat with false by (symmetry; by apply Nat.eqb_neq).
  by apply IH.
Qed.

Lemma short_code_is_short_code codes col value c :
  short_code codes col value = Some c -> is_short_code codes c = true.
Proof.
  unfold short_code, is_short_code. destruct (value !! col) as [name|]; [| done].
  intros Hc. apply bool_decide_eq_true. apply list_elem_of_fmap.
  exists (name, c). split; [done |]. by apply elem_of_map_to_list.
Qed.

Lemma zone_loop_range hit1 hit2 col codes features : forall muniname,
  zone_loop hit1 hit2 col codes features muniname = "V"
  \/ is_short_code codes (zone_loop hit1 hit2 col codes features muniname) = true.
Proof.
  induction features as [|[v g] features IH]; intros muniname; simpl; [by left |].
  destruct (if hit1 g || hit2 g
            then match short_code codes col v with
                 | Some c => Some (muniname ++ [c])
                 | None => None
                 end
            else Some muniname) as [m|]; [| by left].
  destruct (length m =? 2)%nat; [| apply IH].
  destruct (String.eqb _ _); simpl; [| by left].
  destruct (is_short_code codes (nth 0 m "")) eqn:Hc; [by right | by left].
Qed.

(** X9: an area letter takes two zones.  For a line of another agency
    than the long-distance one, with a single row in the coordinate
    table, the classification is ["V"] whenever fewer than two zones
    of the zone file hold an end of the line; so it is for a line
    that lies in one zone with both its ends. *)
Theorem get_operator_name_needs_two_zones (df : list coord_row) (line : transit_line)
    (r : coord_row) (features : list (feature geometry)) (muni_name_col : string)
    (muni_short_codes : gmap string string) :
  PyStr.contains "OnniBus" (agency_name line) = false ->
  df_loc df (line_id line) = [r] ->
  (length (List.filter (fun f => intersects (xi r, yi r) f.2 || intersects (xj r, yj r) f.2)
                       features) < 2)%nat ->
  get_operator_name intersects df line features muni_name_col muni_short_codes = Return "V".
Proof.
  intros Hagency Hrow Hhits. unfold get_operator_name. rewrite Hagency, Hrow. f_equal.
  apply zone_loop_few_hits. simpl. lia.
Qed.

(** X10: the first two zones that hold an end of the line decide.  If
    both have a short code, the classification is that code when the
    two codes are equal and ["V"] when they differ; the zones behind
    the second one are not looked at, and the test that the code is a
    value of the table cannot fail. *)
Theorem get_operator_name_two_zones (df : list coord_row) (line : transit_line)
    (r : coord_row) (pre mid post : list (feature geometry))
    (value1 value2 : gmap string string) (geom1 geom2 : geometry) (c1 c2 : string)
    (muni_name_col : string) (muni_short_codes : gmap string string) :
  PyStr.contains "OnniBus" (agency_name line) = false ->
  df_loc df (line_id line) = [r] ->
  Forall (fun f => intersects (xi r, yi r) f.2 || intersects (xj r, yj r) f.2 = false)
         (pre ++ mid) ->
  intersects (xi r, yi r) geom1 || intersects (xj r, yj r) geom1 = true ->
  intersects (xi r, yi r) geom2 || intersects (xj r, yj r) geom2 = true ->
  short_code muni_short_codes muni_name_col value1 = Some c1 ->
  short_code muni_short_codes muni_name_col value2 = Some c2 ->
  get_operator_name intersects df line
    (pre ++ (value1, geom1) :: mid ++ (value2, geom2) :: post) muni_name_col muni_short_codes
  = Return (if String.eqb c1 c2 then c1 else "V").
Proof.
  intros Hagency Hrow [Hpre Hmid]%Forall_app Hhit1 Hhit2 Hc1 Hc2.
  unfold get_operator_name. rewrite Hagency, Hrow. f_equal.
  rewrite zone_loop_skip by done. simpl. rewrite Hhit1, Hc1. simpl.
  rewrite zone_loop_skip by done. simpl. rewrite Hhit2, Hc2. simpl.
  by rewrite (short_code_is_short_code _ _ _ _ Hc1), andb_true_r.
Qed.

(** X11: the classification is ["O"], ["V"] or a short code of the
    table, and nothing else; it raises only when the coordinate
    table has several rows for the line and there are zones to test
    them against. *)
Theorem get_operator_name_range (df : list coord_row) (line : transit_line)
    (features : list (feature geometry)) (muni_name_col : string)
    (muni_short_codes : gmap string string) :
  match get_operator_name intersects df line features muni_name_col muni_short_codes with
  | Return c => c = "O" \/ c = "V" \/ exists name, muni_short_codes !! name = Some c
  | Raise e =>
      (2 <= length (df_loc df (line_id line)))%nat /\ features <> []
      /\ PyStr.contains "OnniBus" (agency_name line) = false
  | Unfinished => False
  end.
Proof.
  assert (forall hit1 hit2,
            let c := zone_loop hit1 hit2 muni_name_col muni_short_codes features [] in
            c = "O" \/ c = "V" \/ exists name, muni_short_codes !! name = Some c) as Hloop.
  { intros hit1 hit2 c.
    destruct (zone_loop_range hit1 hit2 muni_name_col muni_short_codes features [])
      as [Hv | Hc]; [by right; left |].
    right; right. unfold is_short_code in Hc.
    apply bool_decide_eq_true, list_elem_of_fmap in Hc as ([name c'] & Hcc & Hin).
    exists name. apply elem_of_map_to_list in Hin. simpl in Hcc. by subst c'. }
  unfold get_operator_name.
  destruct (PyStr.contains "OnniBus" (agency_name line)); [by left |].
  destruct (df_loc df (line_id line)) as [|r [|r' rows]]; [apply Hloop | apply Hloop |].
  destruct features; [by right; left |]. simpl. split_and!; [lia | done | done].
Qed.

End ZoneMoreFacts.

Lemma get_operator_name_needs_two_zones_witness :
  get_operator_name (fun (p : float * float) (g : bool) => g)
    [CoordRow "1001" 7 8 25506699 6673208 25496699 6673208]
    (TransitLine "1001" "d" "12 - Stationtown - Lakeside" "Local Co" "")
    [({["name" := "Lakeside District"]}, true); ({["name" := "Hill District"]}, false)]
    "name" {["Lakeside District" := "L"; "Hill District" := "H"]}
  = Return "V".
Proof.
  apply (get_operator_name_needs_two_zones (fun (p : float * float) (g : bool) => g)
           [CoordRow "1001" 7 8 25506699 6673208 25496699 6673208]
           (TransitLine "1001" "d" "12 - Stationtown - Lakeside" "Local Co" "")
           (CoordRow "1001" 7 8 25506699 6673208 25496699 6673208)).
  - reflexivity.
  - reflexivity.
  - simpl. lia.
Defined.

Lemma get_operator_name_two_zones_witness :
  get_operator_name (fun (p : float * float) (g : bool) => g)
    [CoordRow "1001" 7 8 25506699 6673208 25496699 6673208]
    (TransitLine "1001" "d" "12 - Stationtown - Lakeside" "Local Co" "")
    [({["name" := "Hill District"]}, false); ({["name" := "Lakeside District"]}, true);
     ({["name" := "Lakeside District"]}, true); ({["name" := "Atlantis"]}, true)]
    "name" {["Lakeside District" := "L"; "Hill District" := "H"]}
  = Return "L".
Proof.
  apply (get_operator_name_two_zones (fun (p : float * float) (g : bool) => g)
           [CoordRow "1001" 7 8 25506699 6673208 25496699 6673208]
           (TransitLine "1001" "d" "12 - Stationtown - Lakeside" "Local Co" "")
           (CoordRow "1001" 7 8 25506699 6673208 25496699 6673208)
           [({["name" := "Hill District"]}, false)] [] [({["name" := "Atlantis"]}, true)]
           {["name" := "Lakeside District"]} {["name" := "Lakeside District"]}
           true true "L" "L").
  - reflexivity.
  - reflexivity.
  - repeat constructor.
  - reflexivity.
  - reflexivity.
  - reflexivity.
  - reflexivity.
Defined.

(** ** More on the direction classifier *)

Lemma SFcompare_antisym x y :
  SFcompare y x = option_map CompOpp (SFcompare x y).
Proof.
  destruct x as [sx|sx| |sx mx ex], y as [sy|sy| |sy my ey]; simpl; try done;
    try (by destruct sx); try (by destruct sy); try (by destruct sx, sy).
  destruct sx, sy; simpl; try done; rewrite (Z.compare_antisym ex ey);
    destruct (ex ?= ey)%Z; simpl; try done;
    rewrite (Pos.compare_cont_antisym _ _ Eq); simpl;
    by destruct (Pos.compare_cont Eq mx my).
Qed.

(** Of two numbers at most one is less than the other. *)
Lemma float_ltb_asym (x y : float) : PrimFloat.ltb x y = true -> PrimFloat.ltb y x = false.
Proof.
  rewrite !ltb_spec. unfold SFltb. rewrite (SFcompare_antisym (Prim2SF x) (Prim2SF y)).
  by destruct (SFcompare (Prim2SF x) (Prim2SF y)) as [[]|].
Qed.

(** X12: the direction of a line is 1, 2 or 3, and it is 3 exactly
    for a loop.  For the line that runs the other way a loop is a
    loop again, and a line that runs towards the reference point
    (code 2) does not do so the other way as well: there it gets
    code 1. *)
Theorem direction_of_reverse (r : coord_row) :
  (direction_of_row r = 1 \/ direction_of_row r = 2 \/ direction_of_row r = 3)
  /\ (direction_of_row r = 3 <-> direction_of_row (reverse_row r) = 3)
  /\ (direction_of_row r = 3 <-> ca_first_t r = ca_last_t r)
  /\ (direction_of_row r = 2 -> direction_of_row (reverse_row r) = 1).
Proof.
  unfold direction_of_row, reverse_row. simpl.
  rewrite (Z.eqb_sym (ca_last_t r) (ca_first_t r)).
  destruct (ca_first_t r =? ca_last_t r) eqn:Heq.
  - apply Z.eqb_eq in Heq. split_and!; [auto | done | done | done].
  - apply Z.eqb_neq in Heq.
    destruct (PrimFloat.ltb (hel_distance (xj r) (yj r)) (hel_distance (xi r) (yi r))) eqn:Hlt.
    + rewrite (float_ltb_asym _ _ Hlt). split_and!; [auto | done | done | done].
    + destruct (PrimFloat.ltb (hel_distance (xi r) (yi r)) (hel_distance (xj r) (yj r)));
        split_and!; auto; done.
Qed.

(** * The published identifiers, the vehicle change, the delay functions and the line ends *)

(** Two lines of a renamed mode and one of another mode. *)
Lemma change_line_names_unique_ids_witness :
  NoDup (line_id <$> List.filter
           (renamed (DevConfig {["d" := 3]} "name" {["Lakeside District" := "L"]}))
           [TransitLine "V00122" "d" "12 - Stationtown - Lakeside" "Local Co"
                        "Stationtown-Lakeside";
            TransitLine "1002" "b" "Depot" "Local Co" "";
            TransitLine "V00121" "d" "12 - Lakeside - Stationtown" "Local Co"
                        "Lakeside-Stationtown"]).
Proof.
  apply (change_line_names_unique_ids (fun p (g : bool) => g)
           (DevConfig {["d" := 3]} "name" {["Lakeside District" := "L"]})
           [CoordRow "1001" 7 8 25506699 6673208 25496699 6673208;
            CoordRow "1003" 8 7 25496699 6673208 25506699 6673208]
           [({["name" := "Lakeside District"]}, true)]
           (Scenario [TransitLine "1001" "d" "12 - Stationtown - Lakeside" "Local Co" "";
                      TransitLine "1002" "b" "Depot" "Local Co" "";
                      TransitLine "1003" "d" "12 - Lakeside - Stationtown" "Local Co" ""] [])
           (Scenario [TransitLine "V00122" "d" "12 - Stationtown - Lakeside" "Local Co"
                                  "Stationtown-Lakeside";
                      TransitLine "1002" "b" "Depot" "Local Co" "";
                      TransitLine "V00121" "d" "12 - Lakeside - Stationtown" "Local Co"
                                  "Lakeside-Stationtown"]
                     [[TransitLine "V00122" "d" "12 - Stationtown - Lakeside" "Local Co"
                                   "Stationtown-Lakeside";
                       TransitLine "1002" "b" "Depot" "Local Co" "";
                       TransitLine "V00121" "d" "12 - Lakeside - Stationtown" "Local Co"
                                   "Lakeside-Stationtown"]])).
  reflexivity.
Defined.

Section ChunkFacts.

Lemma chunks_from (l : list string) n : forall a,
  concat (map (fun i => slice i (i + line_limit_n) l)
              (map (fun k => (k * line_limit_n)%nat) (seq a n)))
  = take (n * line_limit_n) (drop (a * line_limit_n) l).
Proof.
  induction n as [|n IH]; intros a; [done |].
  cbn [seq map concat]. rewrite IH. unfold slice.
  replace (a * line_limit_n + line_limit_n - a * line_limit_n)%nat with line_limit_n by lia.
  replace (S a * line_limit_n)%nat with (a * line_limit_n + line_limit_n)%nat by lia.
  rewrite <- drop_drop, take_take_drop. f_equal; lia.
Qed.

Lemma chunk_lines_concat (l : list string) : concat (chunk_lines l) = l.
Proof.
  unfold chunk_lines, py_range_step. rewrite chunks_from. simpl drop.
  apply take_ge. unfold line_limit_n.
  pose proof (Nat.div_mod_eq (length l + 12 - 1) 12) as Hdiv.
  pose proof (Nat.mod_upper_bound (length l + 12 - 1) 12) as Hmod. lia.
Qed.

Lemma chunk_lines_sizes (l : list string) :
  Forall (fun c => (1 <= length c <= 12)%nat) (chunk_lines l).
Proof.
  unfold chunk_lines, py_range_step, line_limit_n.
  apply Forall_forall. intros c Hc.
  apply list_elem_of_fmap in Hc as (i & -> & Hi).
  apply list_elem_of_fmap in Hi as (k & -> & Hk).
  apply elem_of_seq in Hk.
  pose proof (Nat.div_mod_eq (length l + 12 - 1) 12) as Hdiv.
  pose proof (Nat.mod_upper_bound (length l + 12 - 1) 12) as Hmod.
  unfold slice. rewrite length_take, length_drop. lia.
Qed.

Lemma chunk_lines_length (l : list string) :
  length (chunk_lines l) = ((length l + 11) / 12)%nat.
Proof.
  unfold chunk_lines, py_range_step, line_limit_n.
  rewrite !length_map, length_seq. f_equal. lia.
Qed.

Lemma filter_and_sublist {A : Type} (p q : A -> bool) (l : list A) :
  List.filter (fun x => p x && q x) l `sublist_of` List.filter p l.
Proof.
  induction l as [|x l IH]; simpl; [constructor |].
  destruct (p x), (q x); simpl; [by apply sublist_skip | by apply sublist_cons | done | done].
Qed.

End ChunkFacts.

(** X15: [change_line_vehicle] fails exactly when the configuration
    has no vehicle for the mode ["e"], and then before any call of
    the tool.  Otherwise the calls of the first loop, with that
    vehicle, select the returned lines in their order, each line
    once per occurrence in the list, and the calls of the second
    loop, with vehicle 12, select the lines of "OnniBus MEGA"; every
    call selects at least one and at most twelve lines, and the lines
    of the second loop are among the returned ones. *)
Theorem change_line_vehicle_calls (df : list stop_dist_row) (min_stop_dist : float)
    (cfg : dev_config) :
  match change_line_vehicle df min_stop_dist cfg with
  | None => vehicle_ids cfg !! "e" = None
  | Some (combined_lines, calls) =>
      exists veh chunks ob_chunks,
        vehicle_ids cfg !! "e" = Some veh
        /\ combined_lines = e_lines df min_stop_dist ++ ob_lines df
        /\ calls = map (select_lines veh) chunks ++ map (select_lines 12) ob_chunks
        /\ concat chunks = combined_lines
        /\ concat ob_chunks = ob_mega_lines df
        /\ Forall (fun c => (1 <= length c <= 12)%nat) (chunks ++ ob_chunks)
        /\ length calls = ((length combined_lines + 11) / 12
                           + (length (ob_mega_lines df) + 11) / 12)%nat
        /\ ob_mega_lines df `sublist_of` combined_lines
  end.
Proof.
  unfold change_line_vehicle. destruct (vehicle_ids cfg !! "e") as [veh|]; [| done].
  exists veh, (chunk_lines (e_lines df min_stop_dist ++ ob_lines df)),
    (chunk_lines (ob_mega_lines df)).
  split_and!; try done.
  - apply chunk_lines_concat.
  - apply chunk_lines_concat.
  - apply Forall_app. split; apply chunk_lines_sizes.
  - by rewrite length_app, !length_map, !chunk_lines_length.
  - apply sublist_inserts_l. unfold ob_mega_lines, ob_lines.
    apply fmap_sublist, filter_and_sublist.
Qed.

(** Thirteen lines beyond the threshold, one of them of "OnniBus
    MEGA": a call for twelve lines, a call for the last one and a
    call with vehicle 12; the line that starts with ["O"] is returned
    twice. *)
Example change_line_vehicle_thirteen :
  let row n := StopDistRow n "Local Co" 5000 in
  change_line_vehicle
    [row "A01"; row "A02"; row "A03"; row "A04"; row "A05"; row "A06"; row "A07";
     row "A08"; row "A09"; row "A10"; row "A11"; row "A12";
     StopDistRow "O13" "OnniBus MEGA" 7000; StopDistRow "A14" "Local Co" 400]
    2500 (DevConfig {["d" := 3; "e" := 4]} "name" ∅)
  = Some (["A01"; "A02"; "A03"; "A04"; "A05"; "A06"; "A07"; "A08"; "A09"; "A10"; "A11";
           "A12"; "O13"; "O13"],
          [ToolCall 4 "line = A01,A02,A03,A04,A05,A06,A07,A08,A09,A10,A11,A12";
           ToolCall 4 "line = O13,O13";
           ToolCall 12 "line = O13"]).
Proof. reflexivity. Qed.

(** X16: [set_vdfs] gives a link a delay function that depends on its
    type modulo 100 only, not on the function or the data the link
    had, and keeps the type, so that a second run changes nothing. *)
Theorem set_vdfs_idempotent (roadclasses : gmap Z road_class) (custom_roadtypes : gset Z)
    (links : list link) :
  set_vdfs roadclasses custom_roadtypes (set_vdfs roadclasses custom_roadtypes links)
  = set_vdfs roadclasses custom_roadtypes links
  /\ link_type <$> set_vdfs roadclasses custom_roadtypes links = link_type <$> links
  /\ forall l1 l2,
       link_type l1 mod 100 = link_type l2 mod 100 ->
       volume_delay_func (set_vdf roadclasses custom_roadtypes l1)
       = volume_delay_func (set_vdf roadclasses custom_roadtypes l2).
Proof.
  assert (Htype : forall l, link_type (set_vdf roadclasses custom_roadtypes l) = link_type l).
  { intros l. unfold set_vdf. by repeat case_match. }
  split_and!.
  - unfold set_vdfs. rewrite map_map. apply map_ext. intros l.
    unfold set_vdf at 1. rewrite Htype. unfold set_vdf.
    destruct (roadclasses !! (link_type l mod 100)) as [rc|]; [done |].
    by case_bool_decide.
  - unfold set_vdfs. rewrite <- list_fmap_compose. apply list_fmap_ext. intros _ l _. apply Htype.
  - intros l1 l2 Hmod. unfold set_vdf. rewrite Hmod.
    destruct (roadclasses !! (link_type l2 mod 100)) as [rc|]; [done |].
    by case_bool_decide.
Qed.

Section JoinFacts.

Variable nodes : list node_coord.
Hypothesis nodes_unique : NoDup (nc_node <$> nodes).

Lemma filter_node_absent (l : list node_coord) (n : Z) :
  n ∉ nc_node <$> l -> List.filter (fun m => nc_node m =? n) l = [].
Proof.
  induction l as [|m l IH]; [done |]. intros Hn. simpl.
  apply not_elem_of_cons in Hn as [Hm Hl].
  destruct (Z.eqb_spec (nc_node m) n) as [Heq|_]; [by destruct Hm | by apply IH].
Qed.

Lemma filter_node_unique (l : list node_coord) (n : Z) :
  NoDup (nc_node <$> l) ->
  ((n ∉ nc_node <$> l) /\ List.filter (fun m => nc_node m =? n) l = [])
  \/ exists m, m ∈ l /\ nc_node m = n /\ List.filter (fun m => nc_node m =? n) l = [m].
Proof.
  induction l as [|m l IH]; intros Hnd.
  - left. split; [apply not_elem_of_nil | done].
  - apply NoDup_cons in Hnd as [Hm Hl]. simpl.
    destruct (Z.eqb_spec (nc_node m) n) as [Heq|Hne].
    + right. exists m. split_and!; [left | done |].
      f_equal. apply filter_node_absent. by rewrite <- Heq.
    + destruct (IH Hl) as [[Hn Hf]|(m' & Hin & Hkey & Hf)].
      * left. split; [| done]. apply not_elem_of_cons. split; [congruence | done].
      * right. exists m'. split_and!; [by right | done | done].
Qed.

(** A node has one pair of coordinates: the ones of its row, or
    missing values. *)
Lemma merge_coords_single (n : Z) :
  exists c, merge_coords nodes n = [c]
    /\ (n ∉ nc_node <$> nodes -> c = (PrimFloat.nan, PrimFloat.nan))
    /\ (forall m, m ∈ nodes -> nc_node m = n -> c = (nc_x m, nc_y m)).
Proof.
  unfold merge_coords.
  destruct (filter_node_unique nodes n nodes_unique) as [[Hn ->]|(m & Hin & Hkey & ->)].
  - exists (PrimFloat.nan, PrimFloat.nan). split_and!; [done | done |].
    intros m Hm Hkey. destruct Hn. rewrite <- Hkey. by apply list_elem_of_fmap_2.
  - exists (nc_x m, nc_y m). split_and!; [done | |].
    + intros Hn. destruct Hn. rewrite <- Hkey. by apply list_elem_of_fmap_2.
    + intros m' Hm' Hkey'.
      assert (m' = m) as ->; [| done].
      clear -nodes_unique Hin Hm' Hkey Hkey'. subst n.
      induction nodes as [|x l IH]; [by apply elem_of_nil in Hin |].
      apply NoDup_cons in nodes_unique as [Hx Hl].
      apply elem_of_cons in Hin as [->|Hin]; apply elem_of_cons in Hm' as [->|Hm']; try done.
      * destruct Hx. rewrite <- Hkey'. by apply list_elem_of_fmap_2.
      * destruct Hx. rewrite Hkey'. by apply list_elem_of_fmap_2.
      * by apply IH.
Qed.

Lemma line_rows_names (e : line_end) :
  Forall (fun r => row_line r = le_line e) (line_rows nodes e).
Proof.
  unfold line_rows. apply Forall_forall. intros r Hr.
  apply list_elem_of_In, in_flat_map in Hr as (start & _ & Hr).
  apply in_map_iff in Hr as (stop & <- & _). done.
Qed.

Lemma df_loc_other (rows : list coord_row) (name line_id : string) :
  Forall (fun r => row_line r = name) rows -> name <> line_id -> df_loc rows line_id = [].
Proof.
  intros Hrows Hne. unfold df_loc. induction Hrows as [|r rows Hr _ IH]; [done |].
  simpl. rewrite Hr. by destruct (String.eqb_spec name line_id).
Qed.

Lemma df_loc_same (rows : list coord_row) (line_id : string) :
  Forall (fun r => row_line r = line_id) rows -> df_loc rows line_id = rows.
Proof.
  intros Hrows. unfold df_loc. induction Hrows as [|r rows Hr _ IH]; [done |].
  simpl. rewrite Hr, String.eqb_refl. by f_equal.
Qed.

Lemma df_loc_app (rows1 rows2 : list coord_row) (line_id : string) :
  df_loc (rows1 ++ rows2) line_id = df_loc rows1 line_id ++ df_loc rows2 line_id.
Proof. apply List.filter_app. Qed.

Lemma df_loc_absent (ends : list line_end) (line_id : string) :
  line_id ∉ le_line <$> ends -> df_loc (line_coords ends nodes) line_id = [].
Proof.
  induction ends as [|e ends IH]; [done |]. intros Hn.
  apply not_elem_of_cons in Hn as [He Hends].
  unfold line_coords. simpl. rewrite df_loc_app.
  rewrite (df_loc_other _ _ _ (line_rows_names e)) by congruence.
  by apply IH.
Qed.

Lemma df_loc_line_coords (ends : list line_end) (e : line_end) :
  NoDup (le_line <$> ends) -> e ∈ ends ->
  df_loc (line_coords ends nodes) (le_line e) = line_rows nodes e.
Proof.
  induction ends as [|e' ends IH]; intros Hnd Hin; [by apply elem_of_nil in Hin |].
  apply NoDup_cons in Hnd as [He' Hnd].
  unfold line_coords. simpl. rewrite df_loc_app.
  apply elem_of_cons in Hin as [->|Hin].
  - rewrite (df_loc_same _ _ (line_rows_names e')).
    fold (line_coords ends nodes). rewrite df_loc_absent by done. apply app_nil_r.
  - rewrite (df_loc_other _ _ _ (line_rows_names e')).
    + by apply IH.
    + intros Heq. destruct He'. rewrite Heq. by apply list_elem_of_fmap_2.
Qed.

End JoinFacts.

(** X17: when no node has two rows in the node table and no line two
    rows in the table of the line ends, the merged table holds one
    row for every line: it has the first and the last node of the
    line and the coordinates the node table gives for them.  The
    selection [get_direction_id] makes for such a line is a single
    row, so the call returns and does not raise [TypeError]. *)
Theorem line_coords_single_row (ends : list line_end) (nodes : list node_coord)
    (e : line_end) :
  NoDup (nc_node <$> nodes) -> NoDup (le_line <$> ends) -> e ∈ ends ->
  exists r,
    df_loc (line_coords ends nodes) (le_line e) = [r]
    /\ row_line r = le_line e /\ ca_first_t r = le_first_t e /\ ca_last_t r = le_last_t e
    /\ (forall n, n ∈ nodes -> nc_node n = le_first_t e -> xi r = nc_x n /\ yi r = nc_y n)
    /\ (forall n, n ∈ nodes -> nc_node n = le_last_t e -> xj r = nc_x n /\ yj r = nc_y n)
    /\ get_direction_id (line_coords ends nodes) (le_line e) = Return (direction_of_row r).
Proof.
  intros Hnodes Hends Hin.
  unfold get_direction_id. rewrite (df_loc_line_coords nodes ends e Hends Hin).
  unfold line_rows.
  destruct (merge_coords_single nodes Hnodes (le_first_t e)) as (start & -> & _ & Hstart).
  destruct (merge_coords_single nodes Hnodes (le_last_t e)) as (stop & -> & _ & Hstop).
  simpl. eexists. split_and!; try done; simpl.
  - intros n Hn Hkey. by rewrite (Hstart n Hn Hkey).
  - intros n Hn Hkey. by rewrite (Hstop n Hn Hkey).
Qed.

(** Two lines between the same two nodes. *)
Lemma line_coords_single_row_witness :
  exists r,
    df_loc (line_coords [LineEnd "1001" 7 8; LineEnd "1002" 8 7]
                        [NodeCoord 7 25506699 6673208; NodeCoord 8 25496699 6673208])
           "1002" = [r]
    /\ row_line r = "1002" /\ ca_first_t r = 8 /\ ca_last_t r = 7
    /\ (forall n, n ∈ [NodeCoord 7 25506699 6673208; NodeCoord 8 25496699 6673208] ->
                  nc_node n = 8 -> xi r = nc_x n /\ yi r = nc_y n)
    /\ (forall n, n ∈ [NodeCoord 7 25506699 6673208; NodeCoord 8 25496699 6673208] ->
                  nc_node n = 7 -> xj r = nc_x n /\ yj r = nc_y n)
    /\ get_direction_id (line_coords [LineEnd "1001" 7 8; LineEnd "1002" 8 7]
                           [NodeCoord 7 25506699 6673208; NodeCoord 8 25496699 6673208])
                        "1002" = Return (direction_of_row r).
Proof.
  apply (line_coords_single_row [LineEnd "1001" 7 8; LineEnd "1002" 8 7]
           [NodeCoord 7 25506699 6673208; NodeCoord 8 25496699 6673208]
           (LineEnd "1002" 8 7)).
  - refine (bool_decide_unpack _ _); vm_compute; exact I.
  - refine (bool_decide_unpack _ _); vm_compute; exact I.
  - right. left.
Defined.

Lemma hel_distance_missing : hel_distance PrimFloat.nan PrimFloat.nan = PrimFloat.nan.
Proof. reflexivity. Qed.

Lemma float_ltb_nan_l (x : float) : PrimFloat.ltb PrimFloat.nan x = false.
Proof. rewrite ltb_spec. reflexivity. Qed.

Lemma float_ltb_nan_r (x : float) : PrimFloat.ltb x PrimFloat.nan = false.
Proof.
  rewrite ltb_spec. change (Prim2SF PrimFloat.nan) with S754_nan.
  unfold SFltb. by destruct (Prim2SF x) as [[]|[]| |[]].
Qed.

(** X18: a line whose first or last node has no row in the node
    table gets missing values as coordinates, and with them
    [get_direction_id] never answers 2: the line is a loop (3) if its
    two nodes are the same one and runs away from the reference
    point (1) otherwise. *)
Theorem missing_node_direction (ends : list line_end) (nodes : list node_coord)
    (e : line_end) :
  NoDup (nc_node <$> nodes) -> NoDup (le_line <$> ends) -> e ∈ ends ->
  (le_first_t e ∉ nc_node <$> nodes) \/ (le_last_t e ∉ nc_node <$> nodes) ->
  get_direction_id (line_coords ends nodes) (le_line e)
  = Return (if le_first_t e =? le_last_t e then 3 else 1).
Proof.
  intros Hnodes Hends Hin Hmissing.
  unfold get_direction_id. rewrite (df_loc_line_coords nodes ends e Hends Hin).
  unfold line_rows.
  destruct (merge_coords_single nodes Hnodes (le_first_t e)) as (start & -> & Hstart & _).
  destruct (merge_coords_single nodes Hnodes (le_last_t e)) as (stop & -> & Hstop & _).
  simpl. unfold direction_of_row. simpl.
  destruct (le_first_t e =? le_last_t e); [done |].
  destruct Hmissing as [Hm|Hm].
  - rewrite (Hstart Hm). simpl. by rewrite hel_distance_missing, float_ltb_nan_r.
  - rewrite (Hstop Hm). simpl. by rewrite hel_distance_missing, float_ltb_nan_l.
Qed.

(** The last node of the line is not in the node table. *)
Lemma missing_node_direction_witness :
  get_direction_id (line_coords [LineEnd "1001" 7 9; LineEnd "1002" 8 7]
                      [NodeCoord 7 25506699 6673208; NodeCoord 8 25496699 6673208])
                   "1001" = Return 1.
Proof.
  apply (missing_node_direction [LineEnd "1001" 7 9; LineEnd "1002" 8 7]
           [NodeCoord 7 25506699 6673208; NodeCoord 8 25496699 6673208]
           (LineEnd "1001" 7 9)).
  - refine (bool_decide_unpack _ _); vm_compute; exact I.
  - refine (bool_decide_unpack _ _); vm_compute; exact I.
  - left.
  - right. refine (bool_decide_unpack _ _); vm_compute; exact I.
Defined.

(** * The pass on the merged table *)

Section PassOnTable.

Context {geometry : Type} (intersects : float * float -> geometry -> bool).
Variables (cfg : dev_config) (features : list (feature geometry)).
Variables (ends : list line_end) (nodes : list node_coord).
Hypothesis nodes_unique : NoDup (nc_node <$> nodes).
Hypothesis ends_unique : NoDup (le_line <$> ends).

Lemma df_loc_listed (line_id : string) :
  line_id ∈ le_line <$> ends -> exists r, df_loc (line_coords ends nodes) line_id = [r].
Proof.
  intros (e & -> & Hin)%list_elem_of_fmap.
  rewrite (df_loc_line_coords nodes ends e ends_unique Hin). unfold line_rows.
  destruct (merge_coords_single nodes nodes_unique (le_first_t e)) as (start & -> & _).
  destruct (merge_coords_single nodes nodes_unique (le_last_t e)) as (stop & -> & _).
  by eexists.
Qed.

(** With one row for the line the two classifiers return. *)
Lemma classifiers_return (line : transit_line) (r : coord_row) :
  df_loc (line_coords ends nodes) (line_id line) = [r] ->
  (exists line_letter,
     get_operator_name intersects (line_coords ends nodes) line features
       (muni_col_name cfg) (muni_short_codes cfg) = Return line_letter)
  /\ get_direction_id (line_coords ends nodes) (line_id line) = Return (direction_of_row r).
Proof.
  intros Hloc. unfold get_operator_name, get_direction_id. rewrite Hloc.
  split; [| done]. destruct (PyStr.contains _ _); by eexists.
Qed.

(** With no row for the line the round of the loop raises
    [TypeError]. *)
Lemma rename_line_without_row (line : transit_line) (st : registry) :
  renamed cfg line = true ->
  df_loc (line_coords ends nodes) (line_id line) = [] ->
  rename_line intersects cfg (line_coords ends nodes) features line st = Raise TypeError.
Proof.
  intros Hmode Hloc. unfold rename_line. unfold renamed in Hmode. rewrite Hmode.
  unfold get_operator_name, get_direction_id. rewrite Hloc.
  by destruct (PyStr.contains _ _).
Qed.

Lemma rename_lines_listed (tlines : list transit_line) : forall st,
  Forall (fun line => renamed cfg line = true -> line_id line ∈ le_line <$> ends) tlines ->
  match rename_lines intersects cfg (line_coords ends nodes) features tlines st with
  | Return _ => True
  | Raise e =>
      exists line line_letter dir_id st0,
        line ∈ tlines /\ (form_new_linename line line_letter dir_id st0).1.1 = Raise e
  | Unfinished => False
  end.
Proof.
  induction tlines as [|line rest IH]; intros st Hall; [done |].
  apply Forall_cons in Hall as [Hline Hrest]. simpl.
  assert (Hnext : forall st',
    match rename_lines intersects cfg (line_coords ends nodes) features rest st' with
    | Return _ => True
    | Raise e =>
        exists line0 line_letter dir_id st0,
          line0 ∈ line :: rest /\ (form_new_linename line0 line_letter dir_id st0).1.1 = Raise e
    | Unfinished => False
    end).
  { intros st'. specialize (IH st' Hrest).
    destruct (rename_lines _ _ _ _ rest st') as [[rest' st'']|e|]; [done | | done].
    destruct IH as (line0 & ll & d & st0 & Hin & Hcall).
    exists line0, ll, d, st0. split; [by right | done]. }
  unfold rename_line. fold (renamed cfg line).
  destruct (renamed cfg line) eqn:Hmode.
  - destruct (df_loc_listed (line_id line) (Hline eq_refl)) as [r Hloc].
    destruct (classifiers_return line r Hloc) as [[line_letter ->] ->].
    pose proof (form_new_linename_finishes line line_letter (direction_of_row r) st) as Hfin.
    destruct (form_new_linename line line_letter (direction_of_row r) st)
      as [[[[linename desc]|e|] st'] out] eqn:Hcall; simpl in Hfin; [| | done].
    + specialize (Hnext st').
      by destruct (rename_lines _ _ _ _ rest st') as [[rest' st'']|e|].
    + exists line, line_letter, (direction_of_row r), st. split; [left |]. by rewrite Hcall.
  - specialize (Hnext st).
    by destruct (rename_lines _ _ _ _ rest st) as [[rest' st'']|e|].
Qed.

Lemma rename_lines_unlisted (tlines : list transit_line) : forall st,
  Exists (fun line => renamed cfg line = true /\ line_id line ∉ le_line <$> ends) tlines ->
  exists e, rename_lines intersects cfg (line_coords ends nodes) features tlines st = Raise e.
Proof.
  induction tlines as [|line rest IH]; intros st Hex; [by apply Exists_nil in Hex |].
  simpl.
  assert (Hline : (exists e, rename_line intersects cfg (line_coords ends nodes) features line st
                             = Raise e)
                  \/ exists line' st',
                       rename_line intersects cfg (line_coords ends nodes) features line st
                       = Return (line', st')).
  { unfold rename_line. destruct (bool_decide _); [| right; by eexists _, _].
    destruct (get_operator_name _ _ _ _ _ _) as [line_letter|e|] eqn:Hop;
      [| left; by eexists |].
    - destruct (get_direction_id _ _) as [dir_id|e|] eqn:Hdir; [| left; by eexists |].
      + pose proof (form_new_linename_finishes line line_letter dir_id st) as Hfin.
        destruct (form_new_linename line line_letter dir_id st)
          as [[[[linename desc]|e|] st'] out]; simpl in Hfin; [| | done].
        * right. by eexists _, _.
        * left. by eexists.
      + unfold get_direction_id in Hdir. by repeat case_match.
    - unfold get_operator_name in Hop. by repeat case_match. }
  apply Exists_cons in Hex as [[Hmode Hout]|Hex].
  - rewrite rename_line_without_row; [by eexists | done |].
    by apply df_loc_absent.
  - destruct Hline as [[e ->]|(line' & st' & ->)]; [by eexists |].
    destruct (IH st' Hex) as [e ->]. by eexists.
Qed.

End PassOnTable.

(** X19: on a table of the line ends in which no line and no node
    has two rows and every line of a renamed mode has a row, a pass
    of [change_line_names] ends, and only [form_new_linename] can
    abort it: either the pass returns and has published the network,
    or it leaves the scenario as it was with an exception that a call
    of [form_new_linename] for one of the lines raises.  The
    classifiers of the area and of the direction do not raise. *)
Theorem change_line_names_on_table {geometry : Type}
    (intersects : float * float -> geometry -> bool) (cfg : dev_config)
    (features : list (feature geometry)) (ends : list line_end) (nodes : list node_coord)
    (sc : scenario) :
  NoDup (nc_node <$> nodes) -> NoDup (le_line <$> ends) ->
  (forall line, line ∈ stored_lines sc -> renamed cfg line = true ->
                line_id line ∈ le_line <$> ends) ->
  match change_line_names intersects cfg (line_coords ends nodes) features sc with
  | (Return _, sc') => published sc' = published sc ++ [stored_lines sc']
  | (Raise e, sc') =>
      sc' = sc
      /\ exists line line_letter dir_id st,
           line ∈ stored_lines sc
           /\ (form_new_linename line line_letter dir_id st).1.1 = Raise e
  | (Unfinished, _) => False
  end.
Proof.
  intros Hnodes Hends Hlisted. unfold change_line_names, get_network.
  pose proof (rename_lines_listed intersects cfg features ends nodes Hnodes Hends
                (stored_lines sc) empty_registry) as Hrun.
  destruct (rename_lines _ _ _ _ _ _) as [[network' st]|e|].
  - done.
  - split; [done |]. apply Hrun. apply Forall_forall. intros line Hin. by apply Hlisted.
  - apply Hrun. apply Forall_forall. intros line Hin. by apply Hlisted.
Qed.

(** The second line has no separator in its route name. *)
Lemma change_line_names_on_table_witness :
  match change_line_names (fun p (g : bool) => g)
          (DevConfig {["d" := 3]} "name" {["Lakeside District" := "L"]})
          (line_coords [LineEnd "1001" 7 8; LineEnd "1002" 8 7]
                       [NodeCoord 7 25506699 6673208; NodeCoord 8 25496699 6673208])
          [({["name" := "Lakeside District"]}, true)]
          (Scenario [TransitLine "1001" "d" "12 - Stationtown - Lakeside" "Local Co" "";
                     TransitLine "1002" "d" "Depot" "Local Co" ""] []) with
  | (Return _, sc') => published sc' = published (Scenario [TransitLine "1001" "d" "12 - Stationtown - Lakeside" "Local Co" "";
                     TransitLine "1002" "d" "Depot" "Local Co" ""] []) ++ [stored_lines sc']
  | (Raise e, sc') =>
      sc' = Scenario [TransitLine "1001" "d" "12 - Stationtown - Lakeside" "Local Co" "";
                      TransitLine "1002" "d" "Depot" "Local Co" ""] []
      /\ exists line line_letter dir_id st,
           line ∈ [TransitLine "1001" "d" "12 - Stationtown - Lakeside" "Local Co" "";
                   TransitLine "1002" "d" "Depot" "Local Co" ""]
           /\ (form_new_linename line line_letter dir_id st).1.1 = Raise e
  | (Unfinished, _) => False
  end.
Proof.
  apply (change_line_names_on_table (fun p (g : bool) => g)
           (DevConfig {["d" := 3]} "name" {["Lakeside District" := "L"]})
           [({["name" := "Lakeside District"]}, true)]
           [LineEnd "1001" 7 8; LineEnd "1002" 8 7]
           [NodeCoord 7 25506699 6673208; NodeCoord 8 25496699 6673208]
           (Scenario [TransitLine "1001" "d" "12 - Stationtown - Lakeside" "Local Co" "";
                      TransitLine "1002" "d" "Depot" "Local Co" ""] [])).
  - refine (bool_decide_unpack _ _); vm_compute; exact I.
  - refine (bool_decide_unpack _ _); vm_compute; exact I.
  - intros line Hin _. simpl in Hin.
    apply elem_of_cons in Hin as [->|Hin]; [left |].
    apply elem_of_cons in Hin as [->|Hin]; [right; left |].
    by apply elem_of_nil in Hin.
Defined.

(** X20: a line of a renamed mode that has no row in the table of
    the line ends, as a line of a mode other than ["d"] has none,
    aborts the pass: [change_line_names] raises and leaves the
    scenario as it was.  The round of the loop for that line itself
    raises [TypeError], whatever the registry holds. *)
Theorem change_line_names_unlisted_line {geometry : Type}
    (intersects : float * float -> geometry -> bool) (cfg : dev_config)
    (features : list (feature geometry)) (ends : list line_end) (nodes : list node_coord)
    (sc : scenario) (line : transit_line) :
  line ∈ stored_lines sc -> renamed cfg line = true ->
  (line_id line ∉ le_line <$> ends) ->
  (exists e, change_line_names intersects cfg (line_coords ends nodes) features sc
             = (Raise e, sc))
  /\ forall st, rename_line intersects cfg (line_coords ends nodes) features line st
                = Raise TypeError.
Proof.
  intros Hin Hmode Hout. split.
  - unfold change_line_names, get_network.
    destruct (rename_lines_unlisted intersects cfg features ends nodes
                (stored_lines sc) empty_registry) as [e ->]; [| by eexists].
    apply Exists_exists. by exists line.
  - intros st. apply rename_line_without_row; [done |]. by apply df_loc_absent.
Qed.

(** An express line that the table of the lines of mode ["d"] does
    not list. *)
Lemma change_line_names_unlisted_line_witness :
  (exists e,
     change_line_names (fun p (g : bool) => g)
       (DevConfig {["d" := 3; "e" := 4]} "name" {["Lakeside District" := "L"]})
       (line_coords [LineEnd "1001" 7 8]
                    [NodeCoord 7 25506699 6673208; NodeCoord 8 25496699 6673208])
       [({["name" := "Lakeside District"]}, true)]
       (Scenario [TransitLine "1001" "d" "12 - Stationtown - Lakeside" "Local Co" "";
                  TransitLine "1002" "e" "12 - Lakeside - Stationtown" "Local Co" ""] [])
     = (Raise e,
        Scenario [TransitLine "1001" "d" "12 - Stationtown - Lakeside" "Local Co" "";
                  TransitLine "1002" "e" "12 - Lakeside - Stationtown" "Local Co" ""] []))
  /\ forall st,
       rename_line (fun p (g : bool) => g)
         (DevConfig {["d" := 3; "e" := 4]} "name" {["Lakeside District" := "L"]})
         (line_coords [LineEnd "1001" 7 8]
                      [NodeCoord 7 25506699 6673208; NodeCoord 8 25496699 6673208])
         [({["name" := "Lakeside District"]}, true)]
         (TransitLine "1002" "e" "12 - Lakeside - Stationtown" "Local Co" "") st
       = Raise TypeError.
Proof.
  apply (change_line_names_unlisted_line (fun p (g : bool) => g)
           (DevConfig {["d" := 3; "e" := 4]} "name" {["Lakeside District" := "L"]})
           [({["name" := "Lakeside District"]}, true)]
           [LineEnd "1001" 7 8]
           [NodeCoord 7 25506699 6673208; NodeCoord 8 25496699 6673208]
           (Scenario [TransitLine "1001" "d" "12 - Stationtown - Lakeside" "Local Co" "";
                      TransitLine "1002" "e" "12 - Lakeside - Stationtown" "Local Co" ""] [])
           (TransitLine "1002" "e" "12 - Lakeside - Stationtown" "Local Co" "")).
  - right. left.
  - reflexivity.
  - refine (bool_decide_unpack _ _); vm_compute; exact I.
Defined.
